(** * MedGemma StructCore: KVT4 sanitation, URL normalisation and the
      readmission risk engine

    A shallow embedding of the deterministic parts of the two-stage
    structured pipeline:

    - [src/scripts/run_two_stage_structured_pipeline.py]
      ([_sanitize_stage2_lines], [_drop_hallucinated_negatives], the
      post-filters of [run_stage2], the Stage-1 Markdown trimming and
      [_compute_kvt4_format_stats]),
    - [src/kvt_utils.py] ([normalize_readmission_kvt4_lines],
      [_looks_like_kvt_fact], [_map_category_to_cluster], [_normalize_mode]),
    - [src/openai_compat.py] ([_normalize_urls]),
    - [src/Analysis_Readmission/readmission_risk_engine.py]
      ([parse_toon], the concept mapper, the cluster scorers,
      [detect_interactions], [score], [_logistic], [_predict_survival],
      [_predict_days], [_predict_bucket]).

    Python [str] values are modelled by [string]; the model is exact on
    ASCII text (white space, case mapping and digit classes are the ASCII
    restrictions of the Unicode ones). *)

From Stdlib Require Import Bool List String Ascii Arith ZArith NArith Lia.
From Stdlib Require Import Permutation QArith Qround DecimalString.
From Stdlib Require Import Reals Lra.
Import ListNotations.
Close Scope Q_scope.
Close Scope R_scope.
Open Scope string_scope.

(* ===================================================================== *)
(** ** Python string primitives *)
(* ===================================================================== *)

Module PyStr.

Definition code (c : ascii) : N := N_of_ascii c.

(** [str.isspace] on ASCII: TAB..CR, FS..US and the blank. *)
Definition is_space (c : ascii) : bool :=
  let n := code c in
  ((9 <=? n) && (n <=? 13) || (28 <=? n) && (n <=? 32))%N.

Definition is_digit (c : ascii) : bool :=
  let n := code c in ((48 <=? n) && (n <=? 57))%N.

Definition is_upper (c : ascii) : bool :=
  let n := code c in ((65 <=? n) && (n <=? 90))%N.

Definition is_lower (c : ascii) : bool :=
  let n := code c in ((97 <=? n) && (n <=? 122))%N.

Definition is_alpha (c : ascii) : bool := is_upper c || is_lower c.

Definition lower_char (c : ascii) : ascii :=
  if is_upper c then ascii_of_N (code c + 32) else c.

Definition upper_char (c : ascii) : ascii :=
  if is_lower c then ascii_of_N (code c - 32) else c.

Fixpoint map_str (f : ascii -> ascii) (s : string) : string :=
  match s with
  | EmptyString => EmptyString
  | String c r => String (f c) (map_str f r)
  end.

Definition lower : string -> string := map_str lower_char.
Definition upper : string -> string := map_str upper_char.
(** [str.casefold] coincides with [str.lower] on ASCII. *)
Definition casefold : string -> string := lower.

Fixpoint mem_char (c : ascii) (cs : string) : bool :=
  match cs with
  | EmptyString => false
  | String d r => Ascii.eqb c d || mem_char c r
  end.

Fixpoint forall_char (p : ascii -> bool) (s : string) : bool :=
  match s with
  | EmptyString => true
  | String c r => p c && forall_char p r
  end.

Definition is_empty (s : string) : bool :=
  match s with EmptyString => true | _ => false end.

(** [lstrip]/[rstrip]/[strip], parameterised by the set of characters to
    remove ([is_space] for the argument-less forms). *)
Fixpoint lstrip_by (p : ascii -> bool) (s : string) : string :=
  match s with
  | EmptyString => EmptyString
  | String c r => if p c then lstrip_by p r else s
  end.

Fixpoint rstrip_by (p : ascii -> bool) (s : string) : string :=
  match s with
  | EmptyString => EmptyString
  | String c r =>
      let r' := rstrip_by p r in
      if p c && is_empty r' then EmptyString else String c r'
  end.

Definition strip_by (p : ascii -> bool) (s : string) : string :=
  rstrip_by p (lstrip_by p s).

Definition strip : string -> string := strip_by is_space.
Definition lstrip : string -> string := lstrip_by is_space.
Definition rstrip : string -> string := rstrip_by is_space.
Definition strip_chars (cs : string) : string -> string :=
  strip_by (fun c => mem_char c cs).
Definition lstrip_chars (cs : string) : string -> string :=
  lstrip_by (fun c => mem_char c cs).
Definition rstrip_chars (cs : string) : string -> string :=
  rstrip_by (fun c => mem_char c cs).

(** [s.split(sep)] for a one-character separator: never the empty list. *)
Fixpoint split_on (sep : ascii) (s : string) : list string :=
  match s with
  | EmptyString => [EmptyString]
  | String c r =>
      if Ascii.eqb c sep then EmptyString :: split_on sep r
      else match split_on sep r with
           | h :: t => String c h :: t
           | [] => [String c EmptyString]
           end
  end.

(** [s.split(sep, 1)] as a pair, when the separator occurs. *)
Fixpoint split_once (sep : ascii) (s : string) : option (string * string) :=
  match s with
  | EmptyString => None
  | String c r =>
      if Ascii.eqb c sep then Some (EmptyString, r)
      else match split_once sep r with
           | Some (a, b) => Some (String c a, b)
           | None => None
           end
  end.

Fixpoint count_char (c : ascii) (s : string) : nat :=
  match s with
  | EmptyString => 0
  | String d r => (if Ascii.eqb d c then 1 else 0) + count_char c r
  end.

Definition startswith (s pre : string) : bool := prefix pre s.

Fixpoint endswith (s suf : string) : bool :=
  String.eqb s suf ||
  match s with
  | EmptyString => false
  | String _ r => endswith r suf
  end.

(** [sub in s]. *)
Fixpoint contains (sub s : string) : bool :=
  prefix sub s ||
  match s with
  | EmptyString => false
  | String _ r => contains sub r
  end.

(** [s.find(sub)]: index of the first occurrence, [None] for [-1]. *)
Fixpoint find (sub s : string) : option nat :=
  if prefix sub s then Some 0
  else match s with
       | EmptyString => None
       | String _ r => option_map S (find sub r)
       end.

Fixpoint drop (n : nat) (s : string) : string :=
  match n, s with
  | O, _ => s
  | S n', String _ r => drop n' r
  | S _, EmptyString => EmptyString
  end.

Fixpoint take (n : nat) (s : string) : string :=
  match n, s with
  | O, _ => EmptyString
  | S n', String c r => String c (take n' r)
  | S _, EmptyString => EmptyString
  end.

(** Line boundaries of [str.splitlines] (ASCII part): LF, VT, FF, CR,
    FS, GS, RS; a CR immediately followed by LF counts once. *)
Definition is_linebreak (c : ascii) : bool :=
  let n := code c in
  ((10 <=? n) && (n <=? 13) || (28 <=? n) && (n <=? 30))%N.

Fixpoint drop_cr_before_lf (s : string) : string :=
  match s with
  | EmptyString => EmptyString
  | String c r =>
      match r with
      | String d _ =>
          if Ascii.eqb c "013" && Ascii.eqb d "010"
          then drop_cr_before_lf r
          else String c (drop_cr_before_lf r)
      | EmptyString => String c EmptyString
      end
  end.

Fixpoint splitlines_lf (s : string) : list string :=
  match s with
  | EmptyString => []
  | String c r =>
      if is_linebreak c then EmptyString :: splitlines_lf r
      else match splitlines_lf r with
           | h :: t => String c h :: t
           | [] => [String c EmptyString]
           end
  end.

Definition splitlines (s : string) : list string :=
  splitlines_lf (drop_cr_before_lf s).

(** [sep.join(parts)]. *)
Fixpoint join (sep : string) (parts : list string) : string :=
  match parts with
  | [] => EmptyString
  | [p] => p
  | p :: rest => p ++ sep ++ join sep rest
  end.

(** [s.split()] without argument: maximal runs of non-blank characters. *)
Fixpoint words_aux (s : string) : list string * bool :=
  (* the flag tells whether the head of the list is still open *)
  match s with
  | EmptyString => ([], false)
  | String c r =>
      let '(ws, open) := words_aux r in
      if is_space c then (ws, false)
      else match ws, open with
           | h :: t, true => (String c h :: t, true)
           | _, _ => (String c EmptyString :: ws, true)
           end
  end.

Definition words (s : string) : list string := fst (words_aux s).

(** [re.sub(r"\s+", " ", s)]: every maximal blank run becomes one blank. *)
Fixpoint collapse_ws (s : string) : string :=
  match s with
  | EmptyString => EmptyString
  | String c r =>
      if is_space c then
        match r with
        | String d _ =>
            if is_space d then collapse_ws r else String " " (collapse_ws r)
        | EmptyString => String " " EmptyString
        end
      else String c (collapse_ws r)
  end.

(** [s.replace(old, new)] for a non-empty [old]; [fuel] bounds the scan. *)
Fixpoint replace_fuel (fuel : nat) (old new s : string) : string :=
  match fuel with
  | O => s
  | S f =>
      if prefix old s then new ++ replace_fuel f old new (drop (String.length old) s)
      else match s with
           | EmptyString => EmptyString
           | String c r => String c (replace_fuel f old new r)
           end
  end.

Definition replace (old new s : string) : string :=
  replace_fuel (S (String.length s)) old new s.

Definition str_in (s : string) (l : list string) : bool :=
  existsb (String.eqb s) l.

(** Lexicographic order on code points, as Python compares [str]. *)
Definition str_leb (a b : string) : bool :=
  match String.compare a b with Gt => false | _ => true end.

End PyStr.

(* ===================================================================== *)
(** ** Hallucinated-negative guard
       ([run_two_stage_structured_pipeline.py], [_drop_hallucinated_negatives]) *)
(* ===================================================================== *)

Module Guard.
Import PyStr.

Definition guarded_clusters : list string := ["MEDICATIONS"; "PROCEDURES"].

(** The cluster named by a Markdown line [## NAME], if the line is a
    section header. *)
Definition header_cluster (ln : string) : option string :=
  let stripped := strip ln in
  if startswith stripped "## "
  then Some (upper (strip (drop 3 stripped)))
  else None.

(** One iteration of the loop that fills the set [present]. *)
Definition present_step (present : list string) (ln : string) : list string :=
  match header_cluster ln with
  | Some cluster_name =>
      if str_in cluster_name guarded_clusters
      then cluster_name :: present
      else present
  | None => present
  end.

Definition present_clusters (md_in : string) : list string :=
  fold_left present_step (splitlines md_in) [].

(** One iteration of the filtering loop; the state is [(out, dropped)]. *)
Definition guard_step (present : list string)
  (st : list string * nat) (ln : string) : list string * nat :=
  let '(out, dropped) := st in
  match split_on "|" ln with
  | [p0; p1; p2; _] =>
      let cluster_u := upper (strip p0) in
      let keyword := strip p1 in
      let value_cf := casefold (strip p2) in
      if str_in cluster_u guarded_clusters
         && negb (str_in cluster_u present)
         && String.eqb value_cf "no"
      then
        if negb (String.eqb cluster_u "PROCEDURES"
                 && String.eqb keyword "Any Procedure")
        then (out, S dropped)
        else ((out ++ [ln])%list, dropped)
      else ((out ++ [ln])%list, dropped)
  | _ => ((out ++ [ln])%list, dropped)
  end.

Definition _drop_hallucinated_negatives
  (lines : list string) (md_in : string) : list string :=
  fst (fold_left (guard_step (present_clusters md_in)) lines ([], 0)).

(** *** Declarative reading of the guard *)

(** The Stage-1 Markdown has a section header for [name]. *)
Definition has_section (md_in name : string) : bool :=
  existsb
    (fun ln => match header_cluster ln with
               | Some c => String.eqb c name
               | None => false
               end)
    (splitlines md_in).

(** A four-field line of cluster [name] whose value is [no]. *)
Definition negative_of (name : string) (ln : string) : bool :=
  match split_on "|" ln with
  | [p0; _; p2; _] =>
      String.eqb (upper (strip p0)) name
      && String.eqb (casefold (strip p2)) "no"
  | _ => false
  end.

Definition keyword_of (ln : string) : string :=
  match split_on "|" ln with
  | _ :: p1 :: _ => strip p1
  | _ => EmptyString
  end.

(** What the code removes: every negative of an absent MEDICATIONS
    section, and every negative of an absent PROCEDURES section except
    the keyword [Any Procedure]. *)
Definition removed_by_guard (md_in : string) (ln : string) : bool :=
  (negative_of "MEDICATIONS" ln && negb (has_section md_in "MEDICATIONS"))
  || (negative_of "PROCEDURES" ln && negb (has_section md_in "PROCEDURES")
      && negb (String.eqb (keyword_of ln) "Any Procedure")).

(** What the specification sentence says is removed: for PROCEDURES only
    the keywords Surgery, Dialysis and Mechanical Ventilation. *)
Definition removed_as_specified (md_in : string) (ln : string) : bool :=
  (negative_of "MEDICATIONS" ln && negb (has_section md_in "MEDICATIONS"))
  || (negative_of "PROCEDURES" ln && negb (has_section md_in "PROCEDURES")
      && str_in (keyword_of ln) ["Surgery"; "Dialysis"; "Mechanical Ventilation"]).

Definition guard_as_specified (lines : list string) (md_in : string) : list string :=
  filter (fun ln => negb (removed_as_specified md_in ln)) lines.

End Guard.

(* ===================================================================== *)
(** ** LM client URL normalisation
       ([openai_compat.py], [OpenAICompatibleChatClient._normalize_urls]) *)
(* ===================================================================== *)

Module Url.
Import PyStr.

(** *** [urllib.parse] (CPython 3.11), restricted to ASCII text.

    [urlsplit] raises [ValueError] on a network location with an unmatched
    square bracket; this is the [None] result.  The validation of the
    contents of a bracketed host (3.11.4 and later) is not modelled. *)

Record ParseResult : Type := mkParse {
  scheme : string;
  netloc : string;
  path : string;
  params : string;
  query : string;
  fragment : string
}.

Definition scheme_char (c : ascii) : bool :=
  is_alpha c || is_digit c || mem_char c "+-.".

Definition uses_params : list string :=
  [""; "ftp"; "hdl"; "prospero"; "http"; "imap"; "https"; "shttp"; "rtsp";
   "rtspu"; "sip"; "sips"; "mms"; "sftp"; "tel"].

Definition uses_netloc : list string :=
  [""; "ftp"; "http"; "gopher"; "nntp"; "telnet"; "imap"; "wais"; "file";
   "mms"; "https"; "shttp"; "snews"; "prospero"; "rtsp"; "rtspu"; "rsync";
   "svn"; "svn+ssh"; "sftp"; "nfs"; "git"; "git+ssh"; "ws"; "wss"].

(** Removal of TAB, LF and CR anywhere in the URL. *)
Fixpoint remove_unsafe (s : string) : string :=
  match s with
  | EmptyString => EmptyString
  | String c r =>
      if mem_char c (String "009" (String "010" (String "013" EmptyString)))
      then remove_unsafe r
      else String c (remove_unsafe r)
  end.

Definition c0_or_space (c : ascii) : bool := (code c <=? 32)%N.

(** Index of the first character satisfying [p]. *)
Fixpoint find_char (p : ascii -> bool) (s : string) : option nat :=
  match s with
  | EmptyString => None
  | String c r => if p c then Some 0 else option_map S (find_char p r)
  end.

(** Index of the last occurrence of [c]. *)
Fixpoint rfind_char (c : ascii) (s : string) : option nat :=
  match s with
  | EmptyString => None
  | String d r =>
      match rfind_char c r with
      | Some i => Some (S i)
      | None => if Ascii.eqb d c then Some 0 else None
      end
  end.

(** The scheme prefix [url[:i]] and the rest [url[i+1:]], when the text
    before the first colon is a scheme. *)
Definition split_scheme (url : string) : string * string :=
  match find_char (Ascii.eqb ":") url with
  | Some (S i') =>
      let i := S i' in
      let pre := take i url in
      match url with
      | String c0 _ =>
          if is_alpha c0 && forall_char scheme_char pre
          then (lower pre, drop (S i) url)
          else (EmptyString, url)
      | EmptyString => (EmptyString, url)
      end
  | _ => (EmptyString, url)
  end.

(** [_splitnetloc(url, 2)]: the authority ends at the first of [/?#]. *)
Definition _splitnetloc (url : string) : string * string :=
  let rest := drop 2 url in
  match find_char (fun c => mem_char c "/?#") rest with
  | Some d => (take d rest, drop d rest)
  | None => (rest, EmptyString)
  end.

Definition split_at (sep : ascii) (s : string) : string * string :=
  match split_once sep s with
  | Some (a, b) => (a, b)
  | None => (s, EmptyString)
  end.

Definition urlsplit (url0 : string)
  : option (string * string * string * string * string) :=
  let url := remove_unsafe (lstrip_by c0_or_space url0) in
  let '(sch, url) := split_scheme url in
  let '(nl, url) :=
    if String.eqb (take 2 url) "//" then _splitnetloc url
    else (EmptyString, url) in
  if (mem_char "[" nl && negb (mem_char "]" nl))
     || (mem_char "]" nl && negb (mem_char "[" nl))
  then None
  else
    let '(url, frag) := split_at "#" url in
    let '(url, q) := split_at "?" url in
    Some (sch, nl, url, q, frag).

Definition _splitparams (url : string) : string * string :=
  match rfind_char "/" url with
  | Some j =>
      match find_char (Ascii.eqb ";") (drop j url) with
      | Some i => (take (j + i) url, drop (S (j + i)) url)
      | None => (url, EmptyString)
      end
  | None =>
      match find_char (Ascii.eqb ";") url with
      | Some i => (take i url, drop (S i) url)
      | None =>
          (* unreachable from [urlparse], which tests [';' in url] first *)
          (url, EmptyString)
      end
  end.

Definition urlparse (url : string) : option ParseResult :=
  match urlsplit url with
  | None => None
  | Some (sch, nl, url, q, frag) =>
      let '(url, prm) :=
        if str_in sch uses_params && mem_char ";" url
        then _splitparams url
        else (url, EmptyString) in
      Some (mkParse sch nl url prm q frag)
  end.

Definition urlunsplit (sch nl url q frag : string) : string :=
  let url :=
    if negb (is_empty nl)
       || (negb (is_empty sch) && str_in sch uses_netloc
           && negb (String.eqb (take 2 url) "//"))
    then
      let url := if negb (is_empty url) && negb (String.eqb (take 1 url) "/")
                 then "/" ++ url else url in
      "//" ++ nl ++ url
    else url in
  let url := if negb (is_empty sch) then sch ++ ":" ++ url else url in
  let url := if negb (is_empty q) then url ++ "?" ++ q else url in
  if negb (is_empty frag) then url ++ "#" ++ frag else url.

Definition urlunparse (sch nl url prm q frag : string) : string :=
  let url := if negb (is_empty prm) then url ++ ";" ++ prm else url in
  urlunsplit sch nl url q frag.

(** *** The client's normalisation *)

Definition _normalize_urls (url : string) : option (string * string) :=
  let u := strip url in
  if is_empty u then Some (EmptyString, "/v1")
  else
    let u := if negb (contains "://" u) then "http://" ++ u else u in
    match urlparse u with
    | None => None
    | Some p =>
        let path0 := rstrip_chars "/" (path p) in
        let path1 :=
          match find "/v1" path0 with
          | Some v1_idx =>
              let after := drop (v1_idx + 3) path0 in
              if is_empty after || startswith after "/"
              then take v1_idx path0
              else path0
          | None => path0
          end in
        let root :=
          rstrip_chars "/"
            (urlunparse (scheme p) (netloc p) path1 EmptyString
                        (query p) (fragment p)) in
        Some (root, root ++ "/v1")
    end.

(** *** The reading of the specification sentence

    A position where [/v1] is a whole path segment. *)
Fixpoint v1_segment_at (s : string) : option nat :=
  if prefix "/v1" s
     && (is_empty (drop 3 s) || startswith (drop 3 s) "/")
  then Some 0
  else match s with
       | EmptyString => None
       | String _ r => option_map S (v1_segment_at r)
       end.

End Url.

(* ===================================================================== *)
(** ** The rule-based risk engine
       ([Analysis_Readmission/readmission_risk_engine.py]) *)
(* ===================================================================== *)

Module Risk.
Import PyStr.
Local Open Scope Z_scope.

(** Numeric fact values are Python floats; they are modelled by exact
    rationals, which agree with the floats on every comparison the engine
    makes between a decimal reading and a decimal threshold. *)
Definition Qltb (a b : Q) : bool := negb (Qle_bool b a).
Definition Qleb (a b : Q) : bool := Qle_bool a b.

Inductive Value : Type :=
| VNum (q : Q)
| VStr (s : string).

Record ParsedFact : Type := mkFact {
  cluster : string;
  keyword : string;
  value : Value;
  timestamp : string;
  is_numeric : bool;
  plausibility_ok : bool
}.

Record InteractionResult : Type := mkInteraction {
  pattern_id : string;
  pattern_name : string;
  bonus : Z
}.

Definition VALID_CLUSTERS : list string :=
  ["DEMOGRAPHICS"; "VITALS"; "LABS"; "PROBLEMS"; "SYMPTOMS";
   "MEDICATIONS"; "PROCEDURES"; "UTILIZATION"; "DISPOSITION"].
Definition NUMERIC_CLUSTERS : list string := ["VITALS"; "LABS"; "UTILIZATION"].
Definition OBJECTIVE_CLUSTERS : list string :=
  ["DEMOGRAPHICS"; "VITALS"; "LABS"; "UTILIZATION"; "DISPOSITION"].

(** *** The rule bundle ([config/scoring_rules.json] and the group files,
    which are not part of the sources: they are parameters of the engine) *)

Record RangeRule : Type := mkRange {
  r_min : Q; r_max : Q; r_score : Z; r_label : string
}.

Record KwRules : Type := mkKwRules {
  kw_type : string;                       (* "type" *)
  ranges : list RangeRule;                (* "ranges" *)
  values : list (string * Z);             (* "values" *)
  plausibility : option (Q * Q);          (* "plausibility": min, max *)
  score_if_any_positive : Z;
  missing_score : option Z
}.

Definition no_rules : KwRules := mkKwRules "" [] [] None 0 None.

Record Group : Type := mkGroup { gid : string; risk_weight : Z }.

(** The engine instance.  Float parsing and printing belong to the host
    language, and the concept mappers depend on the group files; they are
    fields of the instance and every result below holds for all of them. *)
Record ReadmissionRiskEngine : Type := mkEngine {
  _scoring_rules : list (string * list (string * KwRules));
  map_problem_to_group : string -> option Group;
  map_symptom_to_group : string -> option Group;
  float_of_string : string -> option Q;   (* [float(s)], [None] on ValueError *)
  string_of_float : Q -> string           (* [str(x)] for a float *)
}.

Fixpoint assoc {A : Type} (k : string) (l : list (string * A)) : option A :=
  match l with
  | [] => None
  | (k', v) :: r => if String.eqb k k' then Some v else assoc k r
  end.

Definition cluster_keywords (self : ReadmissionRiskEngine) (c : string)
  : list (string * KwRules) :=
  match assoc c (_scoring_rules self) with Some l => l | None => [] end.

(** [rules[kw]] for an entry the bundle is required to define. *)
Definition rule_of (rules : list (string * KwRules)) (kw : string) : KwRules :=
  match assoc kw rules with Some r => r | None => no_rules end.

Definition dict_get (vals : list (string * Z)) (k : string) (dflt : Z) : Z :=
  match assoc k vals with Some v => v | None => dflt end.

(** *** Fact store: [Dict[str, List[ParsedFact]]] in insertion order *)

Definition Facts : Type := list (string * list ParsedFact).

Definition facts_get (facts : Facts) (c : string) : list ParsedFact :=
  match assoc c facts with Some l => l | None => [] end.

(** [facts.setdefault(c, []).append(f)] *)
Fixpoint facts_append (c : string) (f : ParsedFact) (facts : Facts) : Facts :=
  match facts with
  | [] => [(c, [f])]
  | (c', l) :: r =>
      if String.eqb c c' then (c', (l ++ [f])%list) :: r
      else (c', l) :: facts_append c f r
  end.

(** [str(f.value)] *)
Definition str_value (self : ReadmissionRiskEngine) (v : Value) : string :=
  match v with
  | VNum q => string_of_float self q
  | VStr s => s
  end.

Definition num_value (v : Value) : Q :=
  match v with VNum q => q | VStr _ => 0%Q end.

(** *** Layer 1: parser *)

Fixpoint first_numeric_token_from (s : string) : option string :=
  (* [re.search(r"[-+]?\d+(?:\.\d+)?", s)] *)
  let digits := fix digits (t : string) : string * string :=
    match t with
    | String c r => if is_digit c then let '(d, rest) := digits r in (String c d, rest)
                    else (EmptyString, t)
    | EmptyString => (EmptyString, EmptyString)
    end in
  let number (t : string) : option string :=
    let '(d, rest) := digits t in
    if is_empty d then None
    else match rest with
         | String "." r' =>
             let '(d2, _) := digits r' in
             if is_empty d2 then Some d else Some (d ++ "." ++ d2)
         | _ => Some d
         end in
  match s with
  | EmptyString => None
  | String c r =>
      let here :=
        if mem_char c "-+" then
          match number r with
          | Some n => Some (String c n)
          | None => number s
          end
        else number s in
      match here with
      | Some n => Some n
      | None => first_numeric_token_from r
      end
  end.

Definition _try_parse_float (self : ReadmissionRiskEngine) (v : string) : option Q :=
  let s := strip v in
  if is_empty s then None
  else if mem_char "/" s then None
  else match float_of_string self s with
       | Some x => Some x
       | None =>
           match first_numeric_token_from s with
           | None => None
           | Some tok => float_of_string self tok
           end
       end.

Definition _check_plausibility (self : ReadmissionRiskEngine)
  (c kw : string) (v : Q) : bool :=
  match assoc kw (cluster_keywords self c) with
  | Some r =>
      match plausibility r with
      | Some (lo, hi) => Qleb lo v && Qleb v hi
      | None => true
      end
  | None => true
  end.

(** [_strip_prefix]: the prefixes are tried once each, in order. *)
Definition _strip_prefix (kw : string) (prefixes : list string) : string :=
  fold_left
    (fun k p =>
       if startswith (casefold k) (casefold p)
       then strip (drop (String.length p) k) else k)
    prefixes (strip kw).

(** [_split_semantic_items] with its default [limit = 20]. *)
Definition split_semicolon (s : string) : list string :=
  (* [re.split(r"[;\n]+", s)] followed by dropping blank pieces *)
  List.concat (map (split_on "010") (split_on ";" s)).

Fixpoint dedup_casefold (seen : list string) (l : list string) : list string :=
  match l with
  | [] => []
  | it :: r =>
      let k := casefold it in
      if str_in k seen then dedup_casefold seen r
      else it :: dedup_casefold (k :: seen) r
  end.

Definition _split_semantic_items (v : string) : list string :=
  let raw := strip v in
  if is_empty raw then []
  else
    let segs := filter (fun s => negb (is_empty s)) (map strip (split_semicolon raw)) in
    let items :=
      List.concat (map (fun seg =>
                     filter (fun it => negb (is_empty it))
                       (map (fun item => join " " (words (strip item)))
                            (split_on "," seg)))
                  segs) in
    let parts := map (strip_chars " -") (firstn 20 items) in
    dedup_casefold [] parts.

(** The parser state: facts, [n_parsed], [n_dropped], [seen_objective]. *)
Record ParseState : Type := mkPS {
  ps_facts : Facts;
  n_parsed : nat;
  n_dropped : nat;
  seen_objective : list (string * string)
}.

Definition is_empty_list {A : Type} (l : list A) : bool :=
  match l with [] => true | _ => false end.

Definition key_in (k : string * string) (seen : list (string * string)) : bool :=
  existsb (fun k' => String.eqb (fst k) (fst k') && String.eqb (snd k) (snd k')) seen.

Definition drop_line (st : ParseState) : ParseState :=
  mkPS (ps_facts st) (n_parsed st) (S (n_dropped st)) (seen_objective st).

Definition add_fact (st : ParseState) (f : ParsedFact) : ParseState :=
  mkPS (facts_append (cluster f) f (ps_facts st)) (S (n_parsed st))
       (n_dropped st) (seen_objective st).

Definition acute_keys : list string :=
  ["discharge dx"; "working dx"; "complication"; "complications"].
Definition chronic_keys : list string :=
  ["pmh/comorbidities"; "pmh"; "comorbidities"; "past medical history"].

(** The numeric-parsing stage of one record: [None] when the record is
    dropped, otherwise the stored value and the [is_numeric] flag. *)
Definition parse_value (self : ReadmissionRiskEngine)
  (c kw v : string) : option (Value * bool) :=
  let kwt := match assoc kw (cluster_keywords self c) with
             | Some r => kw_type r | None => EmptyString end in
  if str_in c NUMERIC_CLUSTERS || String.eqb kwt "range" then
    match _try_parse_float self v with
    | None => None
    | Some x => Some (VNum x, true)
    end
  else if String.eqb kwt "mixed" then
    match _try_parse_float self v with
    | None => Some (VStr v, false)
    | Some x => Some (VNum x, true)
    end
  else Some (VStr v, false).

(** One iteration of the loop of [parse_toon]. *)
Definition parse_step (self : ReadmissionRiskEngine)
  (st : ParseState) (raw_line : string) : ParseState :=
  let line := strip raw_line in
  if is_empty line || startswith line "#" then st
  else
    match split_on "|" line with
    | [p0; p1; p2; p3] =>
        let c := strip p0 in
        let kw0 := strip p1 in
        let v := strip p2 in
        let ts := strip p3 in
        if negb (str_in c VALID_CLUSTERS) then drop_line st
        else
          let kw :=
            if String.eqb c "PROBLEMS" then
              _strip_prefix kw0 ["PMH:"; "PMH/Comorbidities:"; "Discharge Dx:";
                                 "Working Dx:"; "Complication:"; "Complications:"]
            else if String.eqb c "SYMPTOMS" then _strip_prefix kw0 ["ADM:"; "DC:"]
            else kw0 in
          let items := _split_semantic_items v in
          let kw_cf := casefold (strip kw) in
          if String.eqb c "PROBLEMS" && str_in kw_cf acute_keys
             && negb (is_empty_list items)
          then fold_left
                 (fun s it => add_fact s (mkFact "PROBLEMS" it (VStr "acute") "Discharge" false true))
                 items st
          else if String.eqb c "PROBLEMS" && str_in kw_cf chronic_keys
                  && negb (is_empty_list items)
          then fold_left
                 (fun s it => add_fact s (mkFact "PROBLEMS" it (VStr "chronic") "Past" false true))
                 items st
          else
            match parse_value self c kw v with
            | None => drop_line st
            | Some (pv, isnum) =>
                let plaus :=
                  if isnum then _check_plausibility self c kw (num_value pv)
                  else true in
                if str_in c OBJECTIVE_CLUSTERS then
                  if key_in (c, kw) (seen_objective st) then drop_line st
                  else
                    mkPS (facts_append c (mkFact c kw pv ts isnum plaus) (ps_facts st))
                         (S (n_parsed st)) (n_dropped st)
                         ((c, kw) :: seen_objective st)
                else add_fact st (mkFact c kw pv ts isnum plaus)
            end
    | _ => drop_line st
    end.

Definition parse_lines (self : ReadmissionRiskEngine) (lines : list string)
  : ParseState :=
  fold_left (parse_step self) lines (mkPS [] 0 0 []).

Definition parse_toon (self : ReadmissionRiskEngine) (toon_text : string)
  : Facts * nat * nat :=
  let st := parse_lines self (splitlines (strip toon_text)) in
  (ps_facts st, n_parsed st, n_dropped st).


(** *** Layer 3: cluster scorers

    Only the [score] component of each [ClusterScore] is modelled; the
    explanatory factor strings are kept where they influence the score
    (derived polypharmacy in [score_medications]). *)

Definition _score_range_keyword (rules : KwRules) (v : Q) : Z * string :=
  match List.find (fun r => Qleb (r_min r) v && Qleb v (r_max r)) (ranges rules) with
  | Some r => (r_score r, r_label r)
  | None => (0, EmptyString)
  end.

(** [str(f.value).lower().strip()] *)
Definition norm_val (self : ReadmissionRiskEngine) (f : ParsedFact) : string :=
  strip (lower (str_value self (value f))).

Definition score_demographics (self : ReadmissionRiskEngine)
  (facts : list ParsedFact) : Z :=
  let rules := cluster_keywords self "DEMOGRAPHICS" in
  let '(score, age_found) :=
    fold_left
      (fun (st : Z * bool) f =>
         let '(score, age_found) := st in
         if String.eqb (keyword f) "Age" && is_numeric f then
           (score + fst (_score_range_keyword (rule_of rules "Age") (num_value (value f))), true)
         else if String.eqb (keyword f) "Sex" then
           (score + dict_get (values (rule_of rules "Sex"))
                             (lower (str_value self (value f))) 0, age_found)
         else st)
      facts (0, false) in
  if age_found then score
  else score + match missing_score (rule_of rules "Age") with
               | Some d => d | None => 2 end.

Definition vitals_points (self : ReadmissionRiskEngine) (f : ParsedFact) : Z :=
  if negb (is_numeric f) || negb (plausibility_ok f) then 0
  else match assoc (keyword f) (cluster_keywords self "VITALS") with
       | None => 0
       | Some kw_rules =>
           if String.eqb (kw_type kw_rules) "no_direct_score" then 0
           else fst (_score_range_keyword kw_rules (num_value (value f)))
       end.

Definition score_vitals (self : ReadmissionRiskEngine)
  (facts : list ParsedFact) : Z :=
  fold_left (fun score f => score + vitals_points self f) facts 0.

Definition labs_points (self : ReadmissionRiskEngine) (f : ParsedFact) : Z :=
  if negb (is_numeric f) || negb (plausibility_ok f) then 0
  else match assoc (keyword f) (cluster_keywords self "LABS") with
       | None => 0
       | Some kw_rules => fst (_score_range_keyword kw_rules (num_value (value f)))
       end.

Definition score_labs (self : ReadmissionRiskEngine)
  (facts : list ParsedFact) : Z :=
  fold_left (fun score f => score + labs_points self f) facts 0.

(** [d[k] = v] on an insertion-ordered dictionary. *)
Fixpoint dict_set {A : Type} (k : string) (v : A) (d : list (string * A))
  : list (string * A) :=
  match d with
  | [] => [(k, v)]
  | (k', v') :: r =>
      if String.eqb k k' then (k', v) :: r else (k', v') :: dict_set k v r
  end.

Definition problem_active (self : ReadmissionRiskEngine) (f : ParsedFact) : bool :=
  str_in (norm_val self f) ["chronic"; "acute"; "exist"].

Definition score_problems (self : ReadmissionRiskEngine)
  (facts : list ParsedFact) : Z :=
  let active_groups :=
    fold_left
      (fun (ag : list (string * Z)) f =>
         if negb (problem_active self f) then ag
         else match map_problem_to_group self (keyword f) with
              | None => ag
              | Some g =>
                  match assoc (gid g) ag with
                  | None => dict_set (gid g) (risk_weight g) ag
                  | Some w0 =>
                      if w0 <? risk_weight g
                      then dict_set (gid g) (risk_weight g) ag else ag
                  end
              end)
      facts [] in
  let base_score := fold_left (fun a kv => a + snd kv) active_groups 0 in
  let n_groups := Z.of_nat (List.length active_groups) in
  let mm_bonus := if 3 <? n_groups then Z.min (n_groups - 3) 5 else 0 in
  Z.min (base_score + mm_bonus) 40.

(** [int(round(x))]: rounding to the nearest integer, ties to even. *)
Definition py_round (x : Q) : Z :=
  let f := Qfloor x in
  match Qcompare (x - inject_Z f) (1 # 2) with
  | Lt => f
  | Gt => f + 1
  | Eq => if Z.even f then f else f + 1
  end.

Definition sev_mult (val : string) : Q :=
  if String.eqb val "severe" then (3 # 2)%Q
  else if String.eqb val "yes" then 1%Q
  else 0%Q.

Definition score_symptoms (self : ReadmissionRiskEngine)
  (facts : list ParsedFact) : Z :=
  let '(active_groups, active_count) :=
    fold_left
      (fun (st : list (string * Q) * Z) f =>
         let '(ag, n) := st in
         let mult := sev_mult (norm_val self f) in
         if Qeq_bool mult 0 then st
         else
           let ag' :=
             match map_symptom_to_group self (keyword f) with
             | None => ag
             | Some g =>
                 let w := (inject_Z (risk_weight g) * mult)%Q in
                 match assoc (gid g) ag with
                 | None => dict_set (gid g) w ag
                 | Some w0 => if Qltb w0 w then dict_set (gid g) w ag else ag
                 end
             end in
           (ag', n + 1))
      facts ([], 0) in
  let base_score := fold_left (fun a kv => (a + snd kv)%Q) active_groups 0%Q in
  let bonus := if 3 <? active_count then 2 else 0 in
  Z.min (py_round (base_score + inject_Z bonus)%Q) 15.

Definition string_of_Z (z : Z) : string :=
  DecimalString.NilZero.string_of_int (Z.to_int z).

Definition score_medications (self : ReadmissionRiskEngine)
  (facts : list ParsedFact) : Z :=
  let rules := cluster_keywords self "MEDICATIONS" in
  let '(score, factors, med_count_val) :=
    fold_left
      (fun (st : Z * list string * option Q) f =>
         let '(score, factors, mc) := st in
         match assoc (keyword f) rules with
         | None => st
         | Some kw_rules =>
             if String.eqb (kw_type kw_rules) "range" && is_numeric f then
               let '(pts, label) := _score_range_keyword kw_rules (num_value (value f)) in
               let mc' := if String.eqb (keyword f) "Medication Count"
                          then Some (num_value (value f)) else mc in
               let factors' :=
                 if 0 <? pts
                 then List.app factors
                        [keyword f ++ "=" ++ str_value self (value f)
                         ++ " (" ++ label ++ ", +" ++ string_of_Z pts ++ ")"]
                 else factors in
               (score + pts, factors', mc')
             else if String.eqb (kw_type kw_rules) "categorical" then
               let val := norm_val self f in
               let pts := dict_get (values kw_rules) val 0 in
               let factors' :=
                 if 0 <? pts
                 then List.app factors
                        [keyword f ++ "=" ++ val ++ " (+" ++ string_of_Z pts ++ ")"]
                 else factors in
               (score + pts, factors', mc)
             else st
         end)
      facts (0, [], None) in
  let polypharmacy_scored := existsb (contains "Polypharmacy") factors in
  let score :=
    match med_count_val with
    | Some m => if Qleb 5 m && negb polypharmacy_scored then score + 3 else score
    | None => score
    end in
  Z.min score 15.

Definition score_procedures (self : ReadmissionRiskEngine)
  (facts : list ParsedFact) : Z :=
  let rules := cluster_keywords self "PROCEDURES" in
  let '(score, specific_scored) :=
    fold_left
      (fun (st : Z * bool) f =>
         let '(score, specific) := st in
         match assoc (keyword f) rules with
         | None => st
         | Some kw_rules =>
             if String.eqb (keyword f) "Mechanical Ventilation" then
               if (is_numeric f && Qltb 0 (num_value (value f)))
                  || negb (String.eqb (norm_val self f) "no")
               then (score + score_if_any_positive kw_rules, true)
               else st
             else if String.eqb (keyword f) "Dialysis"
                     || String.eqb (keyword f) "Surgery" then
               let pts := dict_get (values kw_rules) (norm_val self f) 0 in
               (score + pts, specific || (0 <? pts))
             else st
         end)
      facts (0, false) in
  let score :=
    if specific_scored then score
    else match List.find (fun f => String.eqb (keyword f) "Any Procedure") facts with
         | Some f => score + dict_get (values (rule_of rules "Any Procedure"))
                                      (norm_val self f) 0
         | None => score
         end in
  Z.min score 15.

Definition utilization_points (self : ReadmissionRiskEngine) (f : ParsedFact) : Z :=
  if negb (is_numeric f) then 0
  else match assoc (keyword f) (cluster_keywords self "UTILIZATION") with
       | None => 0
       | Some kw_rules => fst (_score_range_keyword kw_rules (num_value (value f)))
       end.

Definition score_utilization (self : ReadmissionRiskEngine)
  (facts : list ParsedFact) : Z :=
  Z.min (fold_left (fun score f => score + utilization_points self f) facts 0) 20.

Definition _normalize_discharge_disposition (v0 : string) : string :=
  let v := strip v0 in
  let v_cf := casefold v in
  if is_empty v then v
  else if str_in v_cf ["home with service"; "home w service"; "home with svc";
                       "home w/ service"] then "Home with Services"
  else if str_in v_cf ["home with services"; "home w services"; "home w/ services";
                       "home health"; "home health care"] then "Home with Services"
  else if str_in v_cf ["hospice residence"; "hospice care"] then "Hospice"
  else v.

Definition _normalize_mental_status (v0 : string) : string :=
  let v := strip v0 in
  let v_cf := casefold v in
  if is_empty v then v
  else if contains "alert" v_cf && contains "orient" v_cf then "alert"
  else if str_in v_cf ["a&o"; "ao"; "a/ox3"; "a/ox4"] then "alert"
  else v.

Definition disposition_points (self : ReadmissionRiskEngine) (f : ParsedFact) : Z :=
  match assoc (keyword f) (cluster_keywords self "DISPOSITION") with
  | None => 0
  | Some kw_rules =>
      let val0 := strip (str_value self (value f)) in
      let val :=
        if String.eqb (keyword f) "Discharge Disposition"
        then _normalize_discharge_disposition val0
        else if String.eqb (keyword f) "Mental Status"
        then _normalize_mental_status val0
        else val0 in
      dict_get (values kw_rules) val (dict_get (values kw_rules) (lower val) 0)
  end.

Definition score_disposition (self : ReadmissionRiskEngine)
  (facts : list ParsedFact) : Z :=
  Z.min (fold_left (fun score f => score + disposition_points self f) facts 0) 15.

(** *** Layer 4: pattern detector *)

Definition get_val (facts : Facts) (c kw : string) : option Q :=
  match List.find (fun f => String.eqb (keyword f) kw && is_numeric f) (facts_get facts c) with
  | Some f => Some (num_value (value f))
  | None => None
  end.

Definition get_str (self : ReadmissionRiskEngine) (facts : Facts) (c kw : string)
  : option string :=
  match List.find (fun f => String.eqb (keyword f) kw) (facts_get facts c) with
  | Some f => Some (norm_val self f)
  | None => None
  end.

Definition has_symptom_group (self : ReadmissionRiskEngine) (facts : Facts)
  (group_id : string) : bool :=
  existsb
    (fun f =>
       str_in (norm_val self f) ["yes"; "severe"]
       && match map_symptom_to_group self (keyword f) with
          | Some g => String.eqb (gid g) group_id
          | None => false
          end)
    (facts_get facts "SYMPTOMS").

Definition has_problem_group (self : ReadmissionRiskEngine) (facts : Facts)
  (group_id : string) : bool :=
  existsb
    (fun f =>
       problem_active self f
       && match map_problem_to_group self (keyword f) with
          | Some g => String.eqb (gid g) group_id
          | None => false
          end)
    (facts_get facts "PROBLEMS").

Fixpoint dedup_str (l : list string) : list string :=
  match l with
  | [] => []
  | x :: r => if str_in x r then dedup_str r else x :: dedup_str r
  end.

Definition n_problem_groups (self : ReadmissionRiskEngine) (facts : Facts) : Z :=
  Z.of_nat (List.length (dedup_str
    (flat_map
       (fun f =>
          if problem_active self f then
            match map_problem_to_group self (keyword f) with
            | Some g => [gid g]
            | None => []
            end
          else [])
       (facts_get facts "PROBLEMS")))).

Definition opt_test (o : option Q) (p : Q -> bool) : bool :=
  match o with Some x => p x | None => false end.

Definition opt_str_in (o : option string) (l : list string) : bool :=
  match o with Some s => str_in s l | None => false end.

Definition b2z (b : bool) : Z := if b then 1 else 0.

(** The eight patterns of [detect_interactions], in source order; each is
    the list of results its block appends. *)

Definition sepsis_pattern (facts : Facts) : list InteractionResult :=
  let hr := get_val facts "VITALS" "Heart Rate" in
  let sbp := get_val facts "VITALS" "Systolic BP" in
  let rr := get_val facts "VITALS" "Respiratory Rate" in
  let wbc := get_val facts "LABS" "WBC" in
  let temp := get_val facts "VITALS" "Temperature" in
  if opt_test hr (fun x => Qltb 100 x)
     && ((opt_test sbp (fun x => Qltb x 100) || opt_test rr (fun x => Qltb 22 x))
         && (opt_test wbc (fun x => Qltb 12 x || Qltb x 4)
             || opt_test temp (fun x => Qltb (1004 # 10) x)))
  then [mkInteraction "sepsis_pattern" "Sepsis / SIRS Pattern" 10] else [].

Definition aki_pattern (facts : Facts) : list InteractionResult :=
  let cr := get_val facts "LABS" "Creatinine" in
  let bun := get_val facts "LABS" "BUN" in
  let k := get_val facts "LABS" "Potassium" in
  let na := get_val facts "LABS" "Sodium" in
  let bicarb := get_val facts "LABS" "Bicarbonate" in
  if (opt_test cr (fun x => Qltb (15 # 10) x) && opt_test bun (fun x => Qltb 30 x))
     && (opt_test k (fun x => Qltb 5 x) || opt_test na (fun x => Qltb x 135)
         || opt_test bicarb (fun x => Qltb x 22))
  then [mkInteraction "aki_pattern" "Acute Kidney Injury Pattern" 8] else [].

Definition decompensated_hf (self : ReadmissionRiskEngine) (facts : Facts)
  : list InteractionResult :=
  let bun := get_val facts "LABS" "BUN" in
  if has_problem_group self facts "heart_failure"
     && (has_symptom_group self facts "edema_fluid"
         || has_symptom_group self facts "respiratory_distress"
         || opt_test bun (fun x => Qltb 40 x))
  then [mkInteraction "decompensated_hf" "Decompensated Heart Failure" 8] else [].

Definition frailty_count (self : ReadmissionRiskEngine) (facts : Facts) : Z :=
  let hgb := get_val facts "LABS" "Hemoglobin" in
  let mental := get_str self facts "DISPOSITION" "Mental Status" in
  let disp := get_str self facts "DISPOSITION" "Discharge Disposition" in
  b2z (3 <=? n_problem_groups self facts)
  + b2z (opt_test hgb (fun x => Qltb x 10))
  + b2z (opt_str_in mental ["confused"; "lethargic"])
  + b2z (opt_str_in disp ["snf"; "ltac"; "rehab"]).

Definition frailty_syndrome (self : ReadmissionRiskEngine) (facts : Facts)
  : list InteractionResult :=
  let age := get_val facts "DEMOGRAPHICS" "Age" in
  if opt_test age (fun x => Qltb 75 x) && (2 <=? frailty_count self facts)
  then [mkInteraction "frailty_syndrome" "Frailty Syndrome" 6] else [].

Definition unstable_discharge (self : ReadmissionRiskEngine) (facts : Facts)
  : list InteractionResult :=
  let mental := get_str self facts "DISPOSITION" "Mental Status" in
  let disp := get_str self facts "DISPOSITION" "Discharge Disposition" in
  if opt_str_in disp ["ama"]
  then [mkInteraction "unstable_discharge" "Unstable Discharge (AMA)" 5]
  else if opt_str_in mental ["confused"; "lethargic"]
          && match disp with
             | Some d => String.eqb d "home"
             | None => true
             end
  then [mkInteraction "unstable_discharge" "Unstable Discharge (altered + Home)" 5]
  else [].

Definition respiratory_failure (self : ReadmissionRiskEngine) (facts : Facts)
  : list InteractionResult :=
  let rr := get_val facts "VITALS" "Respiratory Rate" in
  let spo2 := get_val facts "VITALS" "SpO2" in
  if opt_test spo2 (fun x => Qltb x 92)
     && (opt_test rr (fun x => Qltb 24 x)
         || has_symptom_group self facts "respiratory_distress")
  then [mkInteraction "respiratory_failure" "Respiratory Failure Pattern" 6] else [].

Definition metabolic_crisis (facts : Facts) : list InteractionResult :=
  let k := get_val facts "LABS" "Potassium" in
  let bicarb := get_val facts "LABS" "Bicarbonate" in
  let glucose := get_val facts "LABS" "Glucose" in
  if opt_test glucose (fun x => Qltb 300 x)
     && (opt_test bicarb (fun x => Qltb x 18) || opt_test k (fun x => Qltb (55 # 10) x))
  then [mkInteraction "metabolic_crisis" "Metabolic Crisis (DKA/HHS)" 6] else [].

Definition bleeding_risk (self : ReadmissionRiskEngine) (facts : Facts)
  : list InteractionResult :=
  let hgb := get_val facts "LABS" "Hemoglobin" in
  let plt := get_val facts "LABS" "Platelet" in
  let anticoag := get_str self facts "MEDICATIONS" "Anticoagulation" in
  if opt_test hgb (fun x => Qltb x 8)
     && (opt_test plt (fun x => Qltb x 100) || opt_str_in anticoag ["yes"])
  then [mkInteraction "bleeding_risk" "Active Bleeding Risk" 6] else [].

Definition detect_interactions (self : ReadmissionRiskEngine) (facts : Facts)
  : list InteractionResult :=
  (sepsis_pattern facts ++ aki_pattern facts ++ decompensated_hf self facts
   ++ frailty_syndrome self facts ++ unstable_discharge self facts
   ++ respiratory_failure self facts ++ metabolic_crisis facts
   ++ bleeding_risk self facts)%list.

(** *** Layer 5: aggregation *)

Definition sum_Z (l : list Z) : Z := fold_left Z.add l 0.

(** The nine cluster scores, in the order [score] fills [cluster_scores]. *)
Definition cluster_scores (self : ReadmissionRiskEngine) (facts : Facts)
  : list (string * Z) :=
  [("DEMOGRAPHICS", score_demographics self (facts_get facts "DEMOGRAPHICS"));
   ("VITALS", score_vitals self (facts_get facts "VITALS"));
   ("LABS", score_labs self (facts_get facts "LABS"));
   ("PROBLEMS", score_problems self (facts_get facts "PROBLEMS"));
   ("SYMPTOMS", score_symptoms self (facts_get facts "SYMPTOMS"));
   ("MEDICATIONS", score_medications self (facts_get facts "MEDICATIONS"));
   ("PROCEDURES", score_procedures self (facts_get facts "PROCEDURES"));
   ("UTILIZATION", score_utilization self (facts_get facts "UTILIZATION"));
   ("DISPOSITION", score_disposition self (facts_get facts "DISPOSITION"))].

Definition interaction_bonus (self : ReadmissionRiskEngine) (facts : Facts) : Z :=
  sum_Z (map bonus (detect_interactions self facts)).

(** [RiskResult.composite_score] as computed by [score]. *)
Definition composite_score (self : ReadmissionRiskEngine) (facts : Facts) : Z :=
  sum_Z (map snd (cluster_scores self facts)) + interaction_bonus self facts.

End Risk.

(* ===================================================================== *)
(** ** A small rule bundle for worked examples *)
(* ===================================================================== *)

Module RiskExamples.
Import PyStr Risk.
Local Open Scope Z_scope.

(** A reader for plain decimals ([-12], [7.5]); Python's [float] agrees
    with it on such text. *)
Fixpoint digits_value (acc : Z) (s : string) : option (Z * nat) :=
  match s with
  | EmptyString => Some (acc, 0%nat)
  | String c r =>
      if is_digit c
      then match digits_value (10 * acc + Z.of_N (code c - 48)) r with
           | Some (v, n) => Some (v, S n)
           | None => None
           end
      else None
  end.

Definition unsigned_decimal (s : string) : option Q :=
  match split_on "." s with
  | [i] =>
      if is_empty i then None
      else match digits_value 0 i with
           | Some (v, _) => Some (inject_Z v)
           | None => None
           end
  | [i; d] =>
      if is_empty i || is_empty d then None
      else match digits_value 0 i, digits_value 0 d with
           | Some (v, _), Some (w, n) =>
               Some (inject_Z v + inject_Z w / inject_Z (10 ^ Z.of_nat n))%Q
           | _, _ => None
           end
  | _ => None
  end.

Definition decimal_of_string (s : string) : option Q :=
  match s with
  | String "-" r => option_map Qopp (unsigned_decimal r)
  | String "+" r => unsigned_decimal r
  | _ => unsigned_decimal s
  end.

(** Printing of integer-valued floats ([120.0]). *)
Definition decimal_string (q : Q) : string := string_of_Z (Qfloor q) ++ ".0".

Definition range_rule (lo hi : Q) (pts : Z) (label : string) : RangeRule :=
  mkRange lo hi pts label.

Definition range_kw (rs : list RangeRule) (plaus : option (Q * Q)) : KwRules :=
  mkKwRules "range" rs [] plaus 0 None.

Definition categorical_kw (vals : list (string * Z)) : KwRules :=
  mkKwRules "categorical" [] vals None 0 None.

Definition demo_rules : list (string * list (string * KwRules)) :=
  [("DEMOGRAPHICS",
    [("Age", mkKwRules "range"
               [range_rule 0 44 0 "young"; range_rule 45 64 1 "middle";
                range_rule 65 79 3 "elderly"; range_rule 80 130 5 "very elderly"]
               [] None 0 (Some 2));
     ("Sex", categorical_kw [("male", 1); ("female", 0)])]);
   ("VITALS",
    [("Heart Rate",
      range_kw [range_rule 0 49 3 "bradycardia"; range_rule 50 100 0 "normal";
                range_rule 101 300 3 "tachycardia"] (Some (20, 300)%Q));
     ("Systolic BP",
      range_kw [range_rule 0 89 4 "hypotension"; range_rule 90 139 0 "normal";
                range_rule 140 300 2 "hypertension"] (Some (40, 300)%Q));
     ("Respiratory Rate",
      range_kw [range_rule 0 20 0 "normal"; range_rule 21 80 3 "tachypnea"]
               (Some (4, 80)%Q));
     ("Temperature",
      range_kw [range_rule 90 (1004 # 10) 0 "normal";
                range_rule (1005 # 10) 110 3 "fever"] (Some (85, 110)%Q))]);
   ("LABS",
    [("WBC",
      range_kw [range_rule 0 (39 # 10) 3 "leukopenia"; range_rule 4 12 0 "normal";
                range_rule (121 # 10) 200 3 "leukocytosis"] (Some (0, 200)%Q))]);
   ("UTILIZATION",
    [("Prior Admissions 12mo",
      range_kw [range_rule 0 0 0 "none"; range_rule 1 1 3 "one";
                range_rule 2 3 5 "frequent"; range_rule 4 100 8 "very frequent"]
               None)]);
   ("DISPOSITION",
    [("Discharge Disposition",
      categorical_kw [("Home", 0); ("Home with Services", 2); ("SNF", 3);
                      ("Rehab", 3); ("LTAC", 4); ("Hospice", 5); ("AMA", 5)]);
     ("Mental Status",
      categorical_kw [("alert", 0); ("oriented", 0); ("confused", 3);
                      ("lethargic", 3)])])].

Definition demo_engine : ReadmissionRiskEngine :=
  mkEngine demo_rules (fun _ => None) (fun _ => None)
           decimal_of_string decimal_string.



(** A confused patient without a recorded disposition ... *)
Definition confused_facts : Facts :=
  [("DISPOSITION", [mkFact "DISPOSITION" "Mental Status" (VStr "confused") "Discharge" false true])].

(** ... and the disposition fact that is added. *)
Definition snf_fact : ParsedFact :=
  mkFact "DISPOSITION" "Discharge Disposition" (VStr "SNF") "Discharge" false true.


End RiskExamples.

(* ===================================================================== *)
(** ** What [parse_toon] does with one line, independently of the state *)
(* ===================================================================== *)

Module RiskSpec.
Import PyStr Risk.

(** The fate of a line before the objective de-duplication is consulted:
    ignored (blank or comment), rejected (not four fields, unknown cluster,
    number required but not readable), expanded into one PROBLEMS fact per
    listed item, or a single well-formed record. *)
Inductive LineClass : Type :=
| Skipped
| Rejected
| Expanded (fs : list ParsedFact)
| Candidate (f : ParsedFact).

Definition classify (self : ReadmissionRiskEngine) (raw_line : string) : LineClass :=
  let line := strip raw_line in
  if is_empty line || startswith line "#" then Skipped
  else
    match split_on "|" line with
    | [p0; p1; p2; p3] =>
        let c := strip p0 in
        let kw0 := strip p1 in
        let v := strip p2 in
        let ts := strip p3 in
        if negb (str_in c VALID_CLUSTERS) then Rejected
        else
          let kw :=
            if String.eqb c "PROBLEMS" then
              _strip_prefix kw0 ["PMH:"; "PMH/Comorbidities:"; "Discharge Dx:";
                                 "Working Dx:"; "Complication:"; "Complications:"]
            else if String.eqb c "SYMPTOMS" then _strip_prefix kw0 ["ADM:"; "DC:"]
            else kw0 in
          let items := _split_semantic_items v in
          let kw_cf := casefold (strip kw) in
          if String.eqb c "PROBLEMS" && str_in kw_cf acute_keys
             && negb (is_empty_list items)
          then Expanded (map (fun it => mkFact "PROBLEMS" it (VStr "acute") "Discharge" false true) items)
          else if String.eqb c "PROBLEMS" && str_in kw_cf chronic_keys
                  && negb (is_empty_list items)
          then Expanded (map (fun it => mkFact "PROBLEMS" it (VStr "chronic") "Past" false true) items)
          else
            match parse_value self c kw v with
            | None => Rejected
            | Some (pv, isnum) =>
                let plaus :=
                  if isnum then _check_plausibility self c kw (num_value pv)
                  else true in
                Candidate (mkFact c kw pv ts isnum plaus)
            end
    | _ => Rejected
    end.

Definition is_rejected (self : ReadmissionRiskEngine) (ln : string) : bool :=
  match classify self ln with Rejected => true | _ => false end.

(** The well-formed records of objective clusters, in input order. *)
Definition objective_candidates (self : ReadmissionRiskEngine)
  (lines : list string) : list ParsedFact :=
  flat_map
    (fun ln => match classify self ln with
               | Candidate f =>
                   if str_in (cluster f) OBJECTIVE_CLUSTERS then [f] else []
               | _ => []
               end)
    lines.

(** First occurrence per [(cluster, keyword)]; the timestamp plays no part. *)
Fixpoint keep_first (seen : list (string * string)) (l : list ParsedFact)
  : list ParsedFact :=
  match l with
  | [] => []
  | f :: r =>
      if key_in (cluster f, keyword f) seen then keep_first seen r
      else f :: keep_first ((cluster f, keyword f) :: seen) r
  end.

Definition in_cluster (c : string) (f : ParsedFact) : bool :=
  String.eqb (cluster f) c.

End RiskSpec.

(* ===================================================================== *)
(** ** Probability and survival curve
       ([readmission_risk_engine.py], [_logistic], [_predict_survival])

    The floating-point arithmetic of these two functions is idealised by
    real arithmetic: [math.exp] is the real exponential and [round(x, 4)]
    is exact rounding to four decimals, ties to even. *)
(* ===================================================================== *)

Module Calibration.
Local Open Scope R_scope.

(** [_meta.calibration] and the survival parameter of the rule bundle. *)
Record Params : Type := mkParams {
  _alpha : R;
  _beta : R;
  _k_base : R
}.

Definition _logistic (self : Params) (score : Z) : R :=
  let z := _alpha self + _beta self * IZR score in
  1 / (1 + exp (- z)).

(** Nearest integer, ties to even. *)
Definition round_half_even (x : R) : Z :=
  let f := Zfloor x in
  let d := x - IZR f in
  if Rlt_dec d (1 / 2) then f
  else if Rlt_dec (1 / 2) d then (f + 1)%Z
  else if Z.even f then f else (f + 1)%Z.

(** [round(x, 4)] *)
Definition round4 (x : R) : R := IZR (round_half_even (x * 10000)) / 10000.

Definition survival_k (self : Params) (score : Z) : R :=
  Rmax (1 / 2) (_k_base self + 2 / 100 * (IZR score - 30)).

Definition survival_denom (k : R) : R :=
  let denom := 1 - exp (- k) in
  if Rlt_dec (Rabs denom) (1 / 1000000000) then 1 / 1000000000 else denom.

(** The value stored in [horizons[t]]. *)
Definition survival_at (self : Params) (score : Z) (p_30d : R) (t : Z) : R :=
  let k := survival_k self score in
  let f_t := (1 - exp (- (IZR t / 30) * k)) / survival_denom k in
  let p_t := p_30d * f_t in
  round4 (Rmin (Rmax p_t 0) 1).

Definition _predict_survival (self : Params) (score : Z) (p_30d : R)
  : list (Z * R) :=
  map (fun t => (t, survival_at self score p_30d t)) [7; 14; 21; 30]%Z.

(** [RiskResult.probability] and [RiskResult.survival_curve] as [score]
    computes them from the composite score. *)
Definition probability (self : Params) (composite : Z) : R :=
  round4 (_logistic self composite).

Definition survival_curve (self : Params) (composite : Z) : list (Z * R) :=
  _predict_survival self composite (_logistic self composite).

(** A list of reals is non-decreasing. *)
Fixpoint nondecreasing (l : list R) : Prop :=
  match l with
  | x :: ((y :: _) as r) => x <= y /\ nondecreasing r
  | _ => True
  end.

End Calibration.

(* ===================================================================== *)
(** ** The numeric patterns shared by the sanitizers *)
(* ===================================================================== *)

Module Num.
Import PyStr.

(** The longest prefix of decimal digits, and what follows it. *)
Fixpoint scan_digits (s : string) : string * string :=
  match s with
  | String c r =>
      if is_digit c
      then let '(d, rest) := scan_digits r in (String c d, rest)
      else (EmptyString, s)
  | EmptyString => (EmptyString, EmptyString)
  end.

(** [\d+(?:\.\d+)?] anchored at the start of [s]: the matched text and the
    remainder.  The pattern is deterministic: giving back digits, or the
    fractional part, never lets a longer pattern succeed. *)
Definition match_unsigned (s : string) : option (string * string) :=
  let '(d, r1) := scan_digits s in
  if is_empty d then None
  else match r1 with
       | String "." r2 =>
           let '(d2, r3) := scan_digits r2 in
           if is_empty d2 then Some (d, r1) else Some (d ++ "." ++ d2, r3)
       | _ => Some (d, r1)
       end.

(** [-?\d+(?:\.\d+)?] anchored at the start of [s]. *)
Definition match_number (s : string) : option (string * string) :=
  match s with
  | String "-" r =>
      match match_unsigned r with
      | Some (m, rest) => Some (String "-" m, rest)
      | None => None
      end
  | _ => match_unsigned s
  end.

(** [_NUM_RE.match(s)] for [_NUM_RE = ^-?\d+(?:\.\d+)?$]; Python's [$]
    also accepts one final line feed. *)
Definition num_re_match (s : string) : bool :=
  match match_number s with
  | Some (_, rest) =>
      String.eqb rest EmptyString || String.eqb rest (String "010" EmptyString)
  | None => false
  end.

(** The text is exactly a plain number: [^-?\d+(\.\d+)?$] without the
    line-feed allowance. *)
Definition is_plain_number (s : string) : bool :=
  match match_number s with
  | Some (_, rest) => is_empty rest
  | None => false
  end.

(** [re.search(r"-?\d+(?:\.\d+)?", s)]: the leftmost match. *)
Fixpoint _first_number (s : string) : option string :=
  match match_number s with
  | Some (m, _) => Some m
  | None =>
      match s with
      | EmptyString => None
      | String _ r => _first_number r
      end
  end.

(** [re.search(r"(\d+(?:\.\d+)?)\s*/\s*(\d+(?:\.\d+)?)", s)]: the two
    groups of the leftmost match. *)
Definition match_bp_here (s : string) : option (string * string) :=
  match match_unsigned s with
  | Some (sbp, r1) =>
      match lstrip r1 with
      | String "/" r2 =>
          match match_unsigned (lstrip r2) with
          | Some (dbp, _) => Some (sbp, dbp)
          | None => None
          end
      | _ => None
      end
  | None => None
  end.

Fixpoint search_bp (s : string) : option (string * string) :=
  match match_bp_here s with
  | Some r => Some r
  | None =>
      match s with
      | EmptyString => None
      | String _ r => search_bp r
      end
  end.

End Num.

(* ===================================================================== *)
(** ** Stage-2 sanitation
       ([run_two_stage_structured_pipeline.py], [_sanitize_stage2_lines]) *)
(* ===================================================================== *)

Module Stage2.
Import PyStr Num.

(** The four environment gates read through [_env_truthy_stage2]. *)
Record Flags : Type := mkFlags {
  recover_3part : bool;              (* MEDGEMMA_STAGE2_RECOVER_3PART_LINES *)
  reclassify_non_numeric : bool;     (* MEDGEMMA_STAGE2_RECLASSIFY_NONNUMERIC_CLUSTERS *)
  expand_semantic_lines : bool;      (* MEDGEMMA_EXPAND_SEMANTIC_LINES *)
  force_objective_ts_canonical_in_all : bool  (* MEDGEMMA_OBJECTIVE_TS_CANONICAL_ALL *)
}.

Definition validated : Flags := mkFlags false false false false.
Definition experimental : Flags := mkFlags true true true true.

Inductive Scope : Type := ScopeObjective | ScopeAll.

(** The check at the head of the function; [None] is the [ValueError]. *)
Definition parse_scope (scope : string) : option Scope :=
  let scope_l := casefold (strip scope) in
  if String.eqb scope_l "objective" then Some ScopeObjective
  else if String.eqb scope_l "all" then Some ScopeAll
  else None.

Definition objective_clusters : list string :=
  ["DEMOGRAPHICS"; "VITALS"; "LABS"; "UTILIZATION"; "DISPOSITION"].
Definition numeric_clusters : list string := ["VITALS"; "LABS"; "UTILIZATION"].
Definition semantic_clusters : list string :=
  ["PROBLEMS"; "SYMPTOMS"; "MEDICATIONS"; "PROCEDURES"].

Definition _TEXT_PLACEHOLDERS : list string :=
  [""; "not stated"; "none"; "none."; "unknown"; "n/a"; "na"; "null"; "..."; "___"].

Definition ts_rank (ts : string) : nat :=
  let t := casefold (strip ts) in
  if str_in t ["discharge"; "dc"] then 2
  else if str_in t ["admission"; "adm"] then 1
  else 0.

Definition _normalize_semantic_keyword (keyword : string) : string :=
  rstrip_chars " :;,." (join " " (words (strip keyword))).

Fixpoint dedup_exact (seen : list string) (l : list string) : list string :=
  match l with
  | [] => []
  | v :: r =>
      if str_in v seen then dedup_exact seen r
      else v :: dedup_exact (v :: seen) r
  end.

Definition _split_semantic_items (value : string) : list string :=
  let raw := strip value in
  if is_empty raw then []
  else
    let level1 :=
      filter (fun x => negb (is_empty x))
        (map strip (List.concat (map (split_on "010") (split_on ";" raw)))) in
    let parts :=
      List.concat
        (map (fun seg => filter (fun x => negb (is_empty x))
                           (map strip (split_on "," seg)))
             level1) in
    let cleaned :=
      filter (fun v => negb (is_empty v)
                       && negb (str_in (casefold v) _TEXT_PLACEHOLDERS)
                       && negb (str_in (casefold v) ["none"; "nil"]))
        (map (fun item => strip_chars " -" (join " " (words item))) parts) in
    dedup_exact [] cleaned.

Definition _normalize_problem_value (value ts_raw : string) : option string :=
  let vv := collapse_ws (casefold (strip value)) in
  if is_empty vv || str_in vv _TEXT_PLACEHOLDERS then None
  else if str_in vv ["chronic"; "acute"; "exist"; "not exist"] then Some vv
  else if str_in vv ["past"; "history"; "historical"; "pmh"; "chronic condition";
                     "chronic disease"] then Some "chronic"
  else if str_in vv ["discharge"; "discharged"; "active"; "current"] then Some "acute"
  else if str_in vv ["present"; "yes"; "true"; "1"; "positive"; "confirmed"; "exists"]
  then Some "exist"
  else if str_in vv ["no"; "none"; "false"; "0"; "absent"; "negative"; "not present";
                     "ruled out"] then Some "not exist"
  else
    let ts_cf := casefold (strip ts_raw) in
    if str_in ts_cf ["discharge"; "dc"] && contains "discharg" vv then Some "acute"
    else if String.eqb ts_cf "past" && (contains "hist" vv || contains "past" vv)
    then Some "chronic"
    else None.

Definition _normalize_symptom_value (value : string) : option string :=
  let vv := collapse_ws (casefold (strip value)) in
  if is_empty vv || str_in vv _TEXT_PLACEHOLDERS then None
  else if str_in vv ["yes"; "no"; "severe"] then Some vv
  else if str_in vv ["present"; "positive"; "true"; "1"; "y"; "symptomatic"] then Some "yes"
  else if str_in vv ["none"; "absent"; "negative"; "false"; "0"; "n"; "denied"; "denies"]
  then Some "no"
  else if contains "severe" vv || str_in vv ["marked"; "significant"] then Some "severe"
  else None.

(** [f"{c}|{k}|{v}|{t}"] *)
Definition fmt4 (c k v t : string) : string :=
  c ++ "|" ++ k ++ "|" ++ v ++ "|" ++ t.

Definition _expand_semantic_line (cluster_u keyword value ts_raw : string)
  : list string :=
  if negb (str_in cluster_u ["PROBLEMS"; "SYMPTOMS"])
  then [fmt4 cluster_u keyword value ts_raw]
  else
    let kw := _normalize_semantic_keyword keyword in
    let kw_cf := casefold kw in
    let items := _split_semantic_items value in
    let has_items := match items with [] => false | _ => true end in
    if String.eqb cluster_u "PROBLEMS" then
      if str_in kw_cf ["discharge dx"; "working dx"; "complication"; "complications"]
         && has_items
      then map (fun it => fmt4 "PROBLEMS" it "acute" "Discharge") items
      else if str_in kw_cf ["pmh/comorbidities"; "pmh"; "comorbidities";
                            "past medical history"] && has_items
      then map (fun it => fmt4 "PROBLEMS" it "chronic" "Past") items
      else
        match _normalize_problem_value value ts_raw with
        | None => []
        | Some norm_v =>
            let ts_out :=
              if String.eqb (casefold (strip ts_raw)) "unknown" then
                if String.eqb norm_v "acute" then "Discharge"
                else if String.eqb norm_v "chronic" then "Past"
                else "Admission"
              else ts_raw in
            [fmt4 "PROBLEMS" kw norm_v ts_out]
        end
    else
      (* cluster_u = "SYMPTOMS" *)
      if str_in kw_cf ["adm symptoms"; "admission symptoms"; "admission sx"] && has_items
      then map (fun it => fmt4 "SYMPTOMS" it "yes" "Admission") items
      else if str_in kw_cf ["dc symptoms"; "discharge symptoms"; "discharge sx"] && has_items
      then map (fun it => fmt4 "SYMPTOMS" it "yes" "Discharge") items
      else
        match _normalize_symptom_value value with
        | None => []
        | Some norm_v => [fmt4 "SYMPTOMS" kw norm_v ts_raw]
        end.

(** [_KW_TO_CLUSTER] *)
Definition _KW_TO_CLUSTER : list (string * string) :=
  (map (fun k => (k, "VITALS"))
     ["Heart Rate"; "Systolic BP"; "Diastolic BP"; "Respiratory Rate";
      "Temperature"; "SpO2"; "Weight"]
   ++ map (fun k => (k, "LABS"))
     ["Hemoglobin"; "Hematocrit"; "WBC"; "Platelet"; "Sodium"; "Potassium";
      "Creatinine"; "BUN"; "Glucose"; "Bicarbonate"]
   ++ map (fun k => (k, "DEMOGRAPHICS")) ["Sex"; "Age"]
   ++ map (fun k => (k, "UTILIZATION"))
     ["Prior Admissions 12mo"; "ED Visits 6mo"; "Days Since Last Admission";
      "Current Length of Stay"]
   ++ map (fun k => (k, "DISPOSITION")) ["Discharge Disposition"; "Mental Status"]
   ++ map (fun k => (k, "PROCEDURES"))
     ["Any Procedure"; "Surgery"; "Dialysis"; "Mechanical Ventilation"]
   ++ map (fun k => (k, "MEDICATIONS"))
     ["Medication Count"; "New Medications Count"; "Polypharmacy"; "Anticoagulation";
      "Insulin Therapy"; "Opioid Therapy"; "Diuretic Therapy"])%list.

(** [_KW_TO_CLUSTER.get(kw, "")] *)
Fixpoint kw_to_cluster_in (tbl : list (string * string)) (kw : string) : string :=
  match tbl with
  | [] => EmptyString
  | (k, c) :: r => if String.eqb kw k then c else kw_to_cluster_in r kw
  end.

Definition kw_to_cluster : string -> string := kw_to_cluster_in _KW_TO_CLUSTER.

(** [x.strip().strip("*<>").strip().upper()] *)
Definition clean_cluster (x : string) : string :=
  upper (strip (strip_chars "*<>" (strip x))).

Definition default_ts (c : string) : string :=
  if String.eqb c "DISPOSITION" then "Discharge"
  else if String.eqb c "UTILIZATION" then "Past"
  else "Admission".

(** The optional recovery of three-field lines. *)
Definition recover_parts (flags : Flags) (parts : list string) : list string :=
  match parts with
  | [a; b; c] =>
      if recover_3part flags then
        let cluster_guess := clean_cluster a in
        if str_in cluster_guess (objective_clusters ++ semantic_clusters)
           && negb (is_empty b) && negb (is_empty c)
        then [cluster_guess; b; c; default_ts cluster_guess]
        else
          let inferred := kw_to_cluster a in
          if negb (is_empty inferred) && negb (is_empty a)
             && negb (is_empty b) && negb (is_empty c)
          then [inferred; a; b; c]
          else parts
      else parts
  | _ => parts
  end.

(** A record after the per-line hygiene: [(cluster_u, keyword, value, ts)]. *)
Record Rec4 : Type := mkRec4 {
  r_cluster : string;
  r_keyword : string;
  r_value : string;
  r_ts : string
}.

(** The part of the loop body before the dispatch on the cluster; [None]
    stands for [continue]. *)
Definition clean_line (flags : Flags) (ln : string) : option Rec4 :=
  let parts := recover_parts flags (map strip (split_on "|" ln)) in
  match parts with
  | [cluster; keyword; value0; timestamp] =>
      if is_empty cluster || is_empty keyword || is_empty value0 || is_empty timestamp
      then None
      else
        let value1 := strip value0 in
        let value := if startswith value1 "$"
                     then strip (lstrip_chars "$" value1) else value1 in
        let cluster_u := clean_cluster cluster in
        let ts0 := strip timestamp in
        if String.eqb (casefold value) "not stated" then None
        else
          let ts := if String.eqb (casefold ts0) "adm" then "Admission"
                    else if String.eqb (casefold ts0) "dc" then "Discharge"
                    else ts0 in
          if str_in cluster_u numeric_clusters && negb (num_re_match value) then None
          else
            let cluster_u' :=
              if reclassify_non_numeric flags && str_in cluster_u semantic_clusters then
                let correct_cluster := kw_to_cluster keyword in
                if negb (is_empty correct_cluster)
                   && negb (str_in correct_cluster numeric_clusters)
                   && str_in correct_cluster objective_clusters
                then correct_cluster else cluster_u
              else cluster_u in
            Some (mkRec4 cluster_u' keyword value ts)
  | _ => None
  end.

(** [best_objective]: an insertion-ordered dictionary from
    [(cluster, keyword)] to the record and its rank. *)
Definition Best : Type := list (Rec4 * nat).

Definition same_key (a b : Rec4) : bool :=
  String.eqb (r_cluster a) (r_cluster b) && String.eqb (r_keyword a) (r_keyword b).

Fixpoint best_update (r : Rec4) (rank : nat) (best : Best) : Best :=
  match best with
  | [] => [(r, rank)]
  | (p, prank) :: rest =>
      if same_key r p
      then (if (prank <? rank)%nat then (r, rank) else (p, prank)) :: rest
      else (p, prank) :: best_update r rank rest
  end.

(** One iteration of the main loop; the state is
    [(best_objective, other_lines)]. *)
Definition sanitize_step (flags : Flags) (scope : Scope)
  (st : Best * list string) (ln : string) : Best * list string :=
  let '(best, other_lines) := st in
  match clean_line flags ln with
  | None => st
  | Some r =>
      if str_in (r_cluster r) objective_clusters then
        (best_update r (ts_rank (r_ts r)) best, other_lines)
      else if str_in (r_cluster r) semantic_clusters then
        match scope with
        | ScopeAll =>
            if expand_semantic_lines flags
            then (best, (other_lines
                         ++ _expand_semantic_line (r_cluster r) (r_keyword r)
                              (r_value r) (r_ts r))%list)
            else (best, (other_lines
                         ++ [fmt4 (r_cluster r) (r_keyword r) (r_value r) (r_ts r)])%list)
        | ScopeObjective => st
        end
      else
        match scope with
        | ScopeAll =>
            (best, (other_lines
                    ++ [fmt4 (r_cluster r) (r_keyword r) (r_value r) (r_ts r)])%list)
        | ScopeObjective => st
        end
  end.

(** The timestamp written for an objective record. *)
Definition out_ts (flags : Flags) (scope : Scope) (r : Rec4) : string :=
  match scope with
  | ScopeObjective => default_ts (r_cluster r)
  | ScopeAll =>
      if force_objective_ts_canonical_in_all flags
      then default_ts (r_cluster r) else r_ts r
  end.

Definition fmt_best (flags : Flags) (scope : Scope) (e : Rec4 * nat) : string :=
  let r := fst e in
  fmt4 (r_cluster r) (r_keyword r) (r_value r) (out_ts flags scope r).

(** The exact-string de-duplication of [other_lines]; the state is
    [(out, seen)]. *)
Definition append_unseen (st : list string * list string) (ln : string)
  : list string * list string :=
  let '(out, seen) := st in
  if str_in ln seen then st else ((out ++ [ln])%list, ln :: seen).

(** The sort key [(s.split("|", 1)[0], s.split("|", 2)[1])]. *)
Definition field (n : nat) (s : string) : string :=
  nth n (split_on "|" s) EmptyString.

Definition key_leb (a b : string) : bool :=
  match String.compare (field 0 a) (field 0 b) with
  | Lt => true
  | Gt => false
  | Eq => str_leb (field 1 a) (field 1 b)
  end.

(** [list.sort(key=...)] is stable; so is this insertion sort. *)
Fixpoint insert_sorted (x : string) (l : list string) : list string :=
  match l with
  | [] => [x]
  | y :: r => if key_leb x y then x :: l else y :: insert_sorted x r
  end.

Definition sort_lines (l : list string) : list string :=
  fold_right insert_sorted [] l.

Definition sanitize (flags : Flags) (scope : Scope) (lines : list string)
  : list string :=
  let '(best_objective, other_lines) :=
    fold_left (sanitize_step flags scope) lines ([], []) in
  let out := map (fmt_best flags scope) best_objective in
  let out :=
    match scope with
    | ScopeAll => fst (fold_left append_unseen other_lines (out, out))
    | ScopeObjective => out
    end in
  sort_lines out.

Definition _sanitize_stage2_lines (flags : Flags) (lines : list string)
  (scope : string) : option (list string) :=
  match parse_scope scope with
  | None => None
  | Some sc => Some (sanitize flags sc lines)
  end.

(** *** Reading the output back as records *)

Definition is_objective_line (c k : string) (ln : string) : bool :=
  String.eqb (field 0 ln) c && String.eqb (field 1 ln) k.

(** The well-formed objective records of the input, in input order. *)
Definition objective_records (flags : Flags) (lines : list string) : list Rec4 :=
  flat_map
    (fun ln => match clean_line flags ln with
               | Some r => if str_in (r_cluster r) objective_clusters then [r] else []
               | None => []
               end)
    lines.

Definition rec_rank (r : Rec4) : nat := ts_rank (r_ts r).

(** [r] is the first record of [recs], in input order, among those of its
    [(cluster, keyword)] that have the highest timestamp rank. *)
Definition first_of_highest_rank (recs : list Rec4) (r : Rec4) : Prop :=
  exists l1 l2,
    recs = (l1 ++ r :: l2)%list
    /\ (forall r', In r' l1 -> same_key r' r = true -> rec_rank r' < rec_rank r)
    /\ (forall r', In r' l2 -> same_key r' r = true -> rec_rank r' <= rec_rank r).

End Stage2.

(* ===================================================================== *)
(** ** KVT4 normalisation ([kvt_utils.py], [normalize_readmission_kvt4_lines])

    Only the list of normalised lines is modelled; the statistics
    dictionary returned next to it does not influence them. *)
(* ===================================================================== *)

Module Kvt.
Import PyStr Num.

(** The three environment variables the function reads ([None]: unset). *)
Record Env : Type := mkEnv {
  MEDGEMMA_TIMESTAMP_PRIORITY : option string;
  MEDGEMMA_ALLOWED_CLUSTERS : option string;
  MEDGEMMA_TIMESTAMP_FILL_UNKNOWN : option string
}.

Definition default_env : Env := mkEnv None None None.

Definition getenv (v : option string) (dflt : string) : string :=
  match v with Some s => s | None => dflt end.

Definition CANONICAL_VITALS : list string :=
  ["Heart Rate"; "Systolic BP"; "Diastolic BP"; "Respiratory Rate";
   "Temperature"; "SpO2"; "Weight"].
Definition CANONICAL_LABS : list string :=
  ["Hemoglobin"; "Hematocrit"; "WBC"; "Platelet"; "Sodium"; "Potassium";
   "Creatinine"; "BUN"; "Glucose"; "Bicarbonate"].
Definition CANONICAL_DEMOGRAPHICS : list string := ["Age"; "Sex"].

Definition STRICT_KEYWORDS_READMISSION : list (string * list string) :=
  [("DEMOGRAPHICS", CANONICAL_DEMOGRAPHICS);
   ("VITALS", CANONICAL_VITALS);
   ("LABS", CANONICAL_LABS);
   ("MEDICATIONS",
    ["Medication Count"; "New Medications Count"; "Polypharmacy";
     "Anticoagulation"; "Insulin Therapy"; "Opioid Therapy"; "Diuretic Therapy"]);
   ("PROCEDURES", ["Any Procedure"; "Surgery"; "Dialysis"; "Mechanical Ventilation"]);
   ("UTILIZATION",
    ["Prior Admissions 12mo"; "ED Visits 6mo"; "Days Since Last Admission";
     "Current Length of Stay"]);
   ("DISPOSITION", ["Discharge Disposition"; "Mental Status"])].

Definition READMISSION_CLUSTERS : list string :=
  ["DEMOGRAPHICS"; "VITALS"; "LABS"; "PROBLEMS"; "SYMPTOMS"; "MEDICATIONS";
   "PROCEDURES"; "UTILIZATION"; "DISPOSITION"].

Fixpoint lookup {A : Type} (k : string) (d : list (string * A)) : option A :=
  match d with
  | [] => None
  | (k', v) :: r => if String.eqb k k' then Some v else lookup k r
  end.

Definition _infer_cluster_from_keyword (keyword : string) : string :=
  let k := strip keyword in
  if is_empty k then EmptyString
  else if str_in k CANONICAL_VITALS then "VITALS"
  else if str_in k CANONICAL_LABS then "LABS"
  else if str_in k CANONICAL_DEMOGRAPHICS then "DEMOGRAPHICS"
  else if str_in k ["Prior Admissions 12mo"; "ED Visits 6mo";
                    "Days Since Last Admission"; "Current Length of Stay"]
  then "UTILIZATION"
  else if str_in k ["Discharge Disposition"; "Mental Status"] then "DISPOSITION"
  else if str_in k ["Any Procedure"; "Surgery"; "Dialysis"; "Mechanical Ventilation"]
  then "PROCEDURES"
  else if str_in k ["Medication Count"; "New Medications Count"; "Polypharmacy";
                    "Anticoagulation"; "Insulin Therapy"; "Opioid Therapy";
                    "Diuretic Therapy"]
  then "MEDICATIONS"
  else EmptyString.

(** [re.sub(r"^[-*•]\s+", "", s)] on ASCII text. *)
Definition strip_bullet (s : string) : string :=
  match s with
  | String c (String d r) =>
      if mem_char c "-*" && is_space d then lstrip (String d r) else s
  | _ => s
  end.

Definition clean_cluster (x : string) : string :=
  upper (strip (strip_chars "*<>" (strip x))).

Definition or_unknown (t : string) : string :=
  if is_empty t then "Unknown" else t.

Record Fact4 : Type := mkFact4 {
  f_cluster : string;
  f_keyword : string;
  f_value : string;
  f_ts : string
}.

Definition _parse_line (line : string) : option Fact4 :=
  let s := strip (strip_bullet (strip line)) in
  if is_empty s then None
  else
    let pipe_count := count_char "|" s in
    if Nat.eqb pipe_count 3 then
      match map strip (split_on "|" s) with
      | [c; k; v; t] =>
          if is_empty c || is_empty k || is_empty v then None
          else Some (mkFact4 c k v (or_unknown t))
      | _ => None
      end
    else if Nat.eqb pipe_count 2 then
      match map strip (split_on "|" s) with
      | [a; b; c] =>
          if is_empty a || is_empty b || is_empty c then None
          else
            let cluster_guess := clean_cluster a in
            if str_in cluster_guess READMISSION_CLUSTERS
            then Some (mkFact4 cluster_guess b c "Unknown")
            else
              let cluster := _infer_cluster_from_keyword a in
              if is_empty cluster then None
              else Some (mkFact4 cluster a b (or_unknown c))
      | _ => None
      end
    else None.

Definition _normalize_timestamp (t : string) : string :=
  let tt := strip t in
  if is_empty tt then "Unknown"
  else if str_in tt ["Admission"; "Discharge"; "Past"; "Unknown"] then tt
  else if String.eqb (casefold tt) "adm" then "Admission"
  else if String.eqb (casefold tt) "dc" then "Discharge"
  else "Unknown".

Definition _fill_unknown_timestamp (cluster keyword value : string) : string :=
  let c := upper (strip cluster) in
  let v := lower (strip value) in
  if String.eqb c "DISPOSITION" then "Discharge"
  else if String.eqb c "UTILIZATION" then "Past"
  else if String.eqb c "PROBLEMS" then
    if String.eqb v "acute" then "Discharge" else "Past"
  else "Admission".

Definition vital_alias : list (string * string) :=
  [("HR", "Heart Rate"); ("Pulse", "Heart Rate"); ("Temp", "Temperature");
   ("O2 Sat", "SpO2"); ("Oxygen Saturation", "SpO2"); ("SpO2", "SpO2");
   ("Resp", "Respiratory Rate"); ("RR", "Respiratory Rate");
   ("Blood Pressure", "Blood Pressure"); ("BP", "Blood Pressure");
   ("Systolic", "Systolic BP"); ("Diastolic", "Diastolic BP");
   ("SBP", "Systolic BP"); ("DBP", "Diastolic BP")].

Definition lab_alias : list (string * string) :=
  [("Hgb", "Hemoglobin"); ("Hct", "Hematocrit"); ("Plt", "Platelet");
   ("Platelets", "Platelet"); ("Na", "Sodium"); ("K", "Potassium");
   ("Cr", "Creatinine"); ("HCO3", "Bicarbonate"); ("Bicarb", "Bicarbonate");
   ("WBC", "WBC"); ("BUN", "BUN")].

Definition sex_alias : list (string * string) :=
  [("m", "male"); ("male", "male"); ("f", "female"); ("female", "female")].

(** [d.get(k, k)] *)
Definition alias (d : list (string * string)) (k : string) : string :=
  match lookup k d with Some v => v | None => k end.

(** The outcome of the cluster-specific normalisation of one record. *)
Inductive Norm : Type :=
| Dropped
| BloodPressure (sbp dbp : string)
| Kept (k_norm v_norm : string).

Definition numeric_only (k v_norm : string) : Norm :=
  match _first_number v_norm with
  | Some num => Kept k num
  | None => Dropped
  end.

Definition yes_values : list string :=
  ["yes"; "y"; "true"; "1"; "performed"; "done"; "started"; "present"].
Definition no_values : list string :=
  ["no"; "n"; "false"; "0"; "absent"; "not performed"; "cancelled"].

Definition yes_no (k vv : string) : Norm :=
  if str_in vv yes_values then Kept k "yes"
  else if str_in vv no_values then Kept k "no"
  else Dropped.

Definition normalize_kv (c_up k_norm v_norm : string) : Norm :=
  if String.eqb c_up "DEMOGRAPHICS" then
    if String.eqb k_norm "Sex" then
      match lookup (lower (strip v_norm)) sex_alias with
      | Some vv => if is_empty vv then Dropped else Kept k_norm vv
      | None => Dropped
      end
    else if String.eqb k_norm "Age" then numeric_only k_norm v_norm
    else Kept k_norm v_norm
  else if String.eqb c_up "VITALS" then
    let k := alias vital_alias k_norm in
    if String.eqb k "Blood Pressure" then
      match search_bp v_norm with
      | Some (sbp, dbp) => BloodPressure sbp dbp
      | None => Dropped
      end
    else numeric_only k v_norm
  else if String.eqb c_up "LABS" then
    numeric_only (alias lab_alias k_norm) v_norm
  else if String.eqb c_up "UTILIZATION" then
    numeric_only k_norm v_norm
  else if String.eqb c_up "MEDICATIONS" then
    if str_in k_norm ["Medication Count"; "New Medications Count"]
    then numeric_only k_norm v_norm
    else if str_in k_norm ["Polypharmacy"; "Anticoagulation"; "Insulin Therapy";
                           "Opioid Therapy"; "Diuretic Therapy"] then
      let vv := lower (strip v_norm) in
      if str_in vv ["yes"; "y"; "true"; "1"] then Kept k_norm "yes"
      else if str_in vv ["no"; "n"; "false"; "0"] then Kept k_norm "no"
      else Dropped
    else Kept k_norm v_norm
  else if String.eqb c_up "PROCEDURES" then
    let vv := lower (strip v_norm) in
    if String.eqb k_norm "Dialysis" then
      let vv := replace "canceled" "cancelled" vv in
      if str_in vv ["decided"; "started"; "done"; "cancelled"; "no"] then Kept k_norm vv
      else if str_in vv ["yes"; "y"; "true"; "1"; "performed"; "present"; "active";
                         "positive"] then Kept k_norm "decided"
      else if str_in vv ["n"; "false"; "0"; "absent"; "negative"; "none"]
      then Kept k_norm "no"
      else Dropped
    else if String.eqb k_norm "Mechanical Ventilation" then
      if String.eqb vv "no" then Kept k_norm "no"
      else match _first_number v_norm with
           | Some num => if is_empty num then Kept k_norm "yes" else Kept k_norm num
           | None => Kept k_norm "yes"
           end
    else yes_no k_norm vv
  else if String.eqb c_up "DISPOSITION" then
    if String.eqb k_norm "Discharge Disposition" then
      let vv := lower (strip v_norm) in
      if contains "home with" vv || contains "home w" vv || contains "services" vv
      then Kept k_norm "Home with Services"
      else if String.eqb vv "home" || startswith vv "home " then Kept k_norm "Home"
      else if contains "snf" vv || contains "skilled nursing" vv then Kept k_norm "SNF"
      else if contains "rehab" vv then Kept k_norm "Rehab"
      else if contains "ltac" vv then Kept k_norm "LTAC"
      else if contains "hospice" vv then Kept k_norm "Hospice"
      else if contains "ama" vv || contains "against medical advice" vv
      then Kept k_norm "AMA"
      else Dropped
    else if String.eqb k_norm "Mental Status" then
      let vv := lower (strip v_norm) in
      if contains "confus" vv then Kept k_norm "confused"
      else if contains "letharg" vv then Kept k_norm "lethargic"
      else if contains "alert" vv then Kept k_norm "alert"
      else if contains "orient" vv then Kept k_norm "oriented"
      else Dropped
    else Kept k_norm v_norm
  else if String.eqb c_up "PROBLEMS" then
    let vv := collapse_ws (lower (strip v_norm)) in
    if str_in vv ["chronic"; "acute"; "exist"; "not exist"] then Kept k_norm vv
    else if str_in vv ["past"; "history"; "historical"; "pmh"; "chronic condition";
                       "chronic disease"] then Kept k_norm "chronic"
    else if str_in vv ["discharge"; "discharged"; "active"; "current"]
    then Kept k_norm "acute"
    else if str_in vv ["present"; "yes"; "true"; "1"; "positive"; "confirmed"; "exists"]
    then Kept k_norm "exist"
    else if str_in vv ["no"; "none"; "false"; "0"; "absent"; "negative"; "not present";
                       "ruled out"] then Kept k_norm "not exist"
    else Dropped
  else if String.eqb c_up "SYMPTOMS" then
    let vv := collapse_ws (lower (strip v_norm)) in
    if str_in vv ["yes"; "no"; "severe"] then Kept k_norm vv
    else if str_in vv ["present"; "positive"; "true"; "1"; "y"; "symptomatic"]
    then Kept k_norm "yes"
    else if str_in vv ["none"; "absent"; "negative"; "false"; "0"; "n"; "denied"; "denies"]
    then Kept k_norm "no"
    else if contains "severe" vv || str_in vv ["marked"; "significant"]
    then Kept k_norm "severe"
    else Dropped
  else Kept k_norm v_norm.

Definition allowed_clusters (env : Env) : option (list string) :=
  let raw := strip (getenv (MEDGEMMA_ALLOWED_CLUSTERS env) EmptyString) in
  if is_empty raw then None
  else Some (map (fun c => upper (strip c))
               (filter (fun c => negb (is_empty (strip c))) (split_on "," raw))).

Definition fill_unknown (env : Env) : bool :=
  str_in (lower (strip (getenv (MEDGEMMA_TIMESTAMP_FILL_UNKNOWN env) "1")))
         ["1"; "true"; "yes"].

Definition ts_priority (env : Env) : list string :=
  filter (fun s => negb (is_empty s))
    (map strip
       (split_on "," (getenv (MEDGEMMA_TIMESTAMP_PRIORITY env)
                             "Discharge,Admission,Past,Unknown"))).

(** [{t: i for i, t in enumerate(ts_priority)}.get(t, 999)]: a repeated
    name keeps its last index. *)
Fixpoint rank_from (i : nat) (l : list string) (t : string) : option nat :=
  match l with
  | [] => None
  | x :: r =>
      match rank_from (S i) r t with
      | Some j => Some j
      | None => if String.eqb x t then Some i else None
      end
  end.

Definition ts_rank (env : Env) (t : string) : nat :=
  match rank_from 0 (ts_priority env) t with Some i => i | None => 999 end.

(** First pass: the candidates contributed by one input line. *)
Definition normalize_line (env : Env) (line : string) : list Fact4 :=
  match _parse_line line with
  | None => []
  | Some p =>
      let c_up := clean_cluster (f_cluster p) in
      let blocked :=
        match allowed_clusters env with
        | Some allowed => negb (str_in c_up allowed)
        | None => false
        end in
      if blocked then []
      else
        let t_norm := _normalize_timestamp (f_ts p) in
        let k_norm := strip (f_keyword p) in
        let v_norm := strip (f_value p) in
        if str_in v_norm ["___"; "__"; "_"; "N/A"; "NA"; "null"; "None"] then []
        else
          match normalize_kv c_up k_norm v_norm with
          | Dropped => []
          | BloodPressure sbp dbp =>
              [mkFact4 "VITALS" "Systolic BP" sbp t_norm;
               mkFact4 "VITALS" "Diastolic BP" dbp t_norm]
          | Kept k v =>
              let strict_ok :=
                match lookup c_up STRICT_KEYWORDS_READMISSION with
                | Some allowed => str_in k allowed
                | None => true
                end in
              if negb strict_ok then []
              else
                let t := if fill_unknown env && String.eqb t_norm "Unknown"
                         then _fill_unknown_timestamp c_up k v else t_norm in
                [mkFact4 c_up k v t]
          end
  end.

Definition same_key (a b : Fact4) : bool :=
  String.eqb (f_cluster a) (f_cluster b) && String.eqb (f_keyword a) (f_keyword b).

(** Second pass: [best[key]], replaced only by a strictly better rank. *)
Fixpoint best_update (env : Env) (x : Fact4) (best : list Fact4) : list Fact4 :=
  match best with
  | [] => [x]
  | cur :: rest =>
      if same_key x cur
      then (if (ts_rank env (f_ts x) <? ts_rank env (f_ts cur))%nat then x else cur) :: rest
      else cur :: best_update env x rest
  end.

Definition fmt_fact (x : Fact4) : string :=
  f_cluster x ++ "|" ++ f_keyword x ++ "|" ++ f_value x ++ "|" ++ f_ts x.

Definition field (n : nat) (s : string) : string :=
  nth n (split_on "|" s) EmptyString.

Definition key_leb (a b : string) : bool :=
  match String.compare (field 0 a) (field 0 b) with
  | Lt => true
  | Gt => false
  | Eq => str_leb (field 1 a) (field 1 b)
  end.

Fixpoint insert_sorted (x : string) (l : list string) : list string :=
  match l with
  | [] => [x]
  | y :: r => if key_leb x y then x :: l else y :: insert_sorted x r
  end.

Definition sort_lines (l : list string) : list string :=
  fold_right insert_sorted [] l.

Definition normalized_candidates (env : Env) (lines : list string) : list Fact4 :=
  flat_map (normalize_line env) lines.

Definition dedupe (env : Env) (cands : list Fact4) : list Fact4 :=
  fold_left (fun best x => best_update env x best) cands [].

(** The first component of the result of
    [normalize_readmission_kvt4_lines]. *)
Definition normalize_readmission_kvt4_lines (env : Env) (lines : list string)
  : list string :=
  sort_lines (map fmt_fact (dedupe env (normalized_candidates env lines))).

End Kvt.

(* ===================================================================== *)
(** ** Stage-2 post-filters and Stage-1 Markdown preparation
       ([run_two_stage_structured_pipeline.py])

    The deterministic filters [run_stage2] applies around
    [_sanitize_stage2_lines], in source order, and the helpers that trim
    the Stage-1 Markdown before it is shown to Stage 2.  The progress
    messages the filters print are not modelled. *)
(* ===================================================================== *)

Module PostFilter.
Import PyStr Num.

Definition fmt4 : string -> string -> string -> string -> string := Stage2.fmt4.

(** *** [_parse_stop_list] *)

Definition _parse_stop_list (stop_args : option (list string))
  : option (list string) :=
  match stop_args with
  | None => None
  | Some [] => None
  | Some items =>
      let out :=
        fold_left
          (fun out item =>
             fold_left
               (fun out s => let t := strip s in
                             if is_empty t then out else (out ++ [t])%list)
               (split_on "," item) out)
          items [] in
      match out with
      | [] => None
      | _ => Some out
      end
  end.

(** *** [_kvt4_is_valid_line] *)

Definition _kvt4_is_valid_line (line : string) : bool :=
  let ln := strip line in
  if is_empty ln then false
  else if negb (Nat.eqb (count_char "|" ln) 3) then false
  else
    let parts := map strip (split_on "|" ln) in
    Nat.eqb (List.length parts) 4 && forallb (fun p => negb (is_empty p)) parts.

(** *** [_compute_kvt4_format_stats]

    The counters of the returned dictionary; the rate is kept as the exact
    quotient that the function rounds to six decimals. *)

Record FormatStats : Type := mkStats {
  format_stats_basis : string;
  raw_total_lines : nat;
  raw_valid_kvt4_lines : nat;
  raw_invalid_lines : nat;
  raw_invalid_examples : list string;
  raw_duplicates_exact : nat;
  raw_recovered_cluster_prefix_lines : nat;
  raw_effective_valid_kvt4_lines : nat;
  raw_effective_valid_rate : Q;
  raw_end_lines : nat;
  raw_kvt3_not_stated_lines : nat;
  raw_kvt3_not_stated_examples : list string;
  facts_after_sanitize_count : nat;
  did_retry : bool
}.

(** [len(set(l))] *)
Fixpoint distinct (l : list string) : list string :=
  match l with
  | [] => []
  | x :: r => if str_in x r then distinct r else x :: distinct r
  end.

(** The [KVT3] placeholder test of the second loop. *)
Definition is_kvt3_not_stated (ln : string) : bool :=
  let s := strip ln in
  if Nat.eqb (count_char "|" s) 2 then
    match map strip (split_on "|" s) with
    | [_; p1; _] => String.eqb (casefold p1) "not stated"
    | _ => false
    end
  else false.

(** The [CLUSTER|...] prefix recovery test of the third loop. *)
Definition is_recovered_cluster_prefix (ln : string) : bool :=
  let s := strip ln in
  if Nat.eqb (count_char "|" s) 4 then
    match map strip (split_on "|" s) with
    | [p0; p1; p2; p3; p4] =>
        if str_in (upper (strip p0)) ["CLUSTER"; "CLUSTERS"]
        then _kvt4_is_valid_line (join "|" [p1; p2; p3; p4])
        else false
    | _ => false
    end
  else false.

Definition nonblank_stripped (lines : list string) : list string :=
  filter (fun ln => negb (is_empty ln)) (map strip lines).

Definition _compute_kvt4_format_stats (raw_text : string)
  (extracted_lines : list string) (output_mode : string) (retry : bool)
  (after_sanitize : nat) : FormatStats :=
  let mode := casefold (strip output_mode) in
  let is_json := String.eqb mode "json" in
  let raw_lines := nonblank_stripped (splitlines raw_text) in
  let end_lines :=
    if is_json then 0
    else List.length (filter (fun ln => String.eqb (casefold ln) "end") raw_lines) in
  let tmp := filter (fun ln => negb (String.eqb (casefold ln) "end")) raw_lines in
  let '(candidates, kvt3_lines, kvt3_examples) :=
    if is_json then (nonblank_stripped extracted_lines, 0, [])
    else
      fold_left
        (fun (st : list string * nat * list string) ln =>
           let '(cands, n, ex) := st in
           if is_kvt3_not_stated ln
           then (cands, S n,
                 if (List.length ex <? 5)%nat then (ex ++ [strip ln])%list else ex)
           else ((cands ++ [ln])%list, n, ex))
        tmp ([], 0, []) in
  let recovered :=
    if is_json then 0
    else List.length (filter is_recovered_cluster_prefix candidates) in
  let valid := filter _kvt4_is_valid_line candidates in
  let invalid :=
    filter (fun ln => negb (is_empty ln) && negb (_kvt4_is_valid_line ln)) candidates in
  let duplicates_exact := List.length valid - List.length (distinct valid) in
  let effective_valid := List.length valid + recovered in
  let effective_rate :=
    match candidates with
    | [] => 0%Q
    | _ => (inject_Z (Z.of_nat effective_valid)
            / inject_Z (Z.of_nat (List.length candidates)))%Q
    end in
  mkStats (if is_json then "extracted_fact_lines" else "raw_output_lines")
          (List.length candidates) (List.length valid) (List.length invalid)
          (firstn 5 invalid) duplicates_exact recovered effective_valid
          effective_rate end_lines kvt3_lines kvt3_examples after_sanitize retry.

(** *** [_drop_stage2_prompt_leakage_lines] *)

Definition leak_substrings : list string :=
  ["output limits"; "input limits"; "hard cap"; "canonical keywords";
   "must match exactly"; "begin extraction"; "one fact per line";
   "cluster|keyword|value|timestamp"].

Definition leak_prefixes : list string :=
  ["##"; "<h1"; "<h2"; "<h3"; "<p"; "<ul"; "<li"].

Definition leakage_step (out : list string) (ln : string) : list string :=
  let s := strip ln in
  if is_empty s then out
  else
    let sl := casefold s in
    if existsb (startswith sl) leak_prefixes then out
    else if existsb (fun tok => contains tok sl) leak_substrings then out
    else (out ++ [s])%list.

Definition _drop_stage2_prompt_leakage_lines (lines : list string) : list string :=
  match lines with
  | [] => lines
  | _ => fold_left leakage_step lines []
  end.

(** *** The optional suppression of repetition loops in [run_stage2] *)

Definition consecutive_dedup (lines : list string) : list string :=
  match lines with
  | first :: ((_ :: _) as rest) =>
      fold_left
        (fun deduped ln =>
           if String.eqb ln (last deduped EmptyString) then deduped
           else (deduped ++ [ln])%list)
        rest [first]
  | _ => lines
  end.

(** *** [_normalize_binary_flag_values] *)

Definition _BINARY_FLAG_KEYWORDS : list string :=
  ["Anticoagulation"; "Insulin Therapy"; "Opioid Therapy"; "Diuretic Therapy";
   "Any Procedure"; "Surgery"; "Dialysis"].
Definition _BINARY_TRUE_VALUES : list string := ["1"; "1.0"; "true"; "yes"; "y"].
Definition _BINARY_FALSE_VALUES : list string := ["0"; "0.0"; "false"; "no"; "n"].

(** The value written back for one record. *)
Definition binary_flag_value (keyword value : string) : string :=
  if str_in keyword _BINARY_FLAG_KEYWORDS then
    let value_cf := casefold value in
    if String.eqb keyword "Dialysis" then
      if str_in value_cf _BINARY_TRUE_VALUES then "done"
      else if str_in value_cf _BINARY_FALSE_VALUES then "no"
      else value
    else
      if str_in value_cf _BINARY_TRUE_VALUES then "yes"
      else if str_in value_cf _BINARY_FALSE_VALUES then "no"
      else value
  else value.

Definition binary_flag_step (out : list string) (ln : string) : list string :=
  match split_on "|" ln with
  | [p0; p1; p2; p3] =>
      let cluster := strip p0 in
      let keyword := strip p1 in
      let value := strip p2 in
      let timestamp := strip p3 in
      (out ++ [fmt4 cluster keyword (binary_flag_value keyword value) timestamp])%list
  | _ => (out ++ [ln])%list
  end.

Definition _normalize_binary_flag_values (lines : list string) : list string :=
  fold_left binary_flag_step lines [].

(** *** [_drop_low_information_negatives] *)

Definition med_binary : list string :=
  ["Polypharmacy"; "Anticoagulation"; "Insulin Therapy"; "Opioid Therapy";
   "Diuretic Therapy"].
Definition proc_specific : list string :=
  ["Surgery"; "Dialysis"; "Mechanical Ventilation"].

(** [_extract_numeric_value]: [_FIRST_NUM_RE.search(value)]. *)
Definition _extract_numeric_value (value : string) : option string :=
  _first_number value.

(** [float(n) == 0.0] for the text [n] of a plain decimal: the nearest
    double is zero exactly when the magnitude is at most half the smallest
    subnormal, [2^-1075]. *)
Definition float_is_zero (n : string) : bool :=
  match RiskExamples.decimal_of_string n with
  | Some q => Qle_bool (- (1 # (2 ^ 1075))) q && Qle_bool q (1 # (2 ^ 1075))
  | None => false
  end.

Definition low_information_step (out : list string) (ln : string) : list string :=
  match split_on "|" ln with
  | [p0; p1; p2; p3] =>
      let cluster := strip p0 in
      let keyword := strip p1 in
      let value := strip p2 in
      let timestamp := strip p3 in
      let value_cf := casefold value in
      let keep := (out ++ [fmt4 cluster keyword value timestamp])%list in
      let after_medications :=
        if String.eqb (upper cluster) "PROCEDURES" && str_in keyword proc_specific
           && String.eqb value_cf "no"
        then out else keep in
      if String.eqb (upper cluster) "MEDICATIONS" then
        if str_in keyword med_binary && String.eqb value_cf "no" then out
        else if String.eqb keyword "New Medications Count" then
          match _extract_numeric_value value with
          | Some n => if float_is_zero n then out else after_medications
          | None => after_medications
          end
        else after_medications
      else after_medications
  | _ => (out ++ [ln])%list
  end.

Definition _drop_low_information_negatives (lines : list string) : list string :=
  fold_left low_information_step lines [].

(** *** [_semantic_postprocess_gate] *)

Definition _SYMPTOM_FRAGMENT_STOP : list string :=
  ["and arm"; "and leg"; "and hand"; "and face"; "arm"; "leg"; "hand"; "face"].
Definition _ANATOMIC_TOKENS : list string :=
  ["arm"; "arms"; "leg"; "legs"; "hand"; "hands"; "foot"; "feet"; "face";
   "ear"; "ears"; "eye"; "eyes"; "tongue"].
Definition _DIR_OR_JOIN_TOKENS : list string :=
  ["left"; "right"; "bilateral"; "and"; "or"].

(** [re.sub(p + "+", " ", s)] for a character class [p]: every maximal run
    of class characters becomes one blank. *)
Fixpoint collapse_by (p : ascii -> bool) (s : string) : string :=
  match s with
  | EmptyString => EmptyString
  | String c r =>
      if p c then
        match r with
        | String d _ =>
            if p d then collapse_by p r else String " " (collapse_by p r)
        | EmptyString => String " " EmptyString
        end
      else String c (collapse_by p r)
  end.

(** The complement of [[a-z0-9]]. *)
Definition not_lower_alnum (c : ascii) : bool := negb (is_lower c || is_digit c).

Definition _semantic_key_norm (s : string) : string :=
  strip (collapse_ws (collapse_by not_lower_alnum (casefold s))).

Definition _is_fragmented_symptom_keyword (keyword : string) : bool :=
  let nk := _semantic_key_norm keyword in
  if is_empty nk then true
  else if str_in nk _SYMPTOM_FRAGMENT_STOP then true
  else if startswith nk "and " || startswith nk "or " then true
  else
    let toks := words nk in
    (List.length toks <=? 2)%nat
    && forallb (fun t => str_in t _ANATOMIC_TOKENS || str_in t _DIR_OR_JOIN_TOKENS) toks.

Definition Item : Type := Stage2.Rec4.

Definition fmt_item (it : Item) : string :=
  fmt4 (Stage2.r_cluster it) (Stage2.r_keyword it) (Stage2.r_value it) (Stage2.r_ts it).

(** [d.setdefault(k, []).append(it)] *)
Fixpoint setdefault_append (k : string) (it : Item)
  (d : list (string * list Item)) : list (string * list Item) :=
  match d with
  | [] => [(k, [it])]
  | (k', l) :: r =>
      if String.eqb k k' then (k', (l ++ [it])%list) :: r
      else (k', l) :: setdefault_append k it r
  end.

Record GateState : Type := mkGate {
  non_semantic : list string;
  problems : list (string * list Item);
  symptoms : list (string * list Item);
  passthrough_semantic : list string
}.

Definition gate_step (st : GateState) (ln : string) : GateState :=
  match map strip (split_on "|" ln) with
  | [cluster; keyword; value; timestamp] =>
      let cu := upper cluster in
      let it := Stage2.mkRec4 cluster keyword value timestamp in
      if String.eqb cu "PROBLEMS" then
        mkGate (non_semantic st)
               (setdefault_append (_semantic_key_norm keyword) it (problems st))
               (symptoms st) (passthrough_semantic st)
      else if String.eqb cu "SYMPTOMS" then
        if _is_fragmented_symptom_keyword keyword then st
        else mkGate (non_semantic st) (problems st)
                    (setdefault_append (_semantic_key_norm keyword) it (symptoms st))
                    (passthrough_semantic st)
      else if str_in cu ["MEDICATIONS"; "PROCEDURES"] then
        mkGate (non_semantic st) (problems st) (symptoms st)
               (passthrough_semantic st ++ [fmt_item it])%list
      else
        mkGate (non_semantic st ++ [fmt_item it])%list (problems st) (symptoms st)
               (passthrough_semantic st)
  | _ => st
  end.

Definition prefers_problem (it : Item) : bool :=
  String.eqb (casefold (strip (Stage2.r_value it))) "chronic"
  || String.eqb (strip (Stage2.r_ts it)) "Past".

Definition prefers_symptom (it : Item) : bool :=
  String.eqb (strip (Stage2.r_ts it)) "Admission".

(** The record written for one normalised keyword: the only one, or the
    first preferred one, or the first.  A group is never empty; the empty
    case has no line. *)
Definition pick (prefers : Item -> bool) (items : list Item) : list string :=
  match items with
  | [] => []
  | [it] => [fmt_item it]
  | first :: _ =>
      match List.find prefers items with
      | Some it => [fmt_item it]
      | None => [fmt_item first]
      end
  end.

Definition gate_output (st : GateState) : list string :=
  (non_semantic st
   ++ flat_map (fun e => pick prefers_problem (snd e)) (problems st)
   ++ flat_map (fun e => pick prefers_symptom (snd e)) (symptoms st)
   ++ passthrough_semantic st)%list.

Definition _semantic_postprocess_gate (lines : list string) : list string :=
  Stage2.sort_lines (gate_output (fold_left gate_step lines (mkGate [] [] [] []))).

(** *** The UTILIZATION evidence gate *)

Definition _UTILIZATION_PLACEHOLDERS : list string :=
  [""; "not stated"; "none"; "unknown"; "n/a"; "___"; "..."].

(** The state of the loop is [(current, lines)]. *)
Definition section_step (target : string) (st : string * list string)
  (raw : string) : string * list string :=
  let '(current, lines) := st in
  let stripped := strip raw in
  if startswith stripped "## " then (upper (strip (drop 3 stripped)), lines)
  else if String.eqb current target && negb (is_empty stripped)
  then (current, (lines ++ [stripped])%list)
  else st.

Definition _markdown_section_lines (md_in section_name : string) : list string :=
  let target := upper (strip section_name) in
  snd (fold_left (section_step target) (splitlines md_in) (EmptyString, [])).

(** The value tested for one [;]-separated token. *)
Definition token_value (t : string) : string :=
  match split_once "=" t with
  | Some (_, v) => strip v
  | None => t
  end.

Definition token_is_evidence (token : string) : bool :=
  let t := strip token in
  if is_empty t then false
  else negb (str_in (casefold (token_value t)) _UTILIZATION_PLACEHOLDERS).

Definition _utilization_has_stage1_evidence (md_in : string) : bool :=
  let section := _markdown_section_lines md_in "UTILIZATION" in
  match section with
  | [] => false
  | _ => existsb (fun ln => existsb token_is_evidence (split_on ";" ln)) section
  end.

Definition is_utilization_record (ln : string) : bool :=
  match split_on "|" ln with
  | [p0; _; _; _] => String.eqb (upper (strip p0)) "UTILIZATION"
  | _ => false
  end.

Definition _drop_utilization_without_stage1_evidence
  (lines : list string) (md_in : string) : list string :=
  if _utilization_has_stage1_evidence md_in then lines
  else
    fold_left
      (fun out ln => if is_utilization_record ln then out else (out ++ [ln])%list)
      lines [].

(** *** Trimming the Stage-1 Markdown *)

(** ["\n".join(out).strip() + "\n"] *)
Definition finish (out : list string) : string :=
  strip (join (String "010" EmptyString) out) ++ String "010" EmptyString.

Definition filter_step (want : list string) (st : option string * list string)
  (ln : string) : option string * list string :=
  let '(cur0, out) := st in
  let cur := if startswith ln "## " then Some (upper (strip (drop 3 ln))) else cur0 in
  match cur with
  | Some c => if str_in c want then (cur, (out ++ [rstrip ln])%list) else (cur, out)
  | None => (cur, out)
  end.

Definition _filter_stage1_markdown_for_stage2 (md : string)
  (allowed_clusters : list string) : string :=
  let want := map (fun c => upper (strip c))
                (filter (fun c => negb (is_empty (strip c))) allowed_clusters) in
  finish (snd (fold_left (filter_step want) (splitlines md) (None, []))).

Definition strip_not_stated_step (out : list string) (ln : string) : list string :=
  if String.eqb (casefold (strip ln)) "not stated" then out
  else (out ++ [rstrip ln])%list.

Definition _strip_not_stated_lines (md : string) : string :=
  finish (fold_left strip_not_stated_step (splitlines md) []).

(** The [ADM:]/[DC:] prefix of a key-value line: the prefix kept in front
    of the rewritten line, and the remaining body. *)
Definition split_kv_prefix (body : string) : string * string :=
  if startswith (upper body) "ADM:"
  then (take 4 body ++ " ", strip (drop 4 body))
  else if startswith (upper body) "DC:"
  then (take 3 body ++ " ", strip (drop 3 body))
  else (EmptyString, body).

Definition compact_step (out : list string) (ln : string) : list string :=
  let stripped := strip ln in
  if String.eqb (casefold stripped) "not stated" then out
  else if startswith stripped "## " then (out ++ [rstrip ln])%list
  else if mem_char ";" stripped && mem_char "=" stripped then
    let '(pfx, body) := split_kv_prefix stripped in
    let pairs := map strip (split_on ";" body) in
    let kept :=
      filter (fun p => negb (endswith (casefold (strip p)) "=not stated")) pairs in
    match kept with
    | [] => out
    | _ => (out ++ [(pfx ++ join "; " kept)%string])%list
    end
  else if mem_char "=" stripped
          && match split_once "=" stripped with
             | Some (_, v) => String.eqb (casefold (strip v)) "not stated"
             | None => false
             end
  then out
  else (out ++ [rstrip ln])%list.

Definition is_header (ln : string) : bool := startswith (strip ln) "## ".

(** The look-ahead of the last loop: the next non-empty line, if it comes
    before the next header. *)
Fixpoint has_content (rest : list string) : bool :=
  match rest with
  | [] => false
  | ln :: r =>
      if is_header ln then false
      else if negb (is_empty (strip ln)) then true
      else has_content r
  end.

Fixpoint drop_empty_headers (out : list string) : list string :=
  match out with
  | [] => []
  | ln :: r =>
      if is_header ln && negb (has_content r) then drop_empty_headers r
      else ln :: drop_empty_headers r
  end.

(** The list [final] of [_compact_stage1_markdown]. *)
Definition compact_lines (md : string) : list string :=
  drop_empty_headers (fold_left compact_step (splitlines md) []).

Definition _compact_stage1_markdown (md : string) : string :=
  finish (compact_lines md).

(** *** Value clean-up helpers *)

Definition _sanitize_mental_status_value (v : string) : string :=
  let vv := casefold (strip v) in
  if is_empty vv || str_in vv ["..."; "…"] then "not stated"
  else if contains "clear" vv || contains "coherent" vv then "alert"
  else if contains "intact" vv || contains "oriented" vv then "oriented"
  else if contains "letharg" vv then "lethargic"
  else if contains "confus" vv then "confused"
  else if str_in vv ["alert"; "confused"; "oriented"; "lethargic"] then vv
  else "not stated".

Definition _normalize_binary_text_value (v : string) : string :=
  let lv := casefold (strip v) in
  if str_in lv Stage2._TEXT_PLACEHOLDERS then "not stated"
  else if str_in lv ["1"; "1.0"; "true"; "yes"; "y"] then "yes"
  else if str_in lv ["0"; "0.0"; "false"; "no"; "n"] then "no"
  else strip v.

(** *** Environment gates *)

(** [os.getenv]: the process environment as a lookup function. *)
Definition Environ : Type := string -> option string.

Definition truthy (s : string) : bool :=
  str_in (lower (strip s)) ["1"; "true"; "yes"; "y"].

Definition _env_truthy (env : Environ) (name dflt : string) : bool :=
  truthy (match env name with Some s => s | None => dflt end).

Definition _stage2_profile_name (env : Environ) : string :=
  casefold (strip (match env "MEDGEMMA_STAGE2_PROFILE" with
                   | Some s => s | None => "v41_validated" end)).

Definition _env_truthy_stage2 (env : Environ) (name : string)
  (validated_default experimental_default : string) : bool :=
  match env name with
  | Some _ => _env_truthy env name validated_default
  | None =>
      if str_in (_stage2_profile_name env)
                ["experimental"; "tuning"; "curated10_tuning"]
      then _env_truthy env name experimental_default
      else _env_truthy env name validated_default
  end.

End PostFilter.

(* ===================================================================== *)
(** ** The risk engine: concept groups, risk class, data completeness
       ([Analysis_Readmission/readmission_risk_engine.py]) *)
(* ===================================================================== *)

Module RiskReport.
Import PyStr Risk.
Local Open Scope Z_scope.

(** *** Layer 2: concept mapper *)

(** One entry of [snomed_problem_groups.json] or
    [symptom_urgency_groups.json]. *)
Record GroupDef : Type := mkGroupDef {
  g_id : string;
  g_synonyms : list string;
  g_weight : Z
}.

(** One synonym of [_build_synonym_index]: the first group to claim a key
    keeps it. *)
Definition index_add (id : string) (idx : list (string * string)) (syn : string)
  : list (string * string) :=
  let key := lower (strip syn) in
  match assoc key idx with
  | Some _ => idx
  | None => (idx ++ [(key, id)])%list
  end.

Definition _build_synonym_index (groups : list GroupDef) : list (string * string) :=
  fold_left (fun idx g => fold_left (index_add (g_id g)) (g_synonyms g) idx)
            groups [].

Definition _group_by_id (groups : list GroupDef) (id : string) : option GroupDef :=
  List.find (fun g => String.eqb (g_id g) id) groups.

(** [re.split(p + "+", s)] for a character class [p]: the pieces between
    maximal runs of class characters, with the empty pieces at both ends. *)
Fixpoint re_split_runs (p : ascii -> bool) (s : string) : list string :=
  match s with
  | EmptyString => [EmptyString]
  | String c r =>
      if p c then
        match r with
        | String d _ =>
            if p d then re_split_runs p r else EmptyString :: re_split_runs p r
        | EmptyString => [EmptyString; EmptyString]
        end
      else
        match re_split_runs p r with
        | h :: t => String c h :: t
        | [] => [String c EmptyString]
        end
  end.

(** The class [[\s,;/\-()]]. *)
Definition is_word_separator (c : ascii) : bool :=
  is_space c || mem_char c ",;/-()".

Definition is_word_match (kw_lower : string) (kw_words : list string)
  (syn : string) : bool :=
  str_in syn kw_words
  || startswith kw_lower (syn ++ " ")
  || endswith kw_lower (" " ++ syn)
  || contains (" " ++ syn ++ " ") kw_lower.

(** The loop state: [best_wb_match], [best_wb_len], [best_sub_match],
    [best_sub_len]. *)
Record Best : Type := mkBest {
  best_wb_match : option string;
  best_wb_len : nat;
  best_sub_match : option string;
  best_sub_len : nat
}.

Definition match_step (kw_lower : string) (kw_words : list string)
  (st : Best) (e : string * string) : Best :=
  let '(syn, id) := e in
  if negb (contains syn kw_lower) then st
  else
    let wm := is_word_match kw_lower kw_words syn in
    if wm && (best_wb_len st <? String.length syn)%nat then
      mkBest (Some id) (String.length syn) (best_sub_match st) (best_sub_len st)
    else if negb wm && (4 <=? String.length syn)%nat
            && (best_sub_len st <? String.length syn)%nat then
      mkBest (best_wb_match st) (best_wb_len st) (Some id) (String.length syn)
    else st.

(** Python truth of an [Optional[str]]. *)
Definition truthy (o : option string) : bool :=
  match o with
  | Some s => negb (is_empty s)
  | None => false
  end.

Definition _match_to_group (keyword : string)
  (synonym_index : list (string * string)) (groups : list GroupDef)
  : option GroupDef :=
  let kw_lower := lower (strip keyword) in
  let exact := assoc kw_lower synonym_index in
  if truthy exact then
    match exact with
    | Some id => _group_by_id groups id
    | None => None
    end
  else
    let kw_words := re_split_runs is_word_separator kw_lower in
    let st := fold_left (match_step kw_lower kw_words) synonym_index
                        (mkBest None 0 None 0) in
    let chosen := if truthy (best_wb_match st) then best_wb_match st
                  else best_sub_match st in
    if truthy chosen then
      match chosen with
      | Some id => _group_by_id groups id
      | None => None
      end
    else None.

(** The engine built from a rule bundle and the two group files, as
    [__init__] builds it. *)
Definition as_group (g : GroupDef) : Group := mkGroup (g_id g) (g_weight g).

Definition engine_of (rules : list (string * list (string * KwRules)))
  (problem_groups symptom_groups : list GroupDef)
  (float_of : string -> option Q) (str_of : Q -> string)
  : ReadmissionRiskEngine :=
  mkEngine rules
    (fun kw => option_map as_group
                 (_match_to_group kw (_build_synonym_index problem_groups)
                                  problem_groups))
    (fun kw => option_map as_group
                 (_match_to_group kw (_build_synonym_index symptom_groups)
                                  symptom_groups))
    float_of str_of.

(** *** Layer 5: risk class *)

(** One entry of [_meta.risk_categories]. *)
Record RiskCategory : Type := mkCategory {
  cat_name : string;
  cat_color : string;
  score_min : Z;
  score_max : Z
}.

Definition _classify_risk (risk_categories : list RiskCategory) (score : Z)
  : string * string :=
  match List.find (fun cat => (score_min cat <=? score) && (score <=? score_max cat))
                  risk_categories with
  | Some cat => (cat_name cat, cat_color cat)
  | None => ("Critical", "red")
  end.

(** *** Missing data and confidence, as [score] reports them *)

Definition missing_clusters (facts : Facts) : list string :=
  filter (fun c => match assoc c facts with
                   | None => true
                   | Some l => is_empty_list l
                   end)
         VALID_CLUSTERS.

(** [1.0 - len(missing_clusters) / len(VALID_CLUSTERS)], as an exact
    quotient. *)
Definition completeness (facts : Facts) : Q :=
  (1 - inject_Z (Z.of_nat (List.length (missing_clusters facts)))
       / inject_Z (Z.of_nat (List.length VALID_CLUSTERS)))%Q.

Definition confidence (facts : Facts) : string :=
  if Qleb (7 # 10) (completeness facts) then "high"
  else if Qleb (1 # 2) (completeness facts) then "medium"
  else "low".

(** The number of stored facts. *)
Definition n_stored (facts : Facts) : nat :=
  fold_left (fun n e => (n + List.length (snd e))%nat) facts 0%nat.

End RiskReport.

(* ===================================================================== *)
(** ** Days to readmission ([_predict_days], [_predict_bucket])

    As for the probability, the floating-point arithmetic is idealised by
    real arithmetic. *)
(* ===================================================================== *)

Module Prediction.
Local Open Scope R_scope.

(** [DAYS_PREDICTION.models.regression.parameters] *)
Record DaysParams : Type := mkDays {
  _d_max : R;
  _gamma : R
}.

Definition _predict_days (self : DaysParams) (score : Z) : R :=
  Rmax 1 (_d_max self * exp (- _gamma self * IZR score)).

Definition _predict_bucket (estimated_days : R) : string :=
  if Rle_dec estimated_days 7 then "0-7 days"
  else if Rle_dec estimated_days 14 then "8-14 days"
  else "15-30 days".

(** The position of a bucket on the time axis. *)
Definition bucket_rank (b : string) : nat :=
  if String.eqb b "0-7 days" then 0
  else if String.eqb b "8-14 days" then 1
  else 2.

End Prediction.

(* ===================================================================== *)
(** ** KVT helpers of [kvt_utils.py] *)
(* ===================================================================== *)

Module KvtHelpers.
Import PyStr Kvt.

(** *** [_looks_like_kvt_fact]; [allow_kvt3] is the test
    [os.getenv("ALLOW_KVT3", "1").strip() == "1"]. *)

Definition allow_kvt3_of (env : option string) : bool :=
  String.eqb (strip (match env with Some s => s | None => "1" end)) "1".

Definition last_part (parts : list string) : string := last parts EmptyString.

Fixpoint list_eqb (a b : list string) : bool :=
  match a, b with
  | [], [] => true
  | x :: a', y :: b' => String.eqb x y && list_eqb a' b'
  | _, _ => false
  end.

Definition _looks_like_kvt_fact (allow_kvt3 : bool) (line : string) : bool :=
  if is_empty line then false
  else
    let s := strip line in
    if (String.length s <? 5)%nat || (400 <? String.length s)%nat then false
    else
      let pipe_count := count_char "|" s in
      if negb (Nat.eqb pipe_count 2 || Nat.eqb pipe_count 3) then false
      else
        let parts := map strip (split_on "|" s) in
        let n := List.length parts in
        if negb (Nat.eqb n 3 || Nat.eqb n 4) then false
        else if Nat.eqb n 3 && negb allow_kvt3 then false
        else
          let parts_lower := map lower parts in
          let pl (i : nat) := nth i parts_lower EmptyString in
          let p (i : nat) := nth i parts EmptyString in
          if list_eqb parts_lower ["k"; "v"; "t"] then false
          else if list_eqb parts_lower ["category"; "keyword"; "value"; "timestamp"]
          then false
          else if Nat.eqb n 4 && startswith (pl 0) "category"
                  && String.eqb (pl 1) "keyword" && String.eqb (pl 2) "value"
                  && startswith (pl 3) "timestamp"
          then false
          else if contains "format" (pl 0)
                  && list_eqb (firstn 2 (skipn 1 parts_lower)) ["keyword"; "value"]
          then false
          else if (startswith (pl 0) "format" || startswith (pl 0) "output format")
                  && contains "timestamp" (last_part parts_lower)
          then false
          else if existsb (fun marker => contains marker (pl 1))
                    ["any diagnosis"; "any symptom"; "any procedure"; "value:"]
          then false
          else if mem_char "(" (p 1) && mem_char ")" (p 1) then false
          else if (80 <? String.length (p 0))%nat || (80 <? String.length (p 1))%nat
                  || (200 <? String.length (p 2))%nat
          then false
          else if Nat.eqb n 4 && (40 <? String.length (p 3))%nat then false
          else if (8 <? List.length (words (p 0)))%nat
                  || (8 <? List.length (words (p 1)))%nat
                  || (14 <? List.length (words (p 2)))%nat
          then false
          else if Nat.eqb n 4 && (4 <? List.length (words (p 3)))%nat then false
          else forallb (fun x => negb (is_empty x)) parts.

(** *** [_map_category_to_cluster] *)

Definition category_mapping : list (string * string) :=
  [("vitals", "VITALS"); ("vital", "VITALS"); ("labs", "LABS"); ("lab", "LABS");
   ("demographics", "DEMOGRAPHICS"); ("demo", "DEMOGRAPHICS");
   ("conditions", "PROBLEMS"); ("condition", "PROBLEMS");
   ("problems", "PROBLEMS"); ("problem", "PROBLEMS");
   ("symptoms", "SYMPTOMS"); ("symptom", "SYMPTOMS");
   ("medications", "MEDICATIONS"); ("medication", "MEDICATIONS");
   ("procedures", "PROCEDURES"); ("procedure", "PROCEDURES");
   ("utilization", "UTILIZATION"); ("disposition", "DISPOSITION")].

Definition _map_category_to_cluster (category : string) : string :=
  let c := lower (strip category) in
  if is_empty c then EmptyString
  else match lookup c category_mapping with
       | Some v => v
       | None => strip category
       end.

(** *** [_normalize_mode]; [None] is Python's [None]. *)

Definition dash_to_underscore (c : ascii) : ascii :=
  if Ascii.eqb c "-" then "_"%char else c.

Definition _normalize_mode (mode : option string) : string :=
  match mode with
  | None => "READMISSION_DISCHARGE"
  | Some m =>
      if is_empty m then "READMISSION_DISCHARGE"
      else
        let m := map_str dash_to_underscore (upper m) in
        if str_in m ["CCDE"; "CCDE_ADMISSION"] then "CCDE_ADMISSION"
        else if str_in m ["TABULAR"; "READMISSION_TABULAR"; "MVP_TABULAR";
                          "TOON_TABULAR"] then "READMISSION_TABULAR"
        else if str_in m ["STRUCTURED"; "READMISSION_STRUCTURED"; "PYDANTIC";
                          "STRUCTURED_OUTPUT"] then "READMISSION_STRUCTURED"
        else "READMISSION_DISCHARGE"
  end.

End KvtHelpers.

(* ===================================================================== *)
(** ** Facts about the string primitives *)
(* ===================================================================== *)

Module PyStrFacts.
Import PyStr.

Lemma str_in_In (s : string) (l : list string) :
  str_in s l = true <-> In s l.
Proof.
  unfold str_in. rewrite existsb_exists. split.
  - intros [x [Hx He]]. apply String.eqb_eq in He. now subst.
  - intros H. exists s. split; [assumption | apply String.eqb_refl].
Qed.

Lemma split_on_nonempty (sep : ascii) (s : string) : split_on sep s <> [].
Proof.
  induction s as [| c r IH]; simpl; [discriminate |].
  destruct (Ascii.eqb c sep); [discriminate |].
  destruct (split_on sep r); [contradiction | discriminate].
Qed.

Lemma split_on_no_sep (sep : ascii) (s : string) :
  Forall (fun p => mem_char sep p = false) (split_on sep s).
Proof.
  induction s as [| c r IH]; simpl.
  - constructor; [reflexivity | constructor].
  - destruct (Ascii.eqb c sep) eqn:E.
    + constructor; [reflexivity | assumption].
    + destruct (split_on sep r) as [| h t] eqn:Es.
      * exfalso. now apply (split_on_nonempty sep r).
      * inversion IH as [| ? ? Hh Ht]; subst.
        constructor; [| assumption].
        simpl. rewrite Ascii.eqb_sym, E. assumption.
Qed.

Lemma split_on_plain (sep : ascii) (s : string) :
  mem_char sep s = false -> split_on sep s = [s].
Proof.
  induction s as [| c r IH]; simpl; [reflexivity |].
  intros H. apply orb_false_elim in H as [Hc Hr].
  rewrite Ascii.eqb_sym, Hc. now rewrite (IH Hr).
Qed.

Lemma split_on_app (sep : ascii) (a b : string) :
  mem_char sep a = false ->
  split_on sep (a ++ String sep b) = a :: split_on sep b.
Proof.
  induction a as [| c r IH]; simpl; intros H.
  - now rewrite Ascii.eqb_refl.
  - apply orb_false_elim in H as [Hc Hr].
    rewrite Ascii.eqb_sym, Hc. now rewrite (IH Hr).
Qed.

Lemma mem_char_app (c : ascii) (a b : string) :
  mem_char c (a ++ b) = mem_char c a || mem_char c b.
Proof.
  induction a as [| d r IH]; simpl; [reflexivity |].
  now rewrite IH, orb_assoc.
Qed.

Lemma mem_char_map (f : ascii -> ascii) (c : ascii) (s : string) :
  (forall d, Ascii.eqb c (f d) = true -> Ascii.eqb c d = true) ->
  mem_char c s = false -> mem_char c (map_str f s) = false.
Proof.
  intros Hf. induction s as [| d r IH]; simpl; [reflexivity |].
  intros H. apply orb_false_elim in H as [Hd Hr].
  rewrite (IH Hr), orb_false_r.
  destruct (Ascii.eqb c (f d)) eqn:E; [| reflexivity].
  apply Hf in E. congruence.
Qed.

Lemma mem_char_lstrip_by (p : ascii -> bool) (c : ascii) (s : string) :
  mem_char c s = false -> mem_char c (lstrip_by p s) = false.
Proof.
  induction s as [| d r IH]; simpl; [reflexivity |].
  intros H. destruct (p d); [| exact H].
  apply orb_false_elim in H as [_ Hr]. now apply IH.
Qed.

Lemma mem_char_rstrip_by (p : ascii -> bool) (c : ascii) (s : string) :
  mem_char c s = false -> mem_char c (rstrip_by p s) = false.
Proof.
  induction s as [| d r IH]; simpl; [reflexivity |].
  intros H. apply orb_false_elim in H as [Hd Hr].
  destruct (p d && is_empty (rstrip_by p r)); [reflexivity |].
  simpl. now rewrite Hd, (IH Hr).
Qed.

Lemma mem_char_strip_by (p : ascii -> bool) (c : ascii) (s : string) :
  mem_char c s = false -> mem_char c (strip_by p s) = false.
Proof.
  intros H. unfold strip_by.
  now apply mem_char_rstrip_by, mem_char_lstrip_by.
Qed.

Lemma append_assoc (a b c : string) : (a ++ b) ++ c = a ++ (b ++ c).
Proof. induction a as [| x r IH]; simpl; [reflexivity | now rewrite IH]. Qed.

Lemma append_empty_r (s : string) : s ++ "" = s.
Proof. induction s as [| c r IH]; simpl; [reflexivity | now rewrite IH]. Qed.

(** Absence of the field separator. *)
Definition nopipe (s : string) : Prop := mem_char "|" s = false.

Lemma upper_char_pipe (d : ascii) :
  Ascii.eqb "|" (upper_char d) = true -> Ascii.eqb "|" d = true.
Proof.
  destruct d as [[] [] [] [] [] [] [] []]; vm_compute; intros H;
    first [exact H | reflexivity | discriminate H].
Qed.

Lemma nopipe_upper (s : string) : nopipe s -> nopipe (upper s).
Proof. apply mem_char_map, upper_char_pipe. Qed.

Lemma nopipe_strip (s : string) : nopipe s -> nopipe (strip s).
Proof. apply mem_char_strip_by. Qed.

Lemma nopipe_strip_chars (cs s : string) : nopipe s -> nopipe (strip_chars cs s).
Proof. apply mem_char_strip_by. Qed.

Lemma nopipe_lstrip_chars (cs s : string) : nopipe s -> nopipe (lstrip_chars cs s).
Proof. apply mem_char_lstrip_by. Qed.

Lemma nopipe_split_strip (s : string) :
  Forall nopipe (map strip (split_on "|" s)).
Proof.
  apply Forall_map. eapply Forall_impl; [| apply split_on_no_sep].
  intros p Hp. now apply nopipe_strip.
Qed.

Lemma append_pipe (a b : string) : a ++ "|" ++ b = a ++ String "|" b.
Proof. reflexivity. Qed.

Lemma split_on_pipe_app (a b : string) :
  nopipe a -> split_on "|" (a ++ "|" ++ b) = a :: split_on "|" b.
Proof. intros H. rewrite append_pipe. now apply split_on_app. Qed.

(** What [rstrip] leaves never ends with a stripped character. *)
Lemma rstrip_by_last (p : ascii -> bool) (s a : string) (c : ascii) :
  rstrip_by p s = a ++ String c "" -> p c = false.
Proof.
  revert a. induction s as [| d r IH]; intros a; simpl.
  - destruct a; discriminate.
  - destruct (p d && is_empty (rstrip_by p r)) eqn:E.
    + destruct a; discriminate.
    + destruct a as [| a0 a'].
      * simpl. intros H. inversion H as [[Hd Hr]]. subst d.
        rewrite Hr in E. simpl in E. now rewrite andb_true_r in E.
      * simpl. intros H. inversion H as [[Hd Hr]]. now apply (IH a').
Qed.









End PyStrFacts.

(* ===================================================================== *)
(** ** The hallucinated-negative guard is a filter *)
(* ===================================================================== *)

Module GuardProofs.
Import PyStr PyStrFacts Guard.

(** The condition under which one loop iteration skips the line. *)
Definition loop_drops (present : list string) (ln : string) : bool :=
  match split_on "|" ln with
  | [p0; p1; p2; _] =>
      let cluster_u := upper (strip p0) in
      str_in cluster_u guarded_clusters
      && negb (str_in cluster_u present)
      && String.eqb (casefold (strip p2)) "no"
      && negb (String.eqb cluster_u "PROCEDURES"
               && String.eqb (strip p1) "Any Procedure")
  | _ => false
  end.

Lemma guard_step_out (present : list string) (out : list string) (d : nat)
  (ln : string) :
  fst (guard_step present (out, d) ln)
  = (out ++ (if loop_drops present ln then [] else [ln]))%list.
Proof.
  unfold guard_step, loop_drops.
  destruct (split_on "|" ln) as [| p0 [| p1 [| p2 [| p3 [| p4 t]]]]];
    simpl; try reflexivity.
  destruct ((String.eqb (upper (strip p0)) "MEDICATIONS"
             || (String.eqb (upper (strip p0)) "PROCEDURES" || false))
            && negb (str_in (upper (strip p0)) present)
            && String.eqb (casefold (strip p2)) "no"); simpl;
    [| reflexivity].
  destruct (negb (String.eqb (upper (strip p0)) "PROCEDURES"
                  && String.eqb (strip p1) "Any Procedure")); simpl;
    [now rewrite app_nil_r | reflexivity].
Qed.

Lemma guard_fold (present : list string) (lines : list string) :
  forall out d,
    fst (fold_left (guard_step present) lines (out, d))
    = (out ++ filter (fun ln => negb (loop_drops present ln)) lines)%list.
Proof.
  induction lines as [| ln rest IH]; intros out d; cbn [fold_left filter].
  - simpl. now rewrite app_nil_r.
  - pose proof (guard_step_out present out d ln) as Hs.
    destruct (guard_step present (out, d) ln) as [out' d'] eqn:E.
    cbn [fst] in Hs. subst out'. rewrite IH.
    destruct (loop_drops present ln); cbn [negb].
    + now rewrite app_nil_r.
    + now rewrite <- app_assoc.
Qed.

Lemma str_in_cons (s x : string) (l : list string) :
  str_in s (x :: l) = String.eqb s x || str_in s l.
Proof. reflexivity. Qed.

Lemma present_fold (name : string) (ls : list string) :
  forall acc,
    str_in name (fold_left present_step ls acc)
    = str_in name acc
      || (str_in name guarded_clusters
          && existsb (fun ln => match header_cluster ln with
                                | Some c => String.eqb c name
                                | None => false
                                end) ls).
Proof.
  induction ls as [| ln rest IH]; intros acc; cbn [fold_left existsb].
  - now rewrite andb_false_r, orb_false_r.
  - rewrite IH. unfold present_step.
    destruct (header_cluster ln) as [c |]; [| reflexivity].
    destruct (String.eqb c name) eqn:Ec.
    + apply String.eqb_eq in Ec. subst c.
      destruct (str_in name guarded_clusters) eqn:Eg.
      * rewrite str_in_cons, String.eqb_refl. simpl. now rewrite orb_true_r.
      * now rewrite !andb_false_l.
    + destruct (str_in c guarded_clusters); [| reflexivity].
      rewrite str_in_cons, String.eqb_sym, Ec. reflexivity.
Qed.

Lemma present_has_section (md_in name : string) :
  str_in name guarded_clusters = true ->
  str_in name (present_clusters md_in) = has_section md_in name.
Proof.
  intros Hg. unfold present_clusters, has_section.
  rewrite present_fold, Hg. reflexivity.
Qed.

Lemma loop_drops_removed (md_in ln : string) :
  loop_drops (present_clusters md_in) ln = removed_by_guard md_in ln.
Proof.
  unfold loop_drops, removed_by_guard, negative_of, keyword_of.
  destruct (split_on "|" ln) as [| p0 [| p1 [| p2 [| p3 [| p4 t]]]]];
    try reflexivity.
  cbv zeta.
  set (cu := upper (strip p0)).
  destruct (String.eqb cu "MEDICATIONS") eqn:EM.
  - apply String.eqb_eq in EM. rewrite EM.
    rewrite (present_has_section md_in "MEDICATIONS" eq_refl).
    simpl.
    destruct (String.eqb (casefold (strip p2)) "no"),
             (has_section md_in "MEDICATIONS"); reflexivity.
  - destruct (String.eqb cu "PROCEDURES") eqn:EP.
    + apply String.eqb_eq in EP. rewrite EP.
      rewrite (present_has_section md_in "PROCEDURES" eq_refl).
      simpl.
      destruct (String.eqb (casefold (strip p2)) "no"),
               (has_section md_in "PROCEDURES"),
               (String.eqb (strip p1) "Any Procedure"); reflexivity.
    + unfold str_in, guarded_clusters. simpl. rewrite EM, EP. reflexivity.
Qed.

(** C8 (amended).  The guard is exactly the order-preserving filter that
    removes (a) every four-field MEDICATIONS line with value [no] when the
    Stage-1 Markdown has no MEDICATIONS header and (b) every four-field
    PROCEDURES line with value [no] whose keyword is not [Any Procedure]
    when the Markdown has no PROCEDURES header; every [Any Procedure]
    negative and every other line is kept, unchanged and in input order. *)
Theorem drop_hallucinated_negatives_is_filter
  (lines : list string) (md_in : string) :
  _drop_hallucinated_negatives lines md_in
  = filter (fun ln => negb (removed_by_guard md_in ln)) lines.
Proof.
  unfold _drop_hallucinated_negatives.
  rewrite guard_fold. simpl.
  apply filter_ext. intros ln. now rewrite loop_drops_removed.
Qed.

(** C8, as stated, fails: a PROCEDURES negative with a keyword outside
    Surgery, Dialysis, Mechanical Ventilation is removed as well, although
    the sentence lets it pass through. *)
Lemma drop_hallucinated_negatives_drops_other_keyword :
  _drop_hallucinated_negatives ["PROCEDURES|Biopsy|no|Admission"] ""
  <> guard_as_specified ["PROCEDURES|Biopsy|no|Admission"] "".
Proof. vm_compute. discriminate. Qed.

(** Every [Any Procedure] negative is kept, not just one of them. *)
Example drop_hallucinated_negatives_keeps_all_any_procedure :
  _drop_hallucinated_negatives
    ["PROCEDURES|Any Procedure|no|Admission";
     "PROCEDURES|Surgery|no|Admission";
     "PROCEDURES|Any Procedure|no|Discharge";
     "MEDICATIONS|Anticoagulation|No|Admission";
     "VITALS|Heart Rate|88|Admission"]
    "## VITALS
ADM: Heart Rate=88
"
  = ["PROCEDURES|Any Procedure|no|Admission";
     "PROCEDURES|Any Procedure|no|Discharge";
     "VITALS|Heart Rate|88|Admission"].
Proof. vm_compute. reflexivity. Qed.

(** With the section present nothing is removed. *)
Example drop_hallucinated_negatives_section_present :
  _drop_hallucinated_negatives
    ["PROCEDURES|Surgery|no|Admission"; "MEDICATIONS|Insulin Therapy|no|Admission"]
    "## MEDICATIONS
Insulin Therapy=no
## procedures
Surgery=no"
  = ["PROCEDURES|Surgery|no|Admission"; "MEDICATIONS|Insulin Therapy|no|Admission"].
Proof. vm_compute. reflexivity. Qed.

End GuardProofs.

(* ===================================================================== *)
(** ** URL normalisation: the documented examples and the missed case *)
(* ===================================================================== *)

Module UrlProofs.
Import PyStr Url.

(** Whenever a pair is returned, its second component is the first one
    followed by [/v1]. *)
Lemma normalize_urls_v1_suffix (url root v1 : string) :
  _normalize_urls url = Some (root, v1) -> v1 = root ++ "/v1".
Proof.
  unfold _normalize_urls.
  destruct (is_empty (strip url)).
  - intros H. inversion H. reflexivity.
  - destruct (urlparse _) as [p |]; [| discriminate].
    intros H. inversion H. reflexivity.
Qed.

(** The cases of [tests/test_openai_compat_url_normalization.py]. *)
Example normalize_urls_accepts_root :
  _normalize_urls "http://127.0.0.1:1245"
  = Some ("http://127.0.0.1:1245", "http://127.0.0.1:1245/v1").
Proof. vm_compute. reflexivity. Qed.

Example normalize_urls_accepts_v1 :
  _normalize_urls "http://127.0.0.1:1245/v1"
  = Some ("http://127.0.0.1:1245", "http://127.0.0.1:1245/v1").
Proof. vm_compute. reflexivity. Qed.

Example normalize_urls_trims_full_endpoint :
  _normalize_urls "http://127.0.0.1:1245/v1/chat/completions"
  = Some ("http://127.0.0.1:1245", "http://127.0.0.1:1245/v1").
Proof. vm_compute. reflexivity. Qed.

Example normalize_urls_adds_scheme :
  _normalize_urls "127.0.0.1:1245/v1/models"
  = Some ("http://127.0.0.1:1245", "http://127.0.0.1:1245/v1").
Proof. vm_compute. reflexivity. Qed.

Example normalize_urls_keeps_api_prefix :
  _normalize_urls "http://localhost:8080/api/v1/chat/completions"
  = Some ("http://localhost:8080/api", "http://localhost:8080/api/v1").
Proof. vm_compute. reflexivity. Qed.

Example normalize_urls_does_not_trim_v1beta :
  _normalize_urls "http://localhost:8080/v1beta"
  = Some ("http://localhost:8080/v1beta", "http://localhost:8080/v1beta/v1").
Proof. vm_compute. reflexivity. Qed.

Example normalize_urls_empty :
  _normalize_urls "   " = Some ("", "/v1").
Proof. vm_compute. reflexivity. Qed.

(** The function is partial: [urlparse] rejects an unmatched bracket. *)
Example normalize_urls_invalid_ipv6 :
  _normalize_urls "http://[::1/v1" = None.
Proof. vm_compute. reflexivity. Qed.

(** C9.  The path [/v1beta/v1/chat/completions] has [/v1] as a whole
    segment at offset 7, yet nothing is trimmed: only the first occurrence
    of the text [/v1] is examined, and that one is the prefix of [v1beta].
    The documented behaviour would give the root
    [http://localhost:8080/v1beta]. *)
Theorem normalize_urls_misses_later_v1_segment :
  v1_segment_at "/v1beta/v1/chat/completions" = Some 7
  /\ _normalize_urls "http://localhost:8080/v1beta/v1/chat/completions"
     = Some ("http://localhost:8080/v1beta/v1/chat/completions",
             "http://localhost:8080/v1beta/v1/chat/completions/v1").
Proof. split; vm_compute; reflexivity. Qed.

End UrlProofs.

(* ===================================================================== *)
(** ** Risk engine: aggregation, the sepsis pattern and monotonicity *)
(* ===================================================================== *)

Module RiskProofs.
Import PyStr PyStrFacts Risk.
Local Open Scope Z_scope.

(** *** The fact store *)

Lemma facts_get_append (c c' : string) (f : ParsedFact) (facts : Facts) :
  facts_get (facts_append c f facts) c'
  = if String.eqb c' c then (facts_get facts c' ++ [f])%list
    else facts_get facts c'.
Proof.
  unfold facts_get.
  induction facts as [| [k l] r IH]; simpl.
  - destruct (String.eqb c' c); reflexivity.
  - destruct (String.eqb c k) eqn:Eck; simpl.
    + apply String.eqb_eq in Eck. subst k.
      destruct (String.eqb c' c); reflexivity.
    + destruct (String.eqb c' k) eqn:Ek.
      * apply String.eqb_eq in Ek. subst k.
        rewrite String.eqb_sym, Eck. reflexivity.
      * exact IH.
Qed.

Lemma find_snoc {A : Type} (p : A -> bool) (l : list A) (x : A) :
  List.find p (l ++ [x])
  = match List.find p l with
    | Some y => Some y
    | None => if p x then Some x else None
    end.
Proof.
  induction l as [| y r IH]; simpl; [reflexivity |].
  destruct (p y); [reflexivity | exact IH].
Qed.

(** *** Sums *)

Lemma fold_add_acc (l : list Z) (a : Z) :
  fold_left Z.add l a = a + fold_left Z.add l 0.
Proof.
  revert a. induction l as [| x r IH]; intros a; simpl; [lia |].
  rewrite (IH (a + x)), (IH x). lia.
Qed.

Lemma sum_Z_cons (x : Z) (l : list Z) : sum_Z (x :: l) = x + sum_Z l.
Proof. unfold sum_Z. simpl. apply fold_add_acc. Qed.

Lemma sum_Z_app (a b : list Z) : sum_Z (a ++ b) = sum_Z a + sum_Z b.
Proof.
  induction a as [| x r IH]; simpl.
  - change (sum_Z []) with 0. lia.
  - rewrite !sum_Z_cons, IH. lia.
Qed.

Definition bsum (l : list InteractionResult) : Z := sum_Z (map bonus l).

Lemma bsum_app (a b : list InteractionResult) : bsum (a ++ b) = bsum a + bsum b.
Proof. unfold bsum. now rewrite map_app, sum_Z_app. Qed.

Lemma bsum_if (b : bool) (x : InteractionResult) :
  bsum (if b then [x] else []) = if b then bonus x else 0.
Proof. destruct b; reflexivity. Qed.

Lemma interaction_bonus_split (self : ReadmissionRiskEngine) (facts : Facts) :
  interaction_bonus self facts
  = bsum (sepsis_pattern facts) + bsum (aki_pattern facts)
    + bsum (decompensated_hf self facts) + bsum (frailty_syndrome self facts)
    + bsum (unstable_discharge self facts) + bsum (respiratory_failure self facts)
    + bsum (metabolic_crisis facts) + bsum (bleeding_risk self facts).
Proof.
  unfold interaction_bonus, detect_interactions. fold (bsum).
  change (sum_Z (map bonus ?l)) with (bsum l).
  rewrite !bsum_app. lia.
Qed.

Lemma sepsis_nonneg facts : 0 <= bsum (sepsis_pattern facts).
Proof. unfold sepsis_pattern. cbv zeta. rewrite bsum_if. destruct (_ && _); simpl; lia. Qed.

(** *** What "the stream contains the numeric fact kw = q" means

    The parser stores at most one fact per keyword of an objective
    cluster; [one_per_keyword] records that, and [numeric_fact_in] says the
    stored fact for [kw] is the number [q] with timestamp [ts]. *)

Definition one_per_keyword (facts : Facts) (c : string) : Prop :=
  NoDup (map keyword (facts_get facts c)).






End RiskProofs.

(* ===================================================================== *)
(** ** Risk engine: when adding a fact cannot lower the composite score *)
(* ===================================================================== *)

Module RiskMonotone.
Import PyStr PyStrFacts Risk RiskProofs.
Local Open Scope Z_scope.




Lemma facts_get_append_ne (c c' : string) (f : ParsedFact) (facts : Facts) :
  String.eqb c' c = false ->
  facts_get (facts_append c f facts) c' = facts_get facts c'.
Proof. intros H. now rewrite facts_get_append, H. Qed.

Lemma facts_get_append_eq (c : string) (f : ParsedFact) (facts : Facts) :
  facts_get (facts_append c f facts) c = (facts_get facts c ++ [f])%list.
Proof. now rewrite facts_get_append, String.eqb_refl. Qed.


Section AppendOutsideSemantics.

Variable self : ReadmissionRiskEngine.
Variable facts : Facts.
Variable c : string.
Variable f : ParsedFact.

Hypothesis c_not_problems : String.eqb "PROBLEMS" c = false.
Hypothesis c_not_symptoms : String.eqb "SYMPTOMS" c = false.
Hypothesis c_not_medications : String.eqb "MEDICATIONS" c = false.
Hypothesis c_not_disposition : String.eqb "DISPOSITION" c = false.




















End AppendOutsideSemantics.






Example composite_before_and_after_disposition :
  composite_score RiskExamples.demo_engine RiskExamples.confused_facts = 10
  /\ composite_score RiskExamples.demo_engine
       (facts_append "DISPOSITION" RiskExamples.snf_fact RiskExamples.confused_facts)
     = 8.
Proof. split; reflexivity. Qed.

(** The cancellation does not depend on the example bundle: whatever the
    rules, a first Discharge Disposition other than [home] and [ama]
    removes the pattern that the missing disposition had triggered. *)
Lemma unstable_discharge_needs_missing_disposition
  (self : ReadmissionRiskEngine) (facts : Facts) (f : ParsedFact) :
  get_str self facts "DISPOSITION" "Discharge Disposition" = None ->
  opt_str_in (get_str self facts "DISPOSITION" "Mental Status")
             ["confused"; "lethargic"] = true ->
  keyword f = "Discharge Disposition" ->
  str_in (norm_val self f) ["home"; "ama"] = false ->
  bsum (unstable_discharge self facts) = 5
  /\ bsum (unstable_discharge self (facts_append "DISPOSITION" f facts)) = 0.
Proof.
  intros Hd Hm Hk Hv. unfold unstable_discharge. cbv zeta. split.
  - rewrite Hd, Hm. reflexivity.
  - assert (Hd' : get_str self (facts_append "DISPOSITION" f facts)
                    "DISPOSITION" "Discharge Disposition"
                  = Some (norm_val self f)).
    { unfold get_str in *. rewrite facts_get_append_eq, find_snoc.
      destruct (List.find _ (facts_get facts "DISPOSITION")); [discriminate |].
      now rewrite Hk. }
    rewrite Hd'. simpl.
    unfold str_in in Hv. simpl in Hv.
    apply orb_false_elim in Hv as [Hh Hv].
    apply orb_false_elim in Hv as [Ha _].
    rewrite Ha, Hh. simpl. rewrite andb_false_r. reflexivity.
Qed.

End RiskMonotone.

(* ===================================================================== *)
(** ** Risk engine parser: objective clusters keep the first record *)
(* ===================================================================== *)

Module RiskParser.
Import PyStr PyStrFacts Risk RiskSpec RiskProofs RiskMonotone.

Lemma fold_add_fact_problems (fs : list ParsedFact) :
  Forall (fun f => cluster f = "PROBLEMS") fs ->
  forall st,
    seen_objective (fold_left add_fact fs st) = seen_objective st
    /\ n_dropped (fold_left add_fact fs st) = n_dropped st
    /\ forall c, String.eqb c "PROBLEMS" = false ->
                 facts_get (ps_facts (fold_left add_fact fs st)) c
                 = facts_get (ps_facts st) c.
Proof.
  induction 1 as [| f r Hf Hr IH]; intros st; simpl.
  - repeat split.
  - destruct (IH (add_fact st f)) as (Hs & Hd & Hg).
    repeat split; [now rewrite Hs | now rewrite Hd |].
    intros c Hc. rewrite (Hg c Hc). simpl.
    rewrite Hf. now apply facts_get_append_ne.
Qed.

Lemma fold_left_over_map {A B C : Type} (f : A -> C -> A) (g : B -> C)
  (l : list B) (a : A) :
  fold_left f (map g l) a = fold_left (fun acc x => f acc (g x)) l a.
Proof. revert a. induction l as [| x r IH]; intros a; simpl; [reflexivity | apply IH]. Qed.

(** [parse_step] is [classify] followed by the de-duplication. *)
Lemma parse_step_classify (self : ReadmissionRiskEngine) (st : ParseState)
  (ln : string) :
  parse_step self st ln
  = match classify self ln with
    | Skipped => st
    | Rejected => drop_line st
    | Expanded fs => fold_left add_fact fs st
    | Candidate f =>
        if str_in (cluster f) OBJECTIVE_CLUSTERS then
          if key_in (cluster f, keyword f) (seen_objective st) then drop_line st
          else mkPS (facts_append (cluster f) f (ps_facts st))
                    (S (n_parsed st)) (n_dropped st)
                    ((cluster f, keyword f) :: seen_objective st)
        else add_fact st f
    end.
Proof.
  unfold parse_step, classify.
  destruct (is_empty (strip ln) || startswith (strip ln) "#"); [reflexivity |].
  destruct (split_on "|" (strip ln)) as [| p0 [| p1 [| p2 [| p3 [| p4 t]]]]];
    try reflexivity.
  cbv zeta.
  destruct (negb (str_in (strip p0) VALID_CLUSTERS)); [reflexivity |].
  match goal with
  | |- (if ?b then _ else _) = _ => destruct b
  end.
  { now rewrite fold_left_over_map. }
  match goal with
  | |- (if ?b then _ else _) = _ => destruct b
  end.
  { now rewrite fold_left_over_map. }
  destruct (parse_value self (strip p0) _ (strip p2)) as [[pv isnum] |];
    reflexivity.
Qed.

Lemma classify_expanded (self : ReadmissionRiskEngine) (ln : string)
  (fs : list ParsedFact) :
  classify self ln = Expanded fs -> Forall (fun f => cluster f = "PROBLEMS") fs.
Proof.
  unfold classify.
  destruct (is_empty (strip ln) || startswith (strip ln) "#"); [discriminate |].
  destruct (split_on "|" (strip ln)) as [| p0 [| p1 [| p2 [| p3 [| p4 t]]]]];
    try discriminate.
  cbv zeta.
  destruct (negb (str_in (strip p0) VALID_CLUSTERS)); [discriminate |].
  match goal with
  | |- (if ?b then _ else _) = _ -> _ => destruct b
  end.
  { intros H. inversion H. apply Forall_forall. intros f Hin.
    apply in_map_iff in Hin as (it & <- & _). reflexivity. }
  match goal with
  | |- (if ?b then _ else _) = _ -> _ => destruct b
  end.
  { intros H. inversion H. apply Forall_forall. intros f Hin.
    apply in_map_iff in Hin as (it & <- & _). reflexivity. }
  destruct (parse_value self (strip p0) _ (strip p2)) as [[pv isnum] |];
    discriminate.
Qed.

Lemma objective_not_problems (c : string) :
  str_in c OBJECTIVE_CLUSTERS = true -> String.eqb c "PROBLEMS" = false.
Proof.
  intros H. destruct (String.eqb c "PROBLEMS") eqn:E; [| reflexivity].
  apply String.eqb_eq in E. subst c. discriminate H.
Qed.

Lemma keep_first_length (seen : list (string * string)) (l : list ParsedFact) :
  (List.length (keep_first seen l) <= List.length l)%nat.
Proof.
  revert seen. induction l as [| f r IH]; intros seen; simpl; [lia |].
  destruct (key_in _ seen); simpl.
  - specialize (IH seen). lia.
  - specialize (IH ((cluster f, keyword f) :: seen)). lia.
Qed.

(** The loop invariant, from an arbitrary state. *)
Lemma parse_fold_objective (self : ReadmissionRiskEngine) (lines : list string) :
  forall st,
    (forall c, str_in c OBJECTIVE_CLUSTERS = true ->
       facts_get (ps_facts (fold_left (parse_step self) lines st)) c
       = (facts_get (ps_facts st) c
          ++ filter (in_cluster c)
               (keep_first (seen_objective st) (objective_candidates self lines)))%list)
    /\ (n_dropped (fold_left (parse_step self) lines st)
        + List.length (keep_first (seen_objective st) (objective_candidates self lines))
        = n_dropped st + List.length (filter (is_rejected self) lines)
          + List.length (objective_candidates self lines))%nat.
Proof.
  induction lines as [| ln rest IH]; intros st.
  - simpl. split; [intros c _; now rewrite app_nil_r | lia].
  - cbn [fold_left]. rewrite parse_step_classify.
    unfold objective_candidates; cbn [flat_map filter];
      fold (objective_candidates self rest).
    unfold is_rejected at 1.
    destruct (classify self ln) as [| | fs | f] eqn:Ec.
    + cbn [app List.length]. apply IH.
    + destruct (IH (drop_line st)) as [Hf Hn]. simpl in Hf, Hn |- *.
      split; [exact Hf | lia].
    + destruct (fold_add_fact_problems fs (classify_expanded _ _ _ Ec) st)
        as (Hs & Hd & Hg).
      destruct (IH (fold_left add_fact fs st)) as [Hf Hn].
      rewrite Hs in Hf, Hn. rewrite Hd in Hn. simpl.
      split; [| exact Hn].
      intros c Hc. rewrite (Hf c Hc), (Hg c (objective_not_problems c Hc)).
      reflexivity.
    + destruct (str_in (cluster f) OBJECTIVE_CLUSTERS) eqn:Eo.
      * cbn [app keep_first].
        destruct (key_in (cluster f, keyword f) (seen_objective st)) eqn:Ek.
        -- destruct (IH (drop_line st)) as [Hf Hn]. simpl in Hf, Hn |- *.
           split; [exact Hf | lia].
        -- match goal with
           | |- context [fold_left _ rest ?s] => destruct (IH s) as [Hf Hn]
           end.
           simpl in Hf, Hn |- *. split; [| lia].
           intros c Hc. rewrite (Hf c Hc), facts_get_append.
           unfold in_cluster at 2.
           rewrite (String.eqb_sym (cluster f) c).
           destruct (String.eqb c (cluster f)); [| reflexivity].
           now rewrite <- app_assoc.
      * cbn [app].
        destruct (IH (add_fact st f)) as [Hf Hn]. simpl in Hf, Hn |- *.
        split; [| exact Hn].
        intros c Hc. rewrite (Hf c Hc), facts_get_append.
        destruct (String.eqb c (cluster f)) eqn:E; [| reflexivity].
        apply String.eqb_eq in E. subst c.
        change (str_in (cluster f) OBJECTIVE_CLUSTERS = true) in Hc. congruence.
Qed.

(** C10.  For every objective cluster, the facts stored by the parser are
    the first well-formed record per [(cluster, keyword)] in input order;
    every later well-formed record with the same pair is dropped and counted
    in [n_dropped], whatever its timestamp: [keep_first] never looks at the
    timestamp. *)
Theorem parse_toon_objective_first_wins
  (self : ReadmissionRiskEngine) (lines : list string) :
  (forall c, str_in c OBJECTIVE_CLUSTERS = true ->
     facts_get (ps_facts (parse_lines self lines)) c
     = filter (in_cluster c) (keep_first [] (objective_candidates self lines)))
  /\ (n_dropped (parse_lines self lines)
      = List.length (filter (is_rejected self) lines)
        + (List.length (objective_candidates self lines)
           - List.length (keep_first [] (objective_candidates self lines))))%nat.
Proof.
  destruct (parse_fold_objective self lines (mkPS [] 0 0 [])) as [Hf Hn].
  split.
  - intros c Hc. exact (Hf c Hc).
  - unfold parse_lines. simpl in Hn.
    pose proof (keep_first_length [] (objective_candidates self lines)). lia.
Qed.

Lemma parse_toon_objective_first_wins_witness :
  facts_get
    (ps_facts (parse_lines RiskExamples.demo_engine
                 ["VITALS|Heart Rate|88|Admission"; "VITALS|Heart Rate|72|Discharge"]))
    "VITALS"
  = filter (in_cluster "VITALS")
      (keep_first []
         (objective_candidates RiskExamples.demo_engine
            ["VITALS|Heart Rate|88|Admission"; "VITALS|Heart Rate|72|Discharge"])).
Proof.
  apply (proj1 (parse_toon_objective_first_wins RiskExamples.demo_engine
                  ["VITALS|Heart Rate|88|Admission"; "VITALS|Heart Rate|72|Discharge"])).
  reflexivity.
Defined.

(** The timestamp does not matter: the earlier Admission reading wins over
    the later Discharge reading, and a record whose number cannot be read
    is rejected without reserving its keyword. *)
Example parse_toon_first_wins_over_discharge :
  parse_toon RiskExamples.demo_engine
    "VITALS|Heart Rate|88|Admission
VITALS|Heart Rate|72|Discharge"
  = ([("VITALS", [mkFact "VITALS" "Heart Rate" (VNum 88) "Admission" true true])],
     1%nat, 1%nat).
Proof. vm_compute. reflexivity. Qed.

Example parse_toon_unreadable_number_is_not_first :
  parse_toon RiskExamples.demo_engine
    "VITALS|Heart Rate|n/a|Admission
VITALS|Heart Rate|72|Discharge"
  = ([("VITALS", [mkFact "VITALS" "Heart Rate" (VNum 72) "Discharge" true true])],
     1%nat, 1%nat).
Proof. vm_compute. reflexivity. Qed.

(** Consequently the parsed store has one fact per keyword in every
    objective cluster, which is what the pattern detector relies on. *)

Definition fact_key (f : ParsedFact) : string * string := (cluster f, keyword f).

Lemma key_in_In (k : string * string) (seen : list (string * string)) :
  key_in k seen = true <-> In k seen.
Proof.
  unfold key_in. rewrite existsb_exists. split.
  - intros [[a b] [Hin He]]. apply andb_true_iff in He as [Ha Hb].
    apply String.eqb_eq in Ha, Hb. simpl in Ha, Hb. destruct k as [k1 k2].
    simpl in Ha, Hb. now subst.
  - intros Hin. exists k. split; [assumption |].
    now rewrite !String.eqb_refl.
Qed.

Lemma keep_first_spec (l : list ParsedFact) :
  forall seen,
    (forall f, In f (keep_first seen l) -> ~ In (fact_key f) seen)
    /\ NoDup (map fact_key (keep_first seen l)).
Proof.
  induction l as [| f r IH]; intros seen; simpl.
  - split; [intros f [] | constructor].
  - destruct (key_in (cluster f, keyword f) seen) eqn:Ek; [apply IH |].
    destruct (IH ((cluster f, keyword f) :: seen)) as [Hout Hnd].
    split.
    + intros g [<- | Hg].
      * intros Hin. apply key_in_In in Hin. unfold fact_key in Hin. congruence.
      * intros Hin. apply (Hout g Hg). now right.
    + simpl. constructor; [| exact Hnd].
      intros Hin. apply in_map_iff in Hin as (g & Hk & Hg).
      apply (Hout g Hg). left. now rewrite Hk.
Qed.

Lemma nodup_keywords_in_cluster (c : string) (l : list ParsedFact) :
  NoDup (map fact_key l) -> NoDup (map keyword (filter (in_cluster c) l)).
Proof.
  induction l as [| f r IH]; simpl; intros Hnd; [constructor |].
  inversion Hnd as [| ? ? Hnotin Hnd']; subst.
  destruct (in_cluster c f) eqn:Ec; [| now apply IH].
  simpl. constructor; [| now apply IH].
  intros Hin. apply in_map_iff in Hin as (g & Hk & Hg).
  apply filter_In in Hg as [Hg Hgc].
  apply Hnotin. apply in_map_iff. exists g. split; [| assumption].
  unfold in_cluster in Ec, Hgc. apply String.eqb_eq in Ec, Hgc.
  unfold fact_key. congruence.
Qed.

Lemma parse_lines_one_per_keyword (self : ReadmissionRiskEngine)
  (lines : list string) (c : string) :
  str_in c OBJECTIVE_CLUSTERS = true ->
  one_per_keyword (ps_facts (parse_lines self lines)) c.
Proof.
  intros Hc. unfold one_per_keyword.
  destruct (parse_fold_objective self lines (mkPS [] 0 0 [])) as [Hf _].
  unfold parse_lines. rewrite (Hf c Hc). simpl.
  apply nodup_keywords_in_cluster, keep_first_spec.
Qed.

End RiskParser.

(* ===================================================================== *)
(** ** Probability in range, survival curve non-decreasing *)
(* ===================================================================== *)

Module CalibrationProofs.
Import Calibration.
Local Open Scope R_scope.

Lemma logistic_range (self : Params) (score : Z) :
  0 < _logistic self score < 1.
Proof.
  unfold _logistic. cbv zeta.
  set (e := exp (- (_alpha self + _beta self * IZR score))).
  assert (He : 0 < e) by apply exp_pos.
  split.
  - apply Rdiv_lt_0_compat; lra.
  - apply (Rmult_lt_reg_r (1 + e)); [lra |].
    unfold Rdiv. rewrite Rmult_assoc, Rinv_l by lra. lra.
Qed.

Lemma round_half_even_IZR (z : Z) : round_half_even (IZR z) = z.
Proof.
  unfold round_half_even. cbv zeta. rewrite ZfloorZ.
  destruct (Rlt_dec (IZR z - IZR z) (1 / 2)) as [_ | H]; [reflexivity | lra].
Qed.

Lemma round_half_even_mono (x y : R) :
  x <= y -> (round_half_even x <= round_half_even y)%Z.
Proof.
  intros Hxy.
  pose proof (Zfloor_le x y Hxy) as Hf.
  pose proof (Zfloor_bound x) as Hx.
  pose proof (Zfloor_bound y) as Hy.
  unfold round_half_even. cbv zeta.
  destruct (Z.eq_dec (Zfloor x) (Zfloor y)) as [E | NE].
  - rewrite E in *.
    destruct (Rlt_dec (x - IZR (Zfloor y)) (1 / 2)),
             (Rlt_dec (1 / 2) (x - IZR (Zfloor y))),
             (Rlt_dec (y - IZR (Zfloor y)) (1 / 2)),
             (Rlt_dec (1 / 2) (y - IZR (Zfloor y)));
      destruct (Z.even (Zfloor y)); try lia; exfalso; lra.
  - assert (Zfloor x + 1 <= Zfloor y)%Z by lia.
    destruct (Rlt_dec (x - IZR (Zfloor x)) (1 / 2)),
             (Rlt_dec (1 / 2) (x - IZR (Zfloor x))),
             (Rlt_dec (y - IZR (Zfloor y)) (1 / 2)),
             (Rlt_dec (1 / 2) (y - IZR (Zfloor y)));
      destruct (Z.even (Zfloor x)), (Z.even (Zfloor y)); lia.
Qed.

Lemma round4_mono (x y : R) : x <= y -> round4 x <= round4 y.
Proof.
  intros H. unfold round4.
  apply Rmult_le_compat_r; [lra |].
  apply IZR_le, round_half_even_mono. lra.
Qed.

Lemma round4_0 : round4 0 = 0.
Proof.
  unfold round4. replace (0 * 10000) with (IZR 0) by lra.
  rewrite round_half_even_IZR. lra.
Qed.

Lemma round4_1 : round4 1 = 1.
Proof.
  unfold round4. replace (1 * 10000) with (IZR 10000) by lra.
  rewrite round_half_even_IZR. lra.
Qed.

Lemma round4_unit (x : R) : 0 <= x <= 1 -> 0 <= round4 x <= 1.
Proof.
  intros [H0 H1]. split.
  - rewrite <- round4_0. now apply round4_mono.
  - rewrite <- round4_1. now apply round4_mono.
Qed.

Lemma clamp_unit (p : R) : 0 <= Rmin (Rmax p 0) 1 <= 1.
Proof.
  unfold Rmin, Rmax.
  destruct (Rle_dec p 0); destruct (Rle_dec _ 1); lra.
Qed.

Lemma clamp_mono (p q : R) :
  p <= q -> Rmin (Rmax p 0) 1 <= Rmin (Rmax q 0) 1.
Proof.
  intros H. unfold Rmin, Rmax.
  destruct (Rle_dec p 0); destruct (Rle_dec q 0);
    repeat match goal with
           | |- context [Rle_dec ?a ?b] => destruct (Rle_dec a b)
           end; lra.
Qed.

Lemma exp_le_mono (a b : R) : a <= b -> exp a <= exp b.
Proof.
  intros [H | ->]; [left; now apply exp_increasing | right; reflexivity].
Qed.

Lemma survival_k_floor (self : Params) (score : Z) :
  1 / 2 <= survival_k self score.
Proof. unfold survival_k. apply Rmax_l. Qed.

Lemma survival_denom_pos (k : R) : 1 / 2 <= k -> 0 < survival_denom k.
Proof.
  intros Hk. unfold survival_denom. cbv zeta.
  assert (exp (- k) < 1).
  { rewrite <- exp_0. apply exp_increasing. lra. }
  destruct (Rlt_dec _ _); lra.
Qed.

Lemma survival_at_mono (self : Params) (score : Z) (p_30d : R) (t1 t2 : Z) :
  0 <= p_30d -> (t1 <= t2)%Z ->
  survival_at self score p_30d t1 <= survival_at self score p_30d t2.
Proof.
  intros Hp Ht. unfold survival_at. cbv zeta.
  pose proof (survival_k_floor self score) as Hk.
  pose proof (survival_denom_pos _ Hk) as Hd.
  set (k := survival_k self score) in *.
  apply round4_mono, clamp_mono.
  apply Rmult_le_compat_l; [exact Hp |].
  apply Rmult_le_compat_r; [left; now apply Rinv_0_lt_compat |].
  assert (exp (- (IZR t2 / 30) * k) <= exp (- (IZR t1 / 30) * k)).
  { apply exp_le_mono. apply IZR_le in Ht. nra. }
  lra.
Qed.

Lemma survival_at_unit (self : Params) (score : Z) (p_30d : R) (t : Z) :
  0 <= survival_at self score p_30d t <= 1.
Proof. unfold survival_at. cbv zeta. apply round4_unit, clamp_unit. Qed.

(** C3.  For every composite score the reported probability lies in
    [[0, 1]]; the survival curve is reported at the horizons 7, 14, 21, 30,
    each value lies in [[0, 1]], and the values are non-decreasing in the
    horizon. *)
Theorem probability_and_survival_in_range (self : Params) (composite : Z) :
  0 <= probability self composite <= 1
  /\ map fst (survival_curve self composite) = [7; 14; 21; 30]%Z
  /\ Forall (fun v => 0 <= v <= 1) (map snd (survival_curve self composite))
  /\ nondecreasing (map snd (survival_curve self composite)).
Proof.
  pose proof (logistic_range self composite) as [Hl0 Hl1].
  split; [| split; [| split]].
  - unfold probability. apply round4_unit. lra.
  - reflexivity.
  - unfold survival_curve, _predict_survival. simpl.
    repeat (apply Forall_cons; [apply survival_at_unit |]). apply Forall_nil.
  - unfold survival_curve, _predict_survival. simpl.
    repeat split; apply survival_at_mono; try lra; lia.
Qed.

(** The curve is non-decreasing between any two horizons, not only the
    four that are reported. *)
Lemma survival_curve_monotone (self : Params) (composite : Z) (t1 t2 : Z) :
  (t1 <= t2)%Z ->
  survival_at self composite (_logistic self composite) t1
  <= survival_at self composite (_logistic self composite) t2.
Proof.
  intros H. apply survival_at_mono; [| exact H].
  pose proof (logistic_range self composite). lra.
Qed.

End CalibrationProofs.

(* ===================================================================== *)
(** ** Facts about the numeric patterns *)
(* ===================================================================== *)

Module NumFacts.
Import PyStr PyStrFacts Num.

Definition all_digits (d : string) : Prop := forall_char is_digit d = true.

(** A non-empty run of digits. *)
Definition digits1 (d : string) : Prop := d <> EmptyString /\ all_digits d.

(** The text of [\d+(\.\d+)?]. *)
Definition unsigned_shape (m : string) : Prop :=
  exists d, digits1 d /\ (m = d \/ exists d2, digits1 d2 /\ m = d ++ "." ++ d2).

(** The text of [-?\d+(\.\d+)?]. *)
Definition number_shape (m : string) : Prop :=
  unsigned_shape m \/ exists u, unsigned_shape u /\ m = String "-" u.

(** The next character, if any, is not a digit. *)
Definition no_digit_ahead (rest : string) : Prop :=
  match rest with
  | EmptyString => True
  | String c _ => is_digit c = false
  end.

(** The next character, if any, is neither a digit nor the decimal point. *)
Definition terminator (rest : string) : Prop :=
  match rest with
  | EmptyString => True
  | String c _ => is_digit c = false /\ c <> "."%char
  end.

Lemma is_empty_true (s : string) : is_empty s = true <-> s = EmptyString.
Proof. destruct s; simpl; split; intros H; congruence. Qed.

Lemma is_empty_false (s : string) : is_empty s = false <-> s <> EmptyString.
Proof. destruct s; simpl; split; intros H; congruence. Qed.

Lemma scan_digits_split (s : string) :
  forall d rest, scan_digits s = (d, rest) ->
    s = d ++ rest /\ all_digits d /\ no_digit_ahead rest.
Proof.
  induction s as [| c r IH]; simpl; intros d rest H.
  - inversion H. repeat split.
  - destruct (is_digit c) eqn:Ec.
    + destruct (scan_digits r) as [d' rest'] eqn:Er.
      inversion H; subst. destruct (IH d' rest eq_refl) as (Hs & Hd & Hn).
      repeat split; [simpl; now f_equal | | assumption].
      unfold all_digits. simpl. now rewrite Ec.
    + inversion H; subst. repeat split. simpl. exact Ec.
Qed.

Lemma scan_digits_run (d rest : string) :
  all_digits d -> no_digit_ahead rest -> scan_digits (d ++ rest) = (d, rest).
Proof.
  unfold all_digits. induction d as [| c r IH]; simpl; intros Hd Hr.
  - destruct rest as [| c r]; [reflexivity |]. simpl in *. now rewrite Hr.
  - apply andb_true_iff in Hd as [Hc Hd]. now rewrite Hc, (IH Hd Hr).
Qed.

Lemma match_unsigned_split (s m rest : string) :
  match_unsigned s = Some (m, rest) -> s = m ++ rest /\ unsigned_shape m.
Proof.
  unfold match_unsigned.
  destruct (scan_digits s) as [d r1] eqn:E1.
  destruct (scan_digits_split _ _ _ E1) as (Hs & Hd & _).
  destruct (is_empty d) eqn:Ed; [discriminate |].
  apply is_empty_false in Ed.
  assert (Hplain : Some (d, r1) = Some (m, rest) ->
                   s = m ++ rest /\ unsigned_shape m).
  { intros H. inversion H; subst. split; [reflexivity |].
    exists m. split; [split; assumption | now left]. }
  destruct r1 as [| c r2]; [exact Hplain |].
  destruct (Ascii.eqb c ".") eqn:Ec.
  - apply Ascii.eqb_eq in Ec. subst c.
    destruct (scan_digits r2) as [d2 r3] eqn:E2.
    destruct (scan_digits_split _ _ _ E2) as (Hs2 & Hd2 & _).
    destruct (is_empty d2) eqn:Ed2; [exact Hplain |].
    apply is_empty_false in Ed2.
    intros H. inversion H; subst. split.
    + now rewrite !append_assoc.
    + exists d. split; [split; assumption |]. right.
      exists d2. split; [split; assumption | reflexivity].
  - assert (Hc : (if Ascii.eqb c "." then true else false) = false) by now rewrite Ec.
    destruct c as [[] [] [] [] [] [] [] []]; try exact Hplain; discriminate Ec.
Qed.

Lemma match_unsigned_shape (m rest : string) :
  unsigned_shape m -> terminator rest ->
  match_unsigned (m ++ rest) = Some (m, rest).
Proof.
  intros (d & [Hne Hd] & Hm) Ht. unfold match_unsigned.
  destruct Hm as [-> | (d2 & [Hne2 Hd2] & ->)].
  - rewrite (scan_digits_run d rest Hd).
    + apply is_empty_false in Hne. rewrite Hne.
      destruct rest as [| c r]; [reflexivity |].
      destruct Ht as [_ Hdot].
      destruct c as [[] [] [] [] [] [] [] []]; try reflexivity.
      now contradiction Hdot.
    + destruct rest as [| c r]; [exact I | apply Ht].
  - replace ((d ++ "." ++ d2) ++ rest) with (d ++ String "." (d2 ++ rest))
      by (now rewrite !append_assoc).
    rewrite (scan_digits_run d (String "." (d2 ++ rest)) Hd) by reflexivity.
    apply is_empty_false in Hne. rewrite Hne.
    rewrite (scan_digits_run d2 rest Hd2).
    + apply is_empty_false in Hne2. now rewrite Hne2.
    + destruct rest as [| c r]; [exact I | apply Ht].
Qed.

Lemma unsigned_shape_first (m : string) :
  unsigned_shape m -> exists c r, m = String c r /\ is_digit c = true.
Proof.
  intros (d & [Hne Hd] & Hm).
  destruct d as [| c r]; [contradiction |].
  unfold all_digits in Hd. simpl in Hd. apply andb_true_iff in Hd as [Hc _].
  destruct Hm as [-> | (d2 & _ & ->)].
  - exists c, r. now split.
  - exists c, (r ++ "." ++ d2). now split.
Qed.

Lemma match_number_split (s m rest : string) :
  match_number s = Some (m, rest) -> s = m ++ rest /\ number_shape m.
Proof.
  unfold match_number.
  assert (Hu : match_unsigned s = Some (m, rest) ->
               s = m ++ rest /\ number_shape m).
  { intros H. apply match_unsigned_split in H as [Hs Hm].
    split; [assumption | now left]. }
  destruct s as [| c r]; [exact Hu |].
  destruct (Ascii.eqb c "-") eqn:Ec.
  - apply Ascii.eqb_eq in Ec. subst c.
    destruct (match_unsigned r) as [[m' rest'] |] eqn:E; [| discriminate].
    intros H. inversion H; subst.
    apply match_unsigned_split in E as [Hs Hm]. split.
    + simpl. now f_equal.
    + right. exists m'. split; [assumption | reflexivity].
  - destruct c as [[] [] [] [] [] [] [] []]; try exact Hu; discriminate Ec.
Qed.

Lemma match_number_shape (m : string) :
  number_shape m -> match_number m = Some (m, EmptyString).
Proof.
  intros [Hu | (u & Hu & ->)].
  - destruct (unsigned_shape_first m Hu) as (c & r & Hm & Hc).
    pose proof (match_unsigned_shape m "" Hu I) as H.
    rewrite append_empty_r in H.
    unfold match_number. rewrite Hm in *.
    destruct c as [[] [] [] [] [] [] [] []]; try exact H; discriminate Hc.
  - pose proof (match_unsigned_shape u "" Hu I) as H.
    rewrite append_empty_r in H. simpl. now rewrite H.
Qed.

Lemma number_shape_plain (m : string) :
  number_shape m -> is_plain_number m = true.
Proof.
  intros H. unfold is_plain_number. now rewrite (match_number_shape m H).
Qed.

Lemma first_number_shape (s m : string) :
  _first_number s = Some m -> number_shape m.
Proof.
  induction s as [| c r IH]; cbn [_first_number].
  - discriminate.
  - destruct (match_number (String c r)) as [[m' rest] |] eqn:E.
    + intros H. inversion H; subst. now apply match_number_split in E.
    + exact IH.
Qed.

(** A text accepted by [_NUM_RE.match] that does not end in a line feed
    is exactly a plain number. *)
Lemma num_re_match_stripped (p : ascii -> bool) (s : string) :
  p "010"%char = true ->
  num_re_match (rstrip_by p s) = true -> is_plain_number (rstrip_by p s) = true.
Proof.
  intros Hp. unfold num_re_match, is_plain_number.
  destruct (match_number (rstrip_by p s)) as [[m rest] |] eqn:E; [| discriminate].
  intros H. apply orb_true_iff in H as [H | H]; apply String.eqb_eq in H; subst rest.
  - reflexivity.
  - exfalso. apply match_number_split in E as [Hs _].
    apply rstrip_by_last in Hs. congruence.
Qed.

Lemma number_shape_nopipe (m : string) : number_shape m -> nopipe m.
Proof.
  assert (Hd : forall d, all_digits d -> nopipe d).
  { unfold all_digits, nopipe. induction d as [| c r IH]; simpl; [reflexivity |].
    intros H. apply andb_true_iff in H as [Hc Hr]. rewrite (IH Hr), orb_false_r.
    destruct c as [[] [] [] [] [] [] [] []]; try reflexivity; discriminate Hc. }
  assert (Hu : forall u, unsigned_shape u -> nopipe u).
  { intros u (d & [_ Hdd] & [-> | (d2 & [_ Hd2] & ->)]); [now apply Hd |].
    unfold nopipe. rewrite !mem_char_app.
    rewrite (Hd d Hdd), (Hd d2 Hd2). reflexivity. }
  intros [H | (u & H & ->)]; [now apply Hu |].
  unfold nopipe. simpl. now apply Hu.
Qed.

End NumFacts.

(* ===================================================================== *)
(** ** Stage-2 sanitation: records, de-duplication, numeric purity *)
(* ===================================================================== *)

Module Stage2Proofs.
Import PyStr PyStrFacts Num NumFacts Stage2.

(** *** Per-line hygiene *)

Definition wf_rec (r : Rec4) : Prop :=
  nopipe (r_cluster r) /\ nopipe (r_keyword r) /\ nopipe (r_value r)
  /\ nopipe (r_ts r)
  /\ (str_in (r_cluster r) numeric_clusters = true ->
      is_plain_number (r_value r) = true).

Lemma kw_to_cluster_in_nopipe (tbl : list (string * string)) (kw : string) :
  Forall (fun kc => nopipe (snd kc)) tbl -> nopipe (kw_to_cluster_in tbl kw).
Proof.
  induction 1 as [| [k c] r Hc Hr IH]; simpl; [reflexivity |].
  destruct (String.eqb kw k); [exact Hc | exact IH].
Qed.

Lemma kw_to_cluster_nopipe (kw : string) : nopipe (kw_to_cluster kw).
Proof.
  apply kw_to_cluster_in_nopipe. unfold _KW_TO_CLUSTER. simpl.
  repeat constructor.
Qed.

Lemma clean_cluster_nopipe (x : string) : nopipe x -> nopipe (clean_cluster x).
Proof.
  intros H. unfold clean_cluster.
  now apply nopipe_upper, nopipe_strip, nopipe_strip_chars, nopipe_strip.
Qed.

Lemma default_ts_nopipe (c : string) : nopipe (default_ts c).
Proof.
  unfold default_ts.
  destruct (String.eqb c "DISPOSITION"); [reflexivity |].
  destruct (String.eqb c "UTILIZATION"); reflexivity.
Qed.

Lemma recover_parts_nopipe (flags : Flags) (parts : list string) :
  Forall nopipe parts -> Forall nopipe (recover_parts flags parts).
Proof.
  intros H. unfold recover_parts.
  destruct parts as [| a [| b [| c [| d t]]]]; try exact H.
  destruct (recover_3part flags); [| exact H].
  inversion H as [| ? ? Ha H1]; subst.
  inversion H1 as [| ? ? Hb H2]; subst.
  inversion H2 as [| ? ? Hc _]; subst.
  cbv zeta.
  destruct (_ && _ && _).
  - repeat constructor; auto using clean_cluster_nopipe, default_ts_nopipe.
  - destruct (_ && _ && _ && _); [| exact H].
    repeat constructor; auto using kw_to_cluster_nopipe.
Qed.

Lemma strip_is_rstrip (s : string) : strip s = rstrip_by is_space (lstrip_by is_space s).
Proof. reflexivity. Qed.

Lemma clean_line_wf (flags : Flags) (ln : string) (r : Rec4) :
  clean_line flags ln = Some r -> wf_rec r.
Proof.
  unfold clean_line.
  pose proof (recover_parts_nopipe flags _ (nopipe_split_strip ln)) as Hp.
  destruct (recover_parts flags (map strip (split_on "|" ln)))
    as [| c [| k [| v0 [| t [| x rest]]]]]; try discriminate.
  inversion Hp as [| ? ? Hc H1]; subst.
  inversion H1 as [| ? ? Hk H2]; subst.
  inversion H2 as [| ? ? Hv H3]; subst.
  inversion H3 as [| ? ? Ht _]; subst.
  destruct (_ || _ || _ || _); [discriminate |].
  cbv zeta.
  set (value := if startswith (strip v0) "$"
                then strip (lstrip_chars "$" (strip v0)) else strip v0).
  assert (Hvalue : nopipe value).
  { unfold value. destruct (startswith (strip v0) "$").
    - now apply nopipe_strip, nopipe_lstrip_chars, nopipe_strip.
    - now apply nopipe_strip. }
  assert (Hnum : num_re_match value = true -> is_plain_number value = true).
  { unfold value. destruct (startswith (strip v0) "$");
      rewrite strip_is_rstrip; now apply num_re_match_stripped. }
  destruct (String.eqb (casefold value) "not stated"); [discriminate |].
  set (ts := if String.eqb (casefold (strip t)) "adm" then "Admission"
             else if String.eqb (casefold (strip t)) "dc" then "Discharge"
             else strip t).
  assert (Hts : nopipe ts).
  { unfold ts. destruct (String.eqb (casefold (strip t)) "adm"); [reflexivity |].
    destruct (String.eqb (casefold (strip t)) "dc"); [reflexivity |].
    now apply nopipe_strip. }
  set (cu' := if reclassify_non_numeric flags
                 && str_in (clean_cluster c) semantic_clusters
              then
                if negb (is_empty (kw_to_cluster k))
                   && negb (str_in (kw_to_cluster k) numeric_clusters)
                   && str_in (kw_to_cluster k) objective_clusters
                then kw_to_cluster k else clean_cluster c
              else clean_cluster c).
  destruct (str_in (clean_cluster c) numeric_clusters && negb (num_re_match value))
    eqn:Echeck; [discriminate |].
  intros H. injection H as H. subst r. unfold wf_rec.
  cbn [r_cluster r_keyword r_value r_ts].
  pose proof (clean_cluster_nopipe c Hc) as Hcu.
  assert (Hplain : str_in (clean_cluster c) numeric_clusters = true ->
                   is_plain_number value = true).
  { intros Hn. rewrite Hn in Echeck. cbn [andb] in Echeck.
    apply negb_false_iff in Echeck. auto. }
  assert (Hcases : (cu' = kw_to_cluster k
                    /\ str_in (kw_to_cluster k) numeric_clusters = false)
                   \/ cu' = clean_cluster c).
  { unfold cu'.
    destruct (reclassify_non_numeric flags
              && str_in (clean_cluster c) semantic_clusters); [| now right].
    destruct (negb (is_empty (kw_to_cluster k))
              && negb (str_in (kw_to_cluster k) numeric_clusters)
              && str_in (kw_to_cluster k) objective_clusters) eqn:Er; [| now right].
    left. split; [reflexivity |].
    apply andb_true_iff in Er as [Er _].
    apply andb_true_iff in Er as [_ Er]. now apply negb_true_iff in Er. }
  clearbody cu'.
  destruct Hcases as [[-> Hnn] | ->].
  - split; [apply kw_to_cluster_nopipe |].
    split; [assumption |]. split; [assumption |]. split; [assumption |].
    intros Hn. congruence.
  - auto.
Qed.

(** *** Fields of a formatted record *)

Lemma fields_fmt4 (c k v t : string) :
  nopipe c -> nopipe k -> nopipe v ->
  split_on "|" (fmt4 c k v t) = c :: k :: v :: split_on "|" t.
Proof.
  intros Hc Hk Hv. unfold fmt4.
  now rewrite !split_on_pipe_app.
Qed.

Lemma field0_fmt4 (c k v t : string) : nopipe c -> field 0 (fmt4 c k v t) = c.
Proof.
  intros Hc. unfold field, fmt4. now rewrite split_on_pipe_app.
Qed.

Lemma field1_fmt4 (c k v t : string) :
  nopipe c -> nopipe k -> field 1 (fmt4 c k v t) = k.
Proof.
  intros Hc Hk. unfold field, fmt4.
  rewrite (split_on_pipe_app c), (split_on_pipe_app k) by assumption.
  reflexivity.
Qed.

Lemma field2_fmt4 (c k v t : string) :
  nopipe c -> nopipe k -> nopipe v -> field 2 (fmt4 c k v t) = v.
Proof.
  intros Hc Hk Hv. unfold field. now rewrite fields_fmt4.
Qed.

(** *** The dictionary [best_objective] *)

Definition key_of (r : Rec4) : string * string := (r_cluster r, r_keyword r).
Definition keys (b : Best) : list (string * string) :=
  map (fun e => key_of (fst e)) b.

Lemma same_key_iff (a b : Rec4) : same_key a b = true <-> key_of a = key_of b.
Proof.
  unfold same_key, key_of. rewrite andb_true_iff, !String.eqb_eq.
  split; [intros [-> ->]; reflexivity | intros H; now inversion H].
Qed.

Lemma same_key_refl (a : Rec4) : same_key a a = true.
Proof. now apply same_key_iff. Qed.

Lemma same_key_false (a b : Rec4) : same_key a b = false <-> key_of a <> key_of b.
Proof.
  rewrite <- same_key_iff. destruct (same_key a b); split; congruence.
Qed.

Definition best_of (recs : list Rec4) : Best :=
  fold_left (fun b r => best_update r (rec_rank r) b) recs [].

Lemma keys_update (r : Rec4) (k : nat) (b : Best) :
  keys (best_update r k b) = keys b
  \/ (keys (best_update r k b) = (keys b ++ [key_of r])%list
      /\ ~ In (key_of r) (keys b)).
Proof.
  induction b as [| [p prank] rest IH]; simpl.
  - right. split; [reflexivity | intros []].
  - destruct (same_key r p) eqn:E.
    + left. apply same_key_iff in E.
      destruct (prank <? k)%nat; simpl; [now rewrite E | reflexivity].
    + apply same_key_false in E. simpl.
      destruct IH as [-> | [-> Hn]]; [now left |].
      right. split; [reflexivity |]. intros [H | H]; [congruence | contradiction].
Qed.

Lemma keys_update_NoDup (r : Rec4) (k : nat) (b : Best) :
  NoDup (keys b) -> NoDup (keys (best_update r k b)).
Proof.
  intros H. destruct (keys_update r k b) as [-> | [-> Hn]]; [assumption |].
  apply NoDup_app; [assumption | repeat constructor; intros [] |].
  intros x Hx [<- | []]. contradiction.
Qed.

Lemma keys_update_incl (r : Rec4) (k : nat) (b : Best) :
  In (key_of r) (keys (best_update r k b))
  /\ forall x, In x (keys b) -> In x (keys (best_update r k b)).
Proof.
  induction b as [| [p prank] rest [IH1 IH2]]; simpl.
  - split; [now left | intros x []].
  - destruct (same_key r p) eqn:E.
    + apply same_key_iff in E.
      destruct (prank <? k)%nat; simpl.
      * split; [now left | intros x [<- | Hx]; [left; congruence | now right]].
      * split; [left; congruence | auto].
    + simpl. split; [now right |].
      intros x [<- | Hx]; [now left | right; auto].
Qed.

Lemma best_update_cases (r : Rec4) (k : nat) (b : Best) (e : Rec4 * nat) :
  NoDup (keys b) -> In e (best_update r k b) ->
  (e = (r, k)
   /\ forall q, In q b -> same_key r (fst q) = true -> snd q < k)
  \/ (In e b /\ (same_key r (fst e) = true -> k <= snd e)).
Proof.
  induction b as [| [p prank] rest IH]; simpl; intros Hnd Hin.
  - destruct Hin as [<- | []]. left. split; [reflexivity | intros q []].
  - inversion Hnd as [| ? ? Hnotin Hnd']; subst.
    destruct (same_key r p) eqn:E.
    + assert (Hrest : forall q, In q rest -> same_key r (fst q) = true -> False).
      { intros q Hq Hs. apply Hnotin. apply same_key_iff in E, Hs.
        apply in_map_iff. exists q. split; [congruence | assumption]. }
      destruct (prank <? k)%nat eqn:Elt.
      * apply Nat.ltb_lt in Elt. destruct Hin as [<- | Hin].
        -- left. split; [reflexivity |].
           intros q [<- | Hq] Hs; [exact Elt | exfalso; eauto].
        -- right. split; [now right |]. intros Hs. exfalso; eauto.
      * apply Nat.ltb_ge in Elt. destruct Hin as [<- | Hin].
        -- right. split; [now left | intros _; exact Elt].
        -- right. split; [now right |]. intros Hs. exfalso; eauto.
    + destruct Hin as [<- | Hin].
      * right. split; [now left |]. simpl. congruence.
      * destruct (IH Hnd' Hin) as [[-> Hq] | [Hin' Hk]].
        -- left. split; [reflexivity |].
           intros q [<- | Hq'] Hs; [simpl in Hs; congruence | auto].
        -- right. split; [now right | assumption].
Qed.

Lemma first_of_highest_rank_snoc_other (recs : list Rec4) (r p : Rec4) :
  first_of_highest_rank recs p ->
  (same_key r p = true -> rec_rank r <= rec_rank p) ->
  first_of_highest_rank (recs ++ [r]) p.
Proof.
  intros (l1 & l2 & -> & H1 & H2) Hr.
  exists l1, (l2 ++ [r])%list. split; [now rewrite <- app_assoc |].
  split; [exact H1 |].
  intros r' Hin Hs. apply in_app_or in Hin as [Hin | [<- | []]]; auto.
Qed.

Lemma first_of_highest_rank_bound (recs : list Rec4) (p r' : Rec4) :
  first_of_highest_rank recs p -> In r' recs -> same_key r' p = true ->
  rec_rank r' <= rec_rank p.
Proof.
  intros (l1 & l2 & -> & H1 & H2) Hin Hs.
  apply in_app_or in Hin as [Hin | [<- | Hin]].
  - specialize (H1 r' Hin Hs). lia.
  - lia.
  - auto.
Qed.

Lemma same_key_trans (a b c : Rec4) :
  same_key a b = true -> same_key b c = true -> same_key a c = true.
Proof. rewrite !same_key_iff. congruence. Qed.

Lemma same_key_sym (a b : Rec4) : same_key a b = same_key b a.
Proof.
  destruct (same_key a b) eqn:E, (same_key b a) eqn:E'; try reflexivity.
  - apply same_key_iff in E. apply same_key_false in E'. congruence.
  - apply same_key_iff in E'. apply same_key_false in E. congruence.
Qed.

(** The dictionary holds, for every key of the input, the first record of
    highest rank. *)
Lemma best_of_spec (recs : list Rec4) :
  NoDup (keys (best_of recs))
  /\ (forall e, In e (best_of recs) ->
        snd e = rec_rank (fst e) /\ first_of_highest_rank recs (fst e))
  /\ (forall r, In r recs -> In (key_of r) (keys (best_of recs))).
Proof.
  induction recs as [| r recs IH] using rev_ind.
  - simpl. split; [constructor |]. split; [intros e [] | intros r []].
  - destruct IH as (Hnd & Hbest & Hall).
    unfold best_of in *. rewrite fold_left_app. simpl.
    set (B := fold_left (fun b r0 => best_update r0 (rec_rank r0) b) recs []) in *.
    split; [now apply keys_update_NoDup |]. split.
    + intros e Hin.
      destruct (best_update_cases _ _ _ _ Hnd Hin) as [[-> Hq] | [Hin' Hk]].
      * split; [reflexivity |]. simpl.
        exists recs, []. split; [reflexivity |]. split; [| intros r' []].
        intros r' Hr' Hs.
        pose proof (Hall r' Hr') as Hkey. unfold keys in Hkey.
        apply in_map_iff in Hkey as (q & Hqk & Hq').
        destruct (Hbest q Hq') as [Hrank Hfirst].
        assert (Hs' : same_key r' (fst q) = true) by (apply same_key_iff; congruence).
        assert (Hrq : same_key r (fst q) = true).
        { rewrite same_key_sym in Hs. eapply same_key_trans; eassumption. }
        pose proof (Hq q Hq' Hrq) as Hlt.
        pose proof (first_of_highest_rank_bound _ _ _ Hfirst Hr' Hs'). lia.
      * destruct (Hbest e Hin') as [Hrank Hfirst].
        split; [assumption |].
        apply first_of_highest_rank_snoc_other; [assumption |].
        intros Hs. specialize (Hk Hs). lia.
    + intros r' Hin. apply in_app_or in Hin as [Hin | [<- | []]].
      * apply (proj2 (keys_update_incl r (rec_rank r) B)). now apply Hall.
      * apply (proj1 (keys_update_incl r (rec_rank r) B)).
Qed.

(** *** The main loop *)

Definition non_objective_line (ln : string) : Prop :=
  str_in (field 0 ln) objective_clusters = false.

Lemma fmt4_non_objective (c k v t : string) :
  nopipe c -> str_in c objective_clusters = false ->
  non_objective_line (fmt4 c k v t).
Proof. intros Hc Ho. unfold non_objective_line. now rewrite field0_fmt4. Qed.

Lemma map_fmt4_non_objective (c v t : string) (items : list string) :
  nopipe c -> str_in c objective_clusters = false ->
  Forall non_objective_line (map (fun it => fmt4 c it v t) items).
Proof.
  intros Hc Ho. apply Forall_map, Forall_forall. intros it _.
  now apply fmt4_non_objective.
Qed.

Lemma expand_non_objective (cu k v ts : string) :
  nopipe cu -> str_in cu objective_clusters = false ->
  Forall non_objective_line (_expand_semantic_line cu k v ts).
Proof.
  intros Hc Ho. unfold _expand_semantic_line.
  destruct (negb (str_in cu ["PROBLEMS"; "SYMPTOMS"])).
  { constructor; [now apply fmt4_non_objective | constructor]. }
  cbv zeta.
  destruct (String.eqb cu "PROBLEMS").
  - destruct (_ && _); [now apply map_fmt4_non_objective |].
    destruct (_ && _); [now apply map_fmt4_non_objective |].
    destruct (_normalize_problem_value v ts); [| constructor].
    constructor; [now apply fmt4_non_objective | constructor].
  - destruct (_ && _); [now apply map_fmt4_non_objective |].
    destruct (_ && _); [now apply map_fmt4_non_objective |].
    destruct (_normalize_symptom_value v); [| constructor].
    constructor; [now apply fmt4_non_objective | constructor].
Qed.

Definition upd (b : Best) (r : Rec4) : Best := best_update r (rec_rank r) b.

Lemma sanitize_fold (flags : Flags) (scope : Scope) (lines : list string) :
  forall b o,
    fst (fold_left (sanitize_step flags scope) lines (b, o))
    = fold_left upd (objective_records flags lines) b
    /\ (Forall non_objective_line o ->
        Forall non_objective_line
          (snd (fold_left (sanitize_step flags scope) lines (b, o)))).
Proof.
  induction lines as [| ln rest IH]; intros b o; cbn [fold_left].
  - split; [reflexivity | auto].
  - unfold objective_records. cbn [flat_map]. fold (objective_records flags rest).
    unfold sanitize_step at 2 4.
    destruct (clean_line flags ln) as [r |] eqn:Ec; [| apply IH].
    destruct (clean_line_wf _ _ _ Ec) as (Hc & _).
    destruct (str_in (r_cluster r) objective_clusters) eqn:Eo.
    + cbn [app fold_left]. apply IH.
    + cbn [app].
      assert (Hline : non_objective_line
                        (fmt4 (r_cluster r) (r_keyword r) (r_value r) (r_ts r)))
        by now apply fmt4_non_objective.
      destruct (str_in (r_cluster r) semantic_clusters); destruct scope;
        try apply IH.
      * destruct (expand_semantic_lines flags).
        -- destruct (IH b (o ++ _expand_semantic_line (r_cluster r) (r_keyword r)
                                  (r_value r) (r_ts r))%list) as [H1 H2].
           split; [exact H1 |]. intros Ho. apply H2.
           apply Forall_app. split; [assumption |].
           now apply expand_non_objective.
        -- destruct (IH b (o ++ [fmt4 (r_cluster r) (r_keyword r) (r_value r)
                                   (r_ts r)])%list) as [H1 H2].
           split; [exact H1 |]. intros Ho. apply H2.
           apply Forall_app. split; [assumption | now constructor].
      * destruct (IH b (o ++ [fmt4 (r_cluster r) (r_keyword r) (r_value r)
                                 (r_ts r)])%list) as [H1 H2].
        split; [exact H1 |]. intros Ho. apply H2.
        apply Forall_app. split; [assumption | now constructor].
Qed.

Lemma objective_records_wf (flags : Flags) (lines : list string) (r : Rec4) :
  In r (objective_records flags lines) ->
  wf_rec r /\ str_in (r_cluster r) objective_clusters = true.
Proof.
  unfold objective_records. rewrite in_flat_map. intros (ln & _ & Hin).
  destruct (clean_line flags ln) as [r' |] eqn:Ec; [| contradiction].
  destruct (str_in (r_cluster r') objective_clusters) eqn:Eo; [| contradiction].
  destruct Hin as [<- | []]. split; [now apply (clean_line_wf flags ln) | assumption].
Qed.

Lemma first_of_highest_rank_In (recs : list Rec4) (r : Rec4) :
  first_of_highest_rank recs r -> In r recs.
Proof. intros (l1 & l2 & -> & _). apply in_elt. Qed.

(** *** Exact-string de-duplication and sorting *)

Lemma append_unseen_fold (others : list string) :
  forall out seen,
    (forall x, In x seen <-> In x out) -> NoDup out ->
    exists extra,
      fst (fold_left append_unseen others (out, seen)) = (out ++ extra)%list
      /\ incl extra others
      /\ NoDup (out ++ extra).
Proof.
  induction others as [| ln rest IH]; intros out seen Hs Hnd; cbn [fold_left].
  - exists []. rewrite app_nil_r. repeat split; [apply incl_nil_l | assumption].
  - unfold append_unseen at 2.
    destruct (str_in ln seen) eqn:E.
    + destruct (IH out seen Hs Hnd) as (extra & H1 & H2 & H3).
      exists extra. repeat split; [assumption | now apply incl_tl | assumption].
    + assert (Hn : ~ In ln out).
      { intros Hin. apply Hs in Hin. apply str_in_In in Hin. congruence. }
      destruct (IH (out ++ [ln])%list (ln :: seen)) as (extra & H1 & H2 & H3).
      * intros x. rewrite in_app_iff. simpl. rewrite Hs. tauto.
      * apply NoDup_app; [assumption | repeat constructor; intros [] |].
        intros x Hx [<- | []]. contradiction.
      * exists (ln :: extra). rewrite <- app_assoc in H1, H3.
        repeat split; [assumption | | assumption].
        intros x [<- | Hx]; [now left | right; auto].
Qed.

Lemma insert_sorted_perm (x : string) (l : list string) :
  Permutation (insert_sorted x l) (x :: l).
Proof.
  induction l as [| y r IH]; simpl; [reflexivity |].
  destruct (key_leb x y); [reflexivity |].
  rewrite IH. apply perm_swap.
Qed.

Lemma sort_lines_perm (l : list string) : Permutation (sort_lines l) l.
Proof.
  induction l as [| x r IH]; simpl; [reflexivity |].
  rewrite insert_sorted_perm. now constructor.
Qed.

Lemma filter_length_perm {A : Type} (p : A -> bool) (l l' : list A) :
  Permutation l l' -> List.length (filter p l) = List.length (filter p l').
Proof.
  induction 1 as [| x l l' _ IH | x y l | l l' l'' _ IH1 _ IH2]; simpl.
  - reflexivity.
  - destruct (p x); simpl; now rewrite IH.
  - destruct (p x), (p y); reflexivity.
  - now rewrite IH1.
Qed.

Lemma best_entry_wf (flags : Flags) (lines : list string) (e : Rec4 * nat) :
  In e (best_of (objective_records flags lines)) ->
  wf_rec (fst e) /\ str_in (r_cluster (fst e)) objective_clusters = true
  /\ first_of_highest_rank (objective_records flags lines) (fst e).
Proof.
  intros Hin.
  destruct (best_of_spec (objective_records flags lines)) as (_ & Hbest & _).
  destruct (Hbest e Hin) as [_ Hfirst].
  destruct (objective_records_wf flags lines (fst e)
              (first_of_highest_rank_In _ _ Hfirst)) as [Hwf Ho].
  auto.
Qed.

Lemma fmt_best_fields (flags : Flags) (scope : Scope) (e : Rec4 * nat) :
  wf_rec (fst e) ->
  field 0 (fmt_best flags scope e) = r_cluster (fst e)
  /\ field 1 (fmt_best flags scope e) = r_keyword (fst e)
  /\ field 2 (fmt_best flags scope e) = r_value (fst e).
Proof.
  intros (Hc & Hk & Hv & _). unfold fmt_best. cbv zeta.
  rewrite field0_fmt4, field1_fmt4, field2_fmt4 by assumption. auto.
Qed.

Lemma NoDup_map_by_key {A B K : Type} (f : A -> B) (key : A -> K) (l : list A) :
  (forall a b, In a l -> In b l -> f a = f b -> key a = key b) ->
  NoDup (map key l) -> NoDup (map f l).
Proof.
  induction l as [| x r IH]; simpl; intros Hinj Hnd; [constructor |].
  inversion Hnd as [| ? ? Hnotin Hnd']; subst.
  constructor.
  - intros Hin. apply in_map_iff in Hin as (y & Hy & Hyin).
    apply Hnotin. apply in_map_iff. exists y. split; [| assumption].
    apply Hinj; auto.
  - apply IH; [| assumption]. intros a b Ha Hb. apply Hinj; now right.
Qed.

Lemma out_objective_NoDup (flags : Flags) (scope : Scope) (lines : list string) :
  NoDup (map (fmt_best flags scope) (best_of (objective_records flags lines))).
Proof.
  apply (NoDup_map_by_key _ (fun e => key_of (fst e))).
  - intros a b Ha Hb Heq.
    destruct (best_entry_wf _ _ _ Ha) as (Hwa & _).
    destruct (best_entry_wf _ _ _ Hb) as (Hwb & _).
    destruct (fmt_best_fields flags scope a Hwa) as (Ha0 & Ha1 & _).
    destruct (fmt_best_fields flags scope b Hwb) as (Hb0 & Hb1 & _).
    unfold key_of. rewrite <- Ha0, <- Ha1, <- Hb0, <- Hb1, Heq. reflexivity.
  - apply best_of_spec.
Qed.

(** The shape of the output: the formatted dictionary followed by the other
    lines that were not yet present, then sorted. *)
Lemma sanitize_shape (flags : Flags) (scope : Scope) (lines : list string) :
  exists extra,
    Permutation (sanitize flags scope lines)
      (map (fmt_best flags scope) (best_of (objective_records flags lines)) ++ extra)
    /\ Forall non_objective_line extra
    /\ NoDup (sanitize flags scope lines).
Proof.
  unfold sanitize.
  destruct (fold_left (sanitize_step flags scope) lines ([], []))
    as [best others] eqn:Ef.
  assert (Hb : fst (best, others) = best_of (objective_records flags lines)).
  { rewrite <- Ef. apply (proj1 (sanitize_fold flags scope lines [] [])). }
  assert (Ho : Forall non_objective_line (snd (best, others))).
  { rewrite <- Ef. apply (proj2 (sanitize_fold flags scope lines [] [])).
    constructor. }
  cbn [fst snd] in Hb, Ho. rewrite Hb.
  pose proof (out_objective_NoDup flags scope lines) as Hnd.
  set (out := map (fmt_best flags scope) (best_of (objective_records flags lines))) in *.
  destruct scope.
  - exists []. rewrite app_nil_r. split; [apply sort_lines_perm |].
    split; [constructor |].
    eapply Permutation_NoDup; [| exact Hnd].
    symmetry. apply sort_lines_perm.
  - destruct (append_unseen_fold others out out (fun x => iff_refl _) Hnd)
      as (extra & H1 & H2 & H3).
    exists extra. rewrite H1. split; [apply sort_lines_perm |]. split.
    + apply Forall_forall. intros x Hx.
      rewrite Forall_forall in Ho. apply Ho. now apply H2.
    + eapply Permutation_NoDup; [| exact H3].
      symmetry. apply sort_lines_perm.
Qed.

Lemma filter_length_map {A B : Type} (p : B -> bool) (f : A -> B) (l : list A) :
  List.length (filter p (map f l)) = List.length (filter (fun a => p (f a)) l).
Proof.
  induction l as [| x r IH]; simpl; [reflexivity |].
  destruct (p (f x)); simpl; now rewrite IH.
Qed.

Lemma filter_key_le1 {A K : Type} (key : A -> K) (p : A -> bool) (k0 : K)
  (l : list A) :
  NoDup (map key l) ->
  (forall e, In e l -> p e = true -> key e = k0) ->
  (List.length (filter p l) <= 1)%nat.
Proof.
  induction l as [| x r IH]; simpl; intros Hnd Hp; [lia |].
  inversion Hnd as [| ? ? Hnotin Hnd']; subst.
  assert (IHr : (List.length (filter p r) <= 1)%nat).
  { apply IH; [assumption |]. intros e He. apply Hp. now right. }
  destruct (p x) eqn:Ex; [| exact IHr].
  simpl. destruct (filter p r) as [| y t] eqn:Ef; [simpl; lia |].
  exfalso. assert (Hy : In y (filter p r)) by (rewrite Ef; now left).
  apply filter_In in Hy as [Hyin Hyp].
  apply Hnotin. apply in_map_iff. exists y. split; [| assumption].
  rewrite (Hp x (or_introl eq_refl) Ex). apply Hp; [now right | assumption].
Qed.

Lemma filter_none {A : Type} (p : A -> bool) (l : list A) :
  (forall x, In x l -> p x = false) -> filter p l = [].
Proof.
  induction l as [| x r IH]; simpl; intros H; [reflexivity |].
  rewrite (H x (or_introl eq_refl)). apply IH. intros y Hy. apply H. now right.
Qed.

Lemma objective_line_not_extra (c k ln : string) :
  str_in c objective_clusters = true -> non_objective_line ln ->
  is_objective_line c k ln = false.
Proof.
  intros Hc Hn. unfold is_objective_line.
  destruct (String.eqb (field 0 ln) c) eqn:E; [| reflexivity].
  apply String.eqb_eq in E. unfold non_objective_line in Hn. congruence.
Qed.

(** C1 (amended).  After Stage-2 sanitation, every objective
    [(cluster, keyword)] has at most one record in the output; every
    objective record of the output is the first record in input order among
    those of its pair with the highest timestamp rank, where Discharge (or
    DC) ranks above Admission (or ADM), which ranks above every other
    timestamp (Past and Unknown rank equally); it carries that record's
    value and either its timestamp (scope [all], canonical timestamps off)
    or the cluster's canonical timestamp; every pair of the input survives.
    For the pair [VITALS|Heart Rate|88|Admission],
    [VITALS|Heart Rate|72|Discharge] with scope [all] and the validated
    policy the single surviving record is [VITALS|Heart Rate|72|Discharge]. *)
Theorem objective_dedup_first_of_highest_rank
  (flags : Flags) (scope : Scope) (lines : list string) :
  (forall c k, str_in c objective_clusters = true ->
     (List.length (filter (is_objective_line c k) (sanitize flags scope lines)) <= 1)%nat)
  /\ (forall ln, In ln (sanitize flags scope lines) ->
        str_in (field 0 ln) objective_clusters = true ->
        exists r, first_of_highest_rank (objective_records flags lines) r
                  /\ ln = fmt4 (r_cluster r) (r_keyword r) (r_value r)
                                (out_ts flags scope r))
  /\ (forall r, In r (objective_records flags lines) ->
        exists ln, In ln (sanitize flags scope lines)
                   /\ is_objective_line (r_cluster r) (r_keyword r) ln = true)
  /\ _sanitize_stage2_lines validated
       ["VITALS|Heart Rate|88|Admission"; "VITALS|Heart Rate|72|Discharge"] "all"
     = Some ["VITALS|Heart Rate|72|Discharge"].
Proof.
  destruct (sanitize_shape flags scope lines) as (extra & Hperm & Hextra & _).
  destruct (best_of_spec (objective_records flags lines)) as (Hnd & Hbest & Hall).
  rewrite Forall_forall in Hextra.
  split; [| split; [| split]].
  - intros c k Hc.
    rewrite (filter_length_perm _ _ _ Hperm), filter_app, length_app.
    rewrite (filter_none _ extra)
      by (intros x Hx; apply objective_line_not_extra; auto).
    rewrite filter_length_map. simpl. rewrite Nat.add_0_r.
    apply (filter_key_le1 (fun e => key_of (fst e)) _ (c, k)); [exact Hnd |].
    intros e He Hp.
    destruct (best_entry_wf _ _ _ He) as (Hwf & _).
    destruct (fmt_best_fields flags scope e Hwf) as (H0 & H1 & _).
    unfold is_objective_line in Hp. rewrite H0, H1 in Hp.
    apply andb_true_iff in Hp as [Hpc Hpk].
    apply String.eqb_eq in Hpc, Hpk. unfold key_of. congruence.
  - intros ln Hin Hobj.
    apply (Permutation_in _ Hperm) in Hin.
    apply in_app_or in Hin as [Hin | Hin].
    + apply in_map_iff in Hin as (e & <- & He).
      destruct (best_entry_wf _ _ _ He) as (_ & _ & Hfirst).
      exists (fst e). split; [assumption | reflexivity].
    + specialize (Hextra ln Hin). unfold non_objective_line in Hextra. congruence.
  - intros r Hr. specialize (Hall r Hr).
    apply in_map_iff in Hall as (e & Hk & He).
    exists (fmt_best flags scope e). split.
    + apply (Permutation_in _ (Permutation_sym Hperm)).
      apply in_or_app. left. now apply in_map.
    + destruct (best_entry_wf _ _ _ He) as (Hwf & _).
      destruct (fmt_best_fields flags scope e Hwf) as (H0 & H1 & _).
      unfold is_objective_line. rewrite H0, H1.
      unfold key_of in Hk. inversion Hk. now rewrite !String.eqb_refl.
  - vm_compute. reflexivity.
Qed.

Lemma objective_dedup_first_of_highest_rank_witness :
  (List.length
     (filter (is_objective_line "VITALS" "Heart Rate")
        (sanitize validated ScopeAll
           ["VITALS|Heart Rate|88|Admission"; "VITALS|Heart Rate|72|Discharge";
            "VITALS|Heart Rate|70|Past"])) <= 1)%nat.
Proof.
  apply (proj1 (objective_dedup_first_of_highest_rank validated ScopeAll
                  ["VITALS|Heart Rate|88|Admission"; "VITALS|Heart Rate|72|Discharge";
                   "VITALS|Heart Rate|70|Past"])).
  reflexivity.
Defined.

(** C1, as stated, fails: Past does not outrank Unknown.  Both have rank 0,
    so the earlier record survives. *)
Lemma objective_dedup_past_does_not_beat_unknown :
  _sanitize_stage2_lines validated
    ["VITALS|Heart Rate|88|Unknown"; "VITALS|Heart Rate|72|Past"] "all"
  = Some ["VITALS|Heart Rate|88|Unknown"].
Proof. vm_compute. reflexivity. Qed.

(** With scope [objective] the surviving record of the claim's example has
    the canonical timestamp of its cluster, not Discharge. *)
Example objective_dedup_canonical_timestamp :
  _sanitize_stage2_lines validated
    ["VITALS|Heart Rate|88|Admission"; "VITALS|Heart Rate|72|Discharge"] "objective"
  = Some ["VITALS|Heart Rate|72|Admission"].
Proof. vm_compute. reflexivity. Qed.

(** C7 (amended).  After Stage-2 sanitation with scope [all] the output has
    no duplicate line: for every cluster, semantic ones included, there is
    at most one record per [(cluster, keyword, value, timestamp)]. *)
Theorem sanitize_all_no_duplicate_lines (flags : Flags) (lines : list string) :
  NoDup (sanitize flags ScopeAll lines)
  /\ _sanitize_stage2_lines flags lines "all" = Some (sanitize flags ScopeAll lines).
Proof.
  split; [| reflexivity].
  destruct (sanitize_shape flags ScopeAll lines) as (_ & _ & _ & H). exact H.
Qed.

(** C7, as stated, fails: two PROBLEMS records with the same keyword and
    timestamp but different values both survive. *)
Lemma sanitize_all_keeps_same_triple_twice :
  _sanitize_stage2_lines validated
    ["PROBLEMS|CHF|chronic|Past"; "PROBLEMS|CHF|acute|Past"] "all"
  = Some ["PROBLEMS|CHF|chronic|Past"; "PROBLEMS|CHF|acute|Past"].
Proof. vm_compute. reflexivity. Qed.

Example sanitize_all_keeps_same_triple_twice_experimental :
  _sanitize_stage2_lines experimental
    ["PROBLEMS|CHF|chronic|Past"; "PROBLEMS|CHF|acute|Past"] "all"
  = Some ["PROBLEMS|CHF|chronic|Past"; "PROBLEMS|CHF|acute|Past"].
Proof. vm_compute. reflexivity. Qed.

Lemma numeric_is_objective (c : string) :
  str_in c numeric_clusters = true -> str_in c objective_clusters = true.
Proof.
  unfold str_in, numeric_clusters, objective_clusters. simpl.
  destruct (String.eqb c "VITALS"), (String.eqb c "LABS"),
           (String.eqb c "UTILIZATION"), (String.eqb c "DEMOGRAPHICS");
    simpl; intros H; try reflexivity; discriminate H.
Qed.

(** Numeric purity of the sanitizer's output. *)
Lemma sanitize_numeric_purity (flags : Flags) (scope : Scope)
  (lines : list string) (ln : string) :
  In ln (sanitize flags scope lines) ->
  str_in (field 0 ln) numeric_clusters = true ->
  is_plain_number (field 2 ln) = true
  /\ List.length (split_on "|" ln) = 4%nat.
Proof.
  intros Hin Hnum.
  destruct (sanitize_shape flags scope lines) as (extra & Hperm & Hextra & _).
  rewrite Forall_forall in Hextra.
  apply (Permutation_in _ Hperm) in Hin.
  apply in_app_or in Hin as [Hin | Hin].
  - apply in_map_iff in Hin as (e & <- & He).
    destruct (best_entry_wf _ _ _ He) as (Hwf & _).
    destruct (fmt_best_fields flags scope e Hwf) as (H0 & _ & H2).
    rewrite H0 in Hnum. rewrite H2.
    destruct Hwf as (Hc & Hk & Hv & Ht & Hp). split; [now apply Hp |].
    unfold fmt_best. cbv zeta. rewrite fields_fmt4 by assumption.
    rewrite split_on_plain; [reflexivity |].
    unfold out_ts. destruct scope; [apply default_ts_nopipe |].
    destruct (force_objective_ts_canonical_in_all flags);
      [apply default_ts_nopipe | exact Ht].
  - specialize (Hextra ln Hin). unfold non_objective_line in Hextra.
    apply numeric_is_objective in Hnum. congruence.
Qed.

End Stage2Proofs.

(* ===================================================================== *)
(** ** KVT4 normalisation: numeric purity and blood-pressure expansion *)
(* ===================================================================== *)

Module KvtProofs.
Import PyStr PyStrFacts Num NumFacts Kvt.

Definition numeric_clusters : list string := ["VITALS"; "LABS"; "UTILIZATION"].

(** *** Shapes found by the searches *)

Lemma search_bp_shape (s sbp dbp : string) :
  search_bp s = Some (sbp, dbp) -> unsigned_shape sbp /\ unsigned_shape dbp.
Proof.
  assert (Hhere : forall t, match_bp_here t = Some (sbp, dbp) ->
                            unsigned_shape sbp /\ unsigned_shape dbp).
  { intros t. unfold match_bp_here.
    destruct (match_unsigned t) as [[a r1] |] eqn:E1; [| discriminate].
    destruct (lstrip r1) as [| c r2]; [discriminate |].
    destruct (Ascii.eqb c "/") eqn:Ec.
    - apply Ascii.eqb_eq in Ec. subst c.
      destruct (match_unsigned (lstrip r2)) as [[b r3] |] eqn:E2; [| discriminate].
      intros H. inversion H; subst.
      apply match_unsigned_split in E1, E2. tauto.
    - destruct c as [[] [] [] [] [] [] [] []]; discriminate. }
  induction s as [| c r IH]; cbn [search_bp].
  - destruct (match_bp_here "") eqn:E; [| discriminate].
    intros H. inversion H; subst. eauto.
  - destruct (match_bp_here (String c r)) eqn:E; [| exact IH].
    intros H. inversion H; subst. eauto.
Qed.

(** *** Well-formed candidates *)

Definition wf_fact (x : Fact4) : Prop :=
  nopipe (f_cluster x)
  /\ (str_in (f_cluster x) numeric_clusters = true ->
      nopipe (f_keyword x) /\ number_shape (f_value x)).

Lemma kvt_clean_cluster_nopipe (x : string) : nopipe x -> nopipe (clean_cluster x).
Proof.
  intros H. unfold clean_cluster.
  now apply nopipe_upper, nopipe_strip, nopipe_strip_chars, nopipe_strip.
Qed.

Lemma infer_cluster_nopipe (k : string) : nopipe (_infer_cluster_from_keyword k).
Proof.
  unfold _infer_cluster_from_keyword. cbv zeta.
  repeat match goal with
         | |- nopipe (if ?b then _ else _) => destruct b; [reflexivity |]
         end.
  reflexivity.
Qed.

Lemma parse_line_nopipe (line : string) (p : Fact4) :
  _parse_line line = Some p -> nopipe (f_cluster p) /\ nopipe (f_keyword p).
Proof.
  unfold _parse_line. cbv zeta.
  set (s := strip (strip_bullet (strip line))).
  pose proof (nopipe_split_strip s) as Hp.
  destruct (is_empty s); [discriminate |].
  destruct (Nat.eqb (count_char "|" s) 3).
  - destruct (map strip (split_on "|" s)) as [| c [| k [| v [| t [| x r]]]]];
      try discriminate.
    inversion Hp as [| ? ? Hc H1]; subst. inversion H1 as [| ? ? Hk _]; subst.
    destruct (_ || _ || _); [discriminate |].
    intros H. injection H as <-. now split.
  - destruct (Nat.eqb (count_char "|" s) 2); [| discriminate].
    destruct (map strip (split_on "|" s)) as [| a [| b [| c [| x r]]]];
      try discriminate.
    inversion Hp as [| ? ? Ha H1]; subst. inversion H1 as [| ? ? Hb _]; subst.
    destruct (_ || _ || _); [discriminate |].
    destruct (str_in (clean_cluster a) READMISSION_CLUSTERS).
    + intros H. injection H as <-. split; [now apply kvt_clean_cluster_nopipe | assumption].
    + destruct (is_empty (_infer_cluster_from_keyword a)); [discriminate |].
      intros H. injection H as <-. split; [apply infer_cluster_nopipe | assumption].
Qed.

Lemma alias_nopipe (d : list (string * string)) (k : string) :
  Forall (fun kv => nopipe (snd kv)) d -> nopipe k -> nopipe (alias d k).
Proof.
  intros Hd Hk. unfold alias.
  induction Hd as [| [a b] r Hb Hr IH]; simpl; [exact Hk |].
  destruct (String.eqb k a); [exact Hb | exact IH].
Qed.

Lemma numeric_only_shape (k v k' v' : string) :
  numeric_only k v = Kept k' v' -> k' = k /\ number_shape v'.
Proof.
  unfold numeric_only. destruct (_first_number v) as [num |] eqn:E; [| discriminate].
  intros H. inversion H; subst. split; [reflexivity |].
  now apply (first_number_shape v).
Qed.

Lemma numeric_cases (c : string) :
  str_in c numeric_clusters = true -> c = "VITALS" \/ c = "LABS" \/ c = "UTILIZATION".
Proof.
  intros H. apply str_in_In in H. simpl in H. intuition.
Qed.

Lemma normalize_kv_numeric (c k v k' v' : string) :
  str_in c numeric_clusters = true -> nopipe k ->
  normalize_kv c k v = Kept k' v' -> nopipe k' /\ number_shape v'.
Proof.
  intros Hc Hk. apply numeric_cases in Hc as [-> | [-> | ->]].
  - unfold normalize_kv. cbn [String.eqb Ascii.eqb Bool.eqb]. cbv zeta.
    destruct (String.eqb (alias vital_alias k) "Blood Pressure").
    + destruct (search_bp v) as [[a b] |]; discriminate.
    + intros H. apply numeric_only_shape in H as [-> Hs]. split; [| assumption].
      apply alias_nopipe; [| assumption]. unfold vital_alias. repeat constructor.
  - unfold normalize_kv. cbn [String.eqb Ascii.eqb Bool.eqb].
    intros H. apply numeric_only_shape in H as [-> Hs]. split; [| assumption].
    apply alias_nopipe; [| assumption]. unfold lab_alias. repeat constructor.
  - unfold normalize_kv. cbn [String.eqb Ascii.eqb Bool.eqb].
    intros H. apply numeric_only_shape in H as [-> Hs]. now split.
Qed.

Lemma unsigned_is_number (m : string) : unsigned_shape m -> number_shape m.
Proof. intros H. now left. Qed.

Lemma normalize_line_wf (env : Env) (line : string) (x : Fact4) :
  In x (normalize_line env line) -> wf_fact x.
Proof.
  unfold normalize_line.
  destruct (_parse_line line) as [p |] eqn:Ep; [| intros []].
  destruct (parse_line_nopipe _ _ Ep) as [Hc Hk].
  cbv zeta.
  match goal with |- In x (if ?b then _ else _) -> _ => destruct b end;
    [intros [] |].
  destruct (str_in (strip (f_value p)) _); [intros [] |].
  pose proof (kvt_clean_cluster_nopipe _ Hc) as Hcu.
  pose proof (nopipe_strip _ Hk) as Hkn.
  destruct (normalize_kv (clean_cluster (f_cluster p)) (strip (f_keyword p))
              (strip (f_value p))) as [| sbp dbp | k v] eqn:En.
  - intros [].
  - assert (Hbp : unsigned_shape sbp /\ unsigned_shape dbp).
    { revert En. unfold normalize_kv.
      repeat match goal with
             | |- context [if ?b then _ else _] => destruct b
             | |- context [match ?o with Some _ => _ | None => _ end] =>
                 let E := fresh "E" in destruct o as [[? ?] |] eqn:E
             | |- context [match ?o with Some _ => _ | None => _ end] =>
                 destruct o
             end; unfold numeric_only, yes_no;
      repeat match goal with
             | |- context [if ?b then _ else _] => destruct b
             | |- context [match ?o with Some _ => _ | None => _ end] =>
                 destruct o
             end; try discriminate.
      intros H. inversion H; subst.
      eapply search_bp_shape; eassumption. }
    destruct Hbp as [Hs Hd].
    intros [<- | [<- | []]]; (split; [reflexivity |]); intros _;
      (split; [reflexivity | now apply unsigned_is_number]).
  - match goal with |- In x (if ?b then _ else _) -> _ => destruct b end;
      [intros [] |].
    intros [<- | []]. split; [exact Hcu |]. cbn [f_cluster f_keyword f_value].
    intros Hn. exact (normalize_kv_numeric _ _ _ _ _ Hn Hkn En).
Qed.

Lemma best_update_In (env : Env) (x y : Fact4) (best : list Fact4) :
  In y (best_update env x best) -> y = x \/ In y best.
Proof.
  induction best as [| cur rest IH]; simpl.
  - intros [<- | []]. now left.
  - destruct (same_key x cur).
    + destruct (_ <? _)%nat; intros [<- | H]; auto.
    + intros [<- | H]; [auto |]. destruct (IH H); auto.
Qed.

Lemma dedupe_In (env : Env) (cands : list Fact4) (y : Fact4) :
  In y (dedupe env cands) -> In y cands.
Proof.
  unfold dedupe.
  assert (H : forall best, In y (fold_left (fun b x => best_update env x b) cands best)
                           -> In y best \/ In y cands).
  { induction cands as [| x r IH]; simpl; intros best Hy; [now left |].
    destruct (IH _ Hy) as [Hb | Hr]; [| now right; right].
    apply best_update_In in Hb as [-> | Hb]; [right; now left | now left]. }
  intros Hy. destruct (H [] Hy) as [[] | Hc]. exact Hc.
Qed.

Lemma kvt_insert_sorted_perm (x : string) (l : list string) :
  Permutation (insert_sorted x l) (x :: l).
Proof.
  induction l as [| y r IH]; simpl; [reflexivity |].
  destruct (key_leb x y); [reflexivity |].
  rewrite IH. apply perm_swap.
Qed.

Lemma kvt_sort_lines_perm (l : list string) : Permutation (sort_lines l) l.
Proof.
  induction l as [| x r IH]; simpl; [reflexivity |].
  rewrite kvt_insert_sorted_perm. now constructor.
Qed.

Lemma normalized_fact (env : Env) (lines : list string) (ln : string) :
  In ln (normalize_readmission_kvt4_lines env lines) ->
  exists x, ln = fmt_fact x /\ wf_fact x.
Proof.
  unfold normalize_readmission_kvt4_lines. intros Hin.
  apply (Permutation_in _ (kvt_sort_lines_perm _)) in Hin.
  apply in_map_iff in Hin as (x & <- & Hx).
  exists x. split; [reflexivity |].
  apply dedupe_In in Hx. unfold normalized_candidates in Hx.
  apply in_flat_map in Hx as (line & _ & Hx).
  now apply (normalize_line_wf env line).
Qed.

(** Numeric purity of the normaliser's output. *)
Lemma normalize_numeric_purity (env : Env) (lines : list string) (ln : string) :
  In ln (normalize_readmission_kvt4_lines env lines) ->
  str_in (field 0 ln) numeric_clusters = true ->
  is_plain_number (field 2 ln) = true.
Proof.
  intros Hin Hnum.
  destruct (normalized_fact env lines ln Hin) as (x & -> & Hc & Hx).
  unfold field, fmt_fact in *.
  rewrite (split_on_pipe_app (f_cluster x)) in Hnum by assumption.
  cbn [nth] in Hnum. destruct (Hx Hnum) as [Hk Hv].
  rewrite (split_on_pipe_app (f_cluster x)), (split_on_pipe_app (f_keyword x)),
          (split_on_pipe_app (f_value x))
    by (assumption || now apply number_shape_nopipe).
  cbn [nth]. now apply number_shape_plain.
Qed.

(** *** Reading back a clean four-field line *)



(** *** The blood-pressure expansion *)



Lemma unsigned_nopipe (m : string) : unsigned_shape m -> nopipe m.
Proof. intros H. apply number_shape_nopipe. now left. Qed.











End KvtProofs.

(* ===================================================================== *)
(** ** Numeric purity of both sanitation stages *)
(* ===================================================================== *)

Module Purity.
Import PyStr Num.

(** C5.  In the output of the Stage-2 sanitizer and in the output of the
    KVT4 normaliser, every record whose cluster is VITALS, LABS or
    UTILIZATION has a value that is exactly a plain number,
    [-?\d+(\.\d+)?], with no unit or decoration. *)
Theorem numeric_values_are_plain_numbers :
  (forall flags scope lines ln,
     In ln (Stage2.sanitize flags scope lines) ->
     str_in (Stage2.field 0 ln) ["VITALS"; "LABS"; "UTILIZATION"] = true ->
     is_plain_number (Stage2.field 2 ln) = true)
  /\ (forall env lines ln,
        In ln (Kvt.normalize_readmission_kvt4_lines env lines) ->
        str_in (Kvt.field 0 ln) ["VITALS"; "LABS"; "UTILIZATION"] = true ->
        is_plain_number (Kvt.field 2 ln) = true).
Proof.
  split.
  - intros flags scope lines ln Hin Hnum.
    exact (proj1 (Stage2Proofs.sanitize_numeric_purity flags scope lines ln Hin Hnum)).
  - intros env lines ln Hin Hnum.
    exact (KvtProofs.normalize_numeric_purity env lines ln Hin Hnum).
Qed.

Lemma numeric_values_are_plain_numbers_witness :
  is_plain_number (Stage2.field 2 "LABS|WBC|12.5|Admission") = true
  /\ is_plain_number (Kvt.field 2 "VITALS|Heart Rate|88|Discharge") = true.
Proof.
  split.
  - apply (proj1 numeric_values_are_plain_numbers Stage2.validated Stage2.ScopeAll
             ["LABS|WBC|$12.5|ADM"; "LABS|WBC|high|Discharge"]
             "LABS|WBC|12.5|Admission").
    + vm_compute. left. reflexivity.
    + reflexivity.
  - apply (proj2 numeric_values_are_plain_numbers Kvt.default_env
             ["- VITALS|HR|88 bpm|Discharge"; "VITALS|HR|n/a|Admission"]
             "VITALS|Heart Rate|88|Discharge").
    + vm_compute. left. reflexivity.
    + reflexivity.
Defined.

(** Units and decorations are removed or the record is dropped. *)
Example sanitize_drops_decorated_numbers :
  Stage2._sanitize_stage2_lines Stage2.validated
    ["LABS|WBC|$12.5|ADM"; "VITALS|SpO2|95%|Discharge"; "UTILIZATION|ED Visits 6mo|2|Past"]
    "all"
  = Some ["LABS|WBC|12.5|Admission"; "UTILIZATION|ED Visits 6mo|2|Past"].
Proof. vm_compute. reflexivity. Qed.

Example normalize_keeps_first_number :
  Kvt.normalize_readmission_kvt4_lines Kvt.default_env
    ["VITALS|SpO2|95% RA|Discharge"; "LABS|Hgb|12.5 g/dL|Admission"]
  = ["LABS|Hemoglobin|12.5|Admission"; "VITALS|SpO2|95|Discharge"].
Proof. vm_compute. reflexivity. Qed.

(** The normaliser, with its default environment, fills an Unknown
    timestamp before de-duplicating, so an Unknown VITALS reading becomes an
    Admission reading and wins over a Past one. *)
Example normalize_unknown_beats_past :
  Kvt.normalize_readmission_kvt4_lines Kvt.default_env
    ["VITALS|Heart Rate|88|Unknown"; "VITALS|Heart Rate|72|Past"]
  = ["VITALS|Heart Rate|88|Admission"].
Proof. vm_compute. reflexivity. Qed.

Example normalize_discharge_beats_admission :
  Kvt.normalize_readmission_kvt4_lines Kvt.default_env
    ["VITALS|Heart Rate|88|Admission"; "VITALS|Heart Rate|72|Discharge"]
  = ["VITALS|Heart Rate|72|Discharge"].
Proof. vm_compute. reflexivity. Qed.

End Purity.

(* ===================================================================== *)
(** ** More facts about the string primitives *)
(* ===================================================================== *)

Module PyStrMore.
Import PyStr PyStrFacts.

Lemma lstrip_by_head (p : ascii -> bool) (s : string) (c : ascii) (r : string) :
  lstrip_by p s = String c r -> p c = false.
Proof.
  induction s as [| d t IH]; simpl; [discriminate |].
  destruct (p d) eqn:E; [exact IH |].
  intros H. injection H as <- _. exact E.
Qed.

Lemma lstrip_by_idem (p : ascii -> bool) (s : string) :
  lstrip_by p (lstrip_by p s) = lstrip_by p s.
Proof.
  destruct (lstrip_by p s) as [| c r] eqn:E; [reflexivity |].
  simpl. now rewrite (lstrip_by_head p s c r E).
Qed.

Lemma rstrip_by_idem (p : ascii -> bool) (s : string) :
  rstrip_by p (rstrip_by p s) = rstrip_by p s.
Proof.
  induction s as [| c r IH]; simpl; [reflexivity |].
  destruct (p c && is_empty (rstrip_by p r)) eqn:E; [reflexivity |].
  simpl. now rewrite IH, E.
Qed.

Lemma strip_by_idem (p : ascii -> bool) (s : string) :
  strip_by p (strip_by p s) = strip_by p s.
Proof.
  unfold strip_by.
  assert (H : lstrip_by p (rstrip_by p (lstrip_by p s)) = rstrip_by p (lstrip_by p s)).
  { destruct (lstrip_by p s) as [| c r] eqn:E; [reflexivity |].
    pose proof (lstrip_by_head p s c r E) as Hc.
    simpl. rewrite Hc. simpl. now rewrite Hc. }
  rewrite H. apply rstrip_by_idem.
Qed.

Lemma strip_idem (s : string) : strip (strip s) = strip s.
Proof. apply strip_by_idem. Qed.

Lemma rstrip_strip (s : string) : rstrip (strip s) = strip s.
Proof. unfold rstrip, strip, strip_by. apply rstrip_by_idem. Qed.

(** Stripping on the right first does not change what [strip] returns. *)
Lemma lstrip_by_rstrip_by (p : ascii -> bool) (s : string) :
  rstrip_by p (lstrip_by p (rstrip_by p s)) = rstrip_by p (lstrip_by p s).
Proof.
  induction s as [| c r IH]; [reflexivity |].
  cbn [rstrip_by lstrip_by].
  destruct (p c) eqn:Ec; cbn [andb].
  - destruct (is_empty (rstrip_by p r)) eqn:Er.
    + destruct (rstrip_by p r) eqn:E; [| discriminate].
      rewrite <- IH. reflexivity.
    + cbn [lstrip_by]. rewrite Ec. exact IH.
  - cbn [lstrip_by]. rewrite Ec. cbn [rstrip_by]. rewrite Ec. cbn [andb].
    now rewrite rstrip_by_idem.
Qed.

Lemma strip_rstrip (s : string) : strip (rstrip s) = strip s.
Proof. unfold rstrip, strip, strip_by. apply lstrip_by_rstrip_by. Qed.

Lemma lower_char_idem (c : ascii) : lower_char (lower_char c) = lower_char c.
Proof. destruct c as [[] [] [] [] [] [] [] []]; reflexivity. Qed.

Lemma lower_idem (s : string) : lower (lower s) = lower s.
Proof.
  unfold lower. induction s as [| c r IH]; cbn [map_str]; [reflexivity |].
  now rewrite lower_char_idem, IH.
Qed.

(** [len(s.split(sep)) == s.count(sep) + 1] *)
Lemma split_on_length (sep : ascii) (s : string) :
  List.length (split_on sep s) = S (count_char sep s).
Proof.
  induction s as [| c r IH]; simpl; [reflexivity |].
  destruct (Ascii.eqb c sep); simpl; [now rewrite IH |].
  destruct (split_on sep r) as [| h t] eqn:E; simpl in *; [discriminate | exact IH].
Qed.

(** Loops that only append are maps, filters or their combination. *)
Lemma fold_snoc_map {A B : Type} (f : A -> B) (l : list A) (acc : list B) :
  fold_left (fun out x => (out ++ [f x])%list) l acc = (acc ++ map f l)%list.
Proof.
  revert acc. induction l as [| x r IH]; intros acc; simpl.
  - now rewrite app_nil_r.
  - rewrite IH, <- app_assoc. reflexivity.
Qed.

Lemma fold_snoc_flat_map {A B : Type} (g : A -> list B) (l : list A) (acc : list B) :
  fold_left (fun out x => (out ++ g x)%list) l acc = (acc ++ flat_map g l)%list.
Proof.
  revert acc. induction l as [| x r IH]; intros acc; simpl.
  - now rewrite app_nil_r.
  - rewrite IH, <- app_assoc. reflexivity.
Qed.

Lemma fold_ext {A B : Type} (f g : B -> A -> B) (l : list A) (acc : B) :
  (forall b a, f b a = g b a) -> fold_left f l acc = fold_left g l acc.
Proof.
  intros H. revert acc. induction l as [| x r IH]; intros acc; simpl;
    [reflexivity |].
  now rewrite H, IH.
Qed.

Lemma flat_map_idem_on {A : Type} (g : A -> list A) (l : list A) :
  (forall x y, In y (g x) -> g y = [y]) ->
  flat_map g (flat_map g l) = flat_map g l.
Proof.
  intros H. induction l as [| x r IH]; simpl; [reflexivity |].
  rewrite flat_map_app, IH. f_equal.
  assert (Hx : forall l', (forall y, In y l' -> g y = [y]) -> flat_map g l' = l').
  { induction l' as [| y t IHt]; intros Hl; simpl; [reflexivity |].
    rewrite (Hl y) by now left. simpl. f_equal. apply IHt.
    intros z Hz. apply Hl. now right. }
  apply Hx. intros y Hy. exact (H x y Hy).
Qed.

Lemma nopipe_fields (s : string) : Forall nopipe (split_on "|" s).
Proof. apply split_on_no_sep. Qed.

Lemma fields4 (c k v t : string) :
  nopipe c -> nopipe k -> nopipe v -> nopipe t ->
  split_on "|" (Stage2.fmt4 c k v t) = [c; k; v; t].
Proof.
  intros Hc Hk Hv Ht. unfold Stage2.fmt4.
  rewrite !split_on_pipe_app by assumption.
  now rewrite (split_on_plain "|" t).
Qed.

End PyStrMore.

(* ===================================================================== *)
(** ** The Stage-2 post-filters *)
(* ===================================================================== *)

Module PostFilterProofs.
Import PyStr PyStrFacts PyStrMore Num PostFilter.

Definition stripped (s : string) : Prop := strip s = s.

(** *** [_normalize_binary_flag_values] *)

(** The line written for one input line. *)
Definition reformat_flags (ln : string) : string :=
  match split_on "|" ln with
  | [p0; p1; p2; p3] =>
      fmt4 (strip p0) (strip p1) (binary_flag_value (strip p1) (strip p2)) (strip p3)
  | _ => ln
  end.

Lemma binary_flags_map (lines : list string) :
  _normalize_binary_flag_values lines = map reformat_flags lines.
Proof.
  unfold _normalize_binary_flag_values.
  rewrite (fold_ext _ (fun out x => (out ++ [reformat_flags x])%list)).
  - now rewrite fold_snoc_map.
  - intros out ln. unfold binary_flag_step, reformat_flags.
    destruct (split_on "|" ln) as [| p0 [| p1 [| p2 [| p3 [| x r]]]]]; reflexivity.
Qed.

Lemma binary_flag_value_idem (k v : string) :
  binary_flag_value k (binary_flag_value k v) = binary_flag_value k v.
Proof.
  unfold binary_flag_value.
  destruct (str_in k _BINARY_FLAG_KEYWORDS); [| reflexivity].
  destruct (String.eqb k "Dialysis").
  - destruct (str_in (casefold v) _BINARY_TRUE_VALUES) eqn:E1; [reflexivity |].
    destruct (str_in (casefold v) _BINARY_FALSE_VALUES) eqn:E2; [reflexivity |].
    now rewrite E1, E2.
  - destruct (str_in (casefold v) _BINARY_TRUE_VALUES) eqn:E1; [reflexivity |].
    destruct (str_in (casefold v) _BINARY_FALSE_VALUES) eqn:E2; [reflexivity |].
    now rewrite E1, E2.
Qed.

Lemma binary_flag_value_keeps (P : string -> Prop) (k v : string) :
  P v -> P "done" -> P "yes" -> P "no" -> P (binary_flag_value k v).
Proof.
  intros Hv Hd Hy Hn. unfold binary_flag_value.
  repeat match goal with
         | |- P (if ?b then _ else _) => destruct b
         end; assumption.
Qed.

Lemma reformat_flags_idem (ln : string) :
  reformat_flags (reformat_flags ln) = reformat_flags ln.
Proof.
  unfold reformat_flags at 2 3.
  pose proof (nopipe_fields ln) as Hp.
  destruct (split_on "|" ln) as [| p0 [| p1 [| p2 [| p3 [| x r]]]]] eqn:E;
    try (unfold reformat_flags; rewrite E; reflexivity).
  inversion Hp as [| ? ? H0 Hp1]; subst.
  inversion Hp1 as [| ? ? H1 Hp2]; subst.
  inversion Hp2 as [| ? ? H2 Hp3]; subst.
  inversion Hp3 as [| ? ? H3 _]; subst.
  unfold reformat_flags, fmt4.
  rewrite fields4.
  - rewrite !strip_idem.
    rewrite (binary_flag_value_keeps stripped); unfold stripped;
      try reflexivity; try apply strip_idem.
    now rewrite binary_flag_value_idem.
  - now apply nopipe_strip.
  - now apply nopipe_strip.
  - apply (binary_flag_value_keeps nopipe); try reflexivity. now apply nopipe_strip.
  - now apply nopipe_strip.
Qed.

(** *** [_drop_low_information_negatives] *)

(** The test that drops a record, on its stripped fields. *)
Definition low_information (cluster keyword value : string) : bool :=
  (String.eqb (upper cluster) "MEDICATIONS"
   && ((str_in keyword med_binary && String.eqb (casefold value) "no")
       || (String.eqb keyword "New Medications Count"
           && match _extract_numeric_value value with
              | Some n => float_is_zero n
              | None => false
              end)))
  || (String.eqb (upper cluster) "PROCEDURES" && str_in keyword proc_specific
      && String.eqb (casefold value) "no").

Definition low_information_lines (ln : string) : list string :=
  match split_on "|" ln with
  | [p0; p1; p2; p3] =>
      if low_information (strip p0) (strip p1) (strip p2) then []
      else [fmt4 (strip p0) (strip p1) (strip p2) (strip p3)]
  | _ => [ln]
  end.

Lemma low_information_step_spec (out : list string) (ln : string) :
  low_information_step out ln = (out ++ low_information_lines ln)%list.
Proof.
  unfold low_information_step, low_information_lines, low_information.
  destruct (split_on "|" ln) as [| p0 [| p1 [| p2 [| p3 [| x r]]]]]; try reflexivity.
  cbv zeta.
  destruct (String.eqb (upper (strip p0)) "MEDICATIONS");
    destruct (String.eqb (upper (strip p0)) "PROCEDURES");
    destruct (str_in (strip p1) med_binary);
    destruct (String.eqb (casefold (strip p2)) "no");
    destruct (String.eqb (strip p1) "New Medications Count");
    destruct (str_in (strip p1) proc_specific);
    destruct (_extract_numeric_value (strip p2)) as [n |];
    try destruct (float_is_zero n);
    cbn [andb orb]; rewrite ?app_nil_r; reflexivity.
Qed.

Lemma low_information_flat_map (lines : list string) :
  _drop_low_information_negatives lines = flat_map low_information_lines lines.
Proof.
  unfold _drop_low_information_negatives.
  rewrite (fold_ext _ (fun out x => (out ++ low_information_lines x)%list)).
  - now rewrite fold_snoc_flat_map.
  - apply low_information_step_spec.
Qed.

Lemma low_information_lines_stable (x y : string) :
  In y (low_information_lines x) -> low_information_lines y = [y].
Proof.
  unfold low_information_lines at 1.
  pose proof (nopipe_fields x) as Hp.
  destruct (split_on "|" x) as [| p0 [| p1 [| p2 [| p3 [| z r]]]]] eqn:E;
    try (intros [<- | []]; unfold low_information_lines; rewrite E; reflexivity).
  inversion Hp as [| ? ? H0 Hp1]; subst.
  inversion Hp1 as [| ? ? H1 Hp2]; subst.
  inversion Hp2 as [| ? ? H2 Hp3]; subst.
  inversion Hp3 as [| ? ? H3 _]; subst.
  destruct (low_information (strip p0) (strip p1) (strip p2)) eqn:El; [intros [] |].
  intros [<- | []].
  unfold low_information_lines, fmt4.
  rewrite fields4 by now apply nopipe_strip.
  now rewrite !strip_idem, El.
Qed.

(** *** [_drop_stage2_prompt_leakage_lines] *)

Definition is_leak (s : string) : bool :=
  is_empty s
  || existsb (startswith (casefold s)) leak_prefixes
  || existsb (fun tok => contains tok (casefold s)) leak_substrings.

Lemma leakage_filter (lines : list string) :
  _drop_stage2_prompt_leakage_lines lines
  = filter (fun s => negb (is_leak s)) (map strip lines).
Proof.
  assert (H : forall acc,
             fold_left leakage_step lines acc
             = (acc ++ filter (fun s => negb (is_leak s)) (map strip lines))%list).
  { induction lines as [| x r IH]; intros acc; simpl; [now rewrite app_nil_r |].
    rewrite IH. unfold leakage_step, is_leak.
    destruct (is_empty (strip x)); [reflexivity |].
    cbv zeta. cbn [orb].
    destruct (existsb (startswith (casefold (strip x))) leak_prefixes);
      [reflexivity |].
    cbn [orb].
    destruct (existsb (fun tok => contains tok (casefold (strip x))) leak_substrings);
      [reflexivity |].
    cbn [negb]. now rewrite <- app_assoc. }
  unfold _drop_stage2_prompt_leakage_lines.
  destruct lines as [| x r]; [reflexivity |].
  now rewrite H.
Qed.

(** *** The UTILIZATION evidence gate *)

Lemma utilization_fold (lines : list string) :
  fold_left (fun out ln => if is_utilization_record ln then out else (out ++ [ln])%list)
            lines []
  = filter (fun ln => negb (is_utilization_record ln)) lines.
Proof.
  assert (H : forall acc,
             fold_left (fun out ln => if is_utilization_record ln then out
                                      else (out ++ [ln])%list) lines acc
             = (acc ++ filter (fun ln => negb (is_utilization_record ln)) lines)%list).
  { induction lines as [| x r IH]; intros acc; simpl; [now rewrite app_nil_r |].
    rewrite IH. destruct (is_utilization_record x); [reflexivity |].
    cbn [negb]. now rewrite <- app_assoc. }
  now rewrite H.
Qed.

(** *** [_parse_stop_list] *)

Definition stop_token (t : string) : Prop :=
  t <> EmptyString /\ stripped t /\ mem_char "," t = false.

Lemma stop_inner (item : string) (acc : list string) :
  Forall stop_token acc ->
  Forall stop_token
    (fold_left (fun out s => let t := strip s in
                             if is_empty t then out else (out ++ [t])%list)
               (split_on "," item) acc).
Proof.
  pose proof (split_on_no_sep "," item) as Hs.
  revert acc. induction Hs as [| s r Hc Hr IH]; intros acc Hacc; simpl;
    [exact Hacc |].
  apply IH. destruct (is_empty (strip s)) eqn:E; [exact Hacc |].
  apply Forall_app. split; [exact Hacc |].
  constructor; [| constructor].
  split; [| split].
  - intros H0. rewrite H0 in E. discriminate.
  - apply strip_idem.
  - now apply mem_char_strip_by.
Qed.

(** *** [_compact_stage1_markdown] *)

Lemma has_content_drop (out : list string) :
  has_content (drop_empty_headers out) = has_content out.
Proof.
  induction out as [| ln r IH]; [reflexivity |].
  cbn [drop_empty_headers has_content].
  destruct (is_header ln) eqn:Eh.
  - destruct (has_content r) eqn:Ec; cbn [negb andb].
    + cbn [has_content]. now rewrite Eh.
    + now rewrite IH.
  - cbn [andb has_content]. rewrite Eh.
    destruct (negb (is_empty (strip ln))); [reflexivity | exact IH].
Qed.

Lemma drop_empty_headers_content (out l1 l2 : list string) (h : string) :
  drop_empty_headers out = (l1 ++ h :: l2)%list ->
  is_header h = true -> has_content l2 = true.
Proof.
  revert l1. induction out as [| ln r IH]; intros l1.
  - destruct l1; discriminate.
  - cbn [drop_empty_headers].
    destruct (is_header ln && negb (has_content r)) eqn:E; [apply IH |].
    destruct l1 as [| x l1']; cbn [app].
    + intros H Hh. injection H as -> <-.
      rewrite Hh in E. cbn [andb] in E. apply negb_false_iff in E.
      now rewrite has_content_drop.
    + intros H. injection H as _ H. now apply (IH l1').
Qed.

(** *** [_compute_kvt4_format_stats] *)

Definition nonempty (s : string) : Prop := is_empty s = false.

Lemma nonblank_stripped_nonempty (lines : list string) :
  Forall nonempty (nonblank_stripped lines).
Proof.
  unfold nonblank_stripped. apply Forall_forall. intros s Hs.
  apply filter_In in Hs as [_ Hs]. now apply negb_true_iff in Hs.
Qed.

Lemma kvt3_fold_nonempty (tmp : list string) :
  Forall nonempty tmp ->
  forall st, Forall nonempty (fst (fst st)) ->
  Forall nonempty
    (fst (fst (fold_left
       (fun (st : list string * nat * list string) ln =>
          let '(cands, n, ex) := st in
          if is_kvt3_not_stated ln
          then (cands, S n,
                if (List.length ex <? 5)%nat then (ex ++ [strip ln])%list else ex)
          else ((cands ++ [ln])%list, n, ex))
       tmp st))).
Proof.
  induction 1 as [| x r Hx Hr IH]; intros [[cands n] ex] Hst; simpl; [exact Hst |].
  apply IH. destruct (is_kvt3_not_stated x); simpl; [exact Hst |].
  apply Forall_app. split; [exact Hst | now constructor].
Qed.

Lemma filter_partition_length {A : Type} (p q : A -> bool) (l : list A) :
  (forall x, In x l -> q x = negb (p x)) ->
  (List.length (filter p l) + List.length (filter q l) = List.length l)%nat.
Proof.
  induction l as [| x r IH]; intros H; [reflexivity |].
  cbn [filter]. rewrite (H x) by now left.
  assert (Hr : forall y, In y r -> q y = negb (p y)) by (intros y Hy; apply H; now right).
  specialize (IH Hr).
  destruct (p x); cbn [negb List.length]; lia.
Qed.

Lemma filter_length_le_impl {A : Type} (p q : A -> bool) (l : list A) :
  (forall x, In x l -> p x = true -> q x = true) ->
  (List.length (filter p l) <= List.length (filter q l))%nat.
Proof.
  induction l as [| x r IH]; intros H; [apply Nat.le_refl |].
  cbn [filter].
  assert (Hr : forall y, In y r -> p y = true -> q y = true)
    by (intros y Hy; apply H; now right).
  specialize (IH Hr).
  destruct (p x) eqn:Ep.
  - rewrite (H x) by (auto; now left). cbn [List.length]. lia.
  - destruct (q x); cbn [List.length]; lia.
Qed.

Lemma recovered_not_valid (ln : string) :
  is_recovered_cluster_prefix ln = true -> _kvt4_is_valid_line ln = false.
Proof.
  unfold is_recovered_cluster_prefix, _kvt4_is_valid_line. cbv zeta.
  destruct (Nat.eqb (count_char "|" (strip ln)) 4) eqn:E; [| discriminate].
  apply Nat.eqb_eq in E. rewrite E. intros _.
  destruct (is_empty (strip ln)); reflexivity.
Qed.

Lemma distinct_length (l : list string) :
  (List.length (distinct l) <= List.length l)%nat.
Proof.
  induction l as [| x r IH]; [apply Nat.le_refl |].
  cbn [distinct]. destruct (str_in x r); cbn [List.length]; lia.
Qed.

(** *** [_kvt4_is_valid_line] *)

Lemma forallb_nonempty_strip (parts : list string) :
  Forall (fun p => strip p <> EmptyString) parts ->
  forallb (fun p => negb (is_empty p)) (map strip parts) = true.
Proof.
  induction 1 as [| p r Hp Hr IH]; [reflexivity |].
  cbn [map forallb]. rewrite IH, andb_true_r.
  destruct (strip p); [contradiction | reflexivity].
Qed.


(** *** Properties of the filters *)

(** X1.  [_normalize_binary_flag_values] never drops or adds a line, and
    normalising twice gives the same lines as normalising once. *)
Theorem binary_flags_idempotent (lines : list string) :
  List.length (_normalize_binary_flag_values lines) = List.length lines
  /\ _normalize_binary_flag_values (_normalize_binary_flag_values lines)
     = _normalize_binary_flag_values lines.
Proof.
  rewrite !binary_flags_map. split.
  - apply length_map.
  - rewrite map_map. apply map_ext. intros ln. apply reformat_flags_idem.
Qed.

(** X2.  No four-field line that [_drop_low_information_negatives] returns
    is a [no] record of a MEDICATIONS binary flag or of a specific
    PROCEDURES keyword, and a second pass changes nothing. *)
Theorem low_information_negatives_gone (lines : list string) :
  (forall ln c k v t,
      In ln (_drop_low_information_negatives lines) ->
      split_on "|" ln = [c; k; v; t] ->
      String.eqb (casefold (strip v)) "no" = true ->
      (String.eqb (upper (strip c)) "MEDICATIONS" && str_in (strip k) med_binary = false)
      /\ (String.eqb (upper (strip c)) "PROCEDURES" && str_in (strip k) proc_specific
          = false))
  /\ _drop_low_information_negatives (_drop_low_information_negatives lines)
     = _drop_low_information_negatives lines.
Proof.
  rewrite !low_information_flat_map. split.
  - intros ln c k v t Hin Hs Hno.
    apply in_flat_map in Hin as (x & _ & Hin).
    apply low_information_lines_stable in Hin.
    unfold low_information_lines in Hin. rewrite Hs in Hin.
    destruct (low_information (strip c) (strip k) (strip v)) eqn:El; [discriminate |].
    unfold low_information in El. rewrite Hno in El.
    destruct (String.eqb (upper (strip c)) "MEDICATIONS");
      destruct (String.eqb (upper (strip c)) "PROCEDURES");
      destruct (str_in (strip k) med_binary);
      destruct (str_in (strip k) proc_specific);
      cbn [andb orb] in El; rewrite ?orb_true_r in El; try discriminate El;
      split; reflexivity.
  - apply flat_map_idem_on. apply low_information_lines_stable.
Qed.

(** X3.  Every line that [_drop_stage2_prompt_leakage_lines] returns is
    non-empty and has no surrounding blanks, and filtering its output again
    changes nothing. *)
Theorem prompt_leakage_filter_idempotent (lines : list string) :
  Forall (fun s => s <> EmptyString /\ strip s = s)
         (_drop_stage2_prompt_leakage_lines lines)
  /\ _drop_stage2_prompt_leakage_lines (_drop_stage2_prompt_leakage_lines lines)
     = _drop_stage2_prompt_leakage_lines lines.
Proof.
  rewrite !leakage_filter.
  set (keep := fun s => negb (is_leak s)).
  assert (Hall : Forall (fun s => keep s = true /\ strip s = s)
                        (filter keep (map strip lines))).
  { apply Forall_forall. intros s Hs. apply filter_In in Hs as [Hm Hk].
    split; [exact Hk |]. apply in_map_iff in Hm as (x & <- & _). apply strip_idem. }
  split.
  - eapply Forall_impl; [| exact Hall]. intros s [Hk Hs]. split; [| exact Hs].
    intros ->. discriminate Hk.
  - induction Hall as [| s r [Hk Hs] Hr IH]; [reflexivity |].
    cbn [map filter]. rewrite Hs, Hk. now rewrite IH.
Qed.

(** X4.  When the Stage-1 Markdown gives no UTILIZATION evidence (no such
    section, or only placeholders in it), the gate removes exactly the
    four-field UTILIZATION records and keeps every other line in order. *)
Theorem utilization_gate_without_evidence (lines : list string) (md_in : string) :
  _utilization_has_stage1_evidence md_in = false ->
  _drop_utilization_without_stage1_evidence lines md_in
  = filter (fun ln => negb (is_utilization_record ln)) lines.
Proof.
  intros H. unfold _drop_utilization_without_stage1_evidence. rewrite H.
  apply utilization_fold.
Qed.

Lemma utilization_gate_without_evidence_witness :
  _drop_utilization_without_stage1_evidence
    ["VITALS|Heart Rate|88|Admission"; "UTILIZATION|ED Visits 6mo|2|Past";
     "utilization | Prior Admissions 12mo | 1 | Past"; "UTILIZATION|x"]
    "## UTILIZATION
Prior Admissions 12mo=not stated; ED Visits 6mo=unknown"
  = ["VITALS|Heart Rate|88|Admission"; "UTILIZATION|x"].
Proof.
  rewrite utilization_gate_without_evidence; reflexivity.
Defined.

(** X5.  [_parse_stop_list] returns either nothing or a non-empty list of
    tokens, each non-empty, without surrounding blanks and without a
    comma. *)
Theorem parse_stop_list_tokens (stop_args : option (list string))
  (out : list string) :
  _parse_stop_list stop_args = Some out ->
  out <> [] /\ Forall (fun t => t <> EmptyString /\ strip t = t
                                /\ mem_char "," t = false) out.
Proof.
  unfold _parse_stop_list.
  destruct stop_args as [[| item items] |]; try discriminate.
  set (res := fold_left _ (item :: items) []).
  assert (Hres : Forall stop_token res).
  { unfold res. generalize (item :: items) as l.
    assert (H : forall l acc, Forall stop_token acc ->
              Forall stop_token
                (fold_left
                   (fun out item =>
                      fold_left
                        (fun out s => let t := strip s in
                                      if is_empty t then out else (out ++ [t])%list)
                        (split_on "," item) out) l acc)).
    { induction l as [| x r IH]; intros acc Hacc; simpl; [exact Hacc |].
      apply IH. now apply stop_inner. }
    intros l. apply H. constructor. }
  destruct res as [| x r]; [discriminate |].
  intros H. injection H as <-. split; [discriminate | exact Hres].
Qed.

Lemma parse_stop_list_tokens_witness :
  ["END"; "x"; "y"] <> []
  /\ Forall (fun t => t <> EmptyString /\ strip t = t /\ mem_char "," t = false)
            ["END"; "x"; "y"].
Proof.
  apply (parse_stop_list_tokens (Some [" END "; "x,,y "])). reflexivity.
Defined.

(** X6.  In the lines kept by [_compact_stage1_markdown], every section
    header is followed by content: the next non-blank line exists and is
    not another header. *)
Theorem compact_keeps_no_empty_section (md : string) (l1 l2 : list string)
  (h : string) :
  compact_lines md = (l1 ++ h :: l2)%list ->
  is_header h = true -> has_content l2 = true.
Proof. unfold compact_lines. apply drop_empty_headers_content. Qed.

Lemma compact_keeps_no_empty_section_witness :
  has_content ["Heart Rate=88"] = true.
Proof.
  apply (compact_keeps_no_empty_section
           "## PROCEDURES
Surgery=not stated
## VITALS
Heart Rate=88" [] ["Heart Rate=88"] "## VITALS"); reflexivity.
Defined.

(** X7.  The counters of [_compute_kvt4_format_stats] are consistent: every
    candidate line is either valid or invalid, the recovered lines are among
    the invalid ones, so the effective count never exceeds the total and the
    effective rate lies between 0 and 1. *)
Theorem format_stats_consistent (raw_text : string) (extracted : list string)
  (output_mode : string) (retry : bool) (after_sanitize : nat) :
  let st := _compute_kvt4_format_stats raw_text extracted output_mode retry
                                       after_sanitize in
  (raw_valid_kvt4_lines st + raw_invalid_lines st = raw_total_lines st)%nat
  /\ (raw_recovered_cluster_prefix_lines st <= raw_invalid_lines st)%nat
  /\ (raw_effective_valid_kvt4_lines st <= raw_total_lines st)%nat
  /\ (raw_duplicates_exact st <= raw_valid_kvt4_lines st)%nat
  /\ (0 <= raw_effective_valid_rate st <= 1)%Q.
Proof.
  unfold _compute_kvt4_format_stats. cbv zeta.
  set (is_json := String.eqb (casefold (strip output_mode)) "json").
  set (tmp := filter _ (nonblank_stripped (splitlines raw_text))).
  set (triple := if is_json then _ else _).
  assert (Hc : Forall nonempty (fst (fst triple))).
  { unfold triple. destruct is_json.
    - apply nonblank_stripped_nonempty.
    - apply kvt3_fold_nonempty; [| constructor].
      unfold tmp. apply Forall_forall. intros s Hs. apply filter_In in Hs as [Hs _].
      revert s Hs. apply Forall_forall. apply nonblank_stripped_nonempty. }
  destruct triple as [[cands n3] ex3]. cbn [fst] in Hc.
  cbn [raw_valid_kvt4_lines raw_invalid_lines raw_total_lines
       raw_recovered_cluster_prefix_lines raw_effective_valid_kvt4_lines
       raw_duplicates_exact raw_effective_valid_rate].
  set (valid := filter _kvt4_is_valid_line cands).
  set (invalid := filter (fun ln => negb (is_empty ln) && negb (_kvt4_is_valid_line ln))
                         cands).
  set (recovered := if is_json then 0
                    else List.length (filter is_recovered_cluster_prefix cands)).
  assert (Hpart : (List.length valid + List.length invalid = List.length cands)%nat).
  { apply filter_partition_length. intros x Hx.
    rewrite Forall_forall in Hc. rewrite (Hc x Hx). reflexivity. }
  assert (Hrec : (recovered <= List.length invalid)%nat).
  { unfold recovered. destruct is_json; [apply Nat.le_0_l |].
    apply filter_length_le_impl. intros x Hx Hr.
    rewrite Forall_forall in Hc. rewrite (Hc x Hx).
    now rewrite (recovered_not_valid x Hr). }
  split; [exact Hpart |]. split; [exact Hrec |]. split; [lia |].
  split; [pose proof (distinct_length valid); lia |].
  destruct cands as [| c0 cr] eqn:Ecands.
  - split; [apply Qle_refl | discriminate].
  - rewrite <- Ecands in *.
    assert (Hpos : (0 < List.length cands)%nat) by (rewrite Ecands; simpl; lia).
    set (a := (List.length valid + recovered)%nat).
    assert (Ha : (a <= List.length cands)%nat) by (unfold a; lia).
    assert (Hb : (0 < inject_Z (Z.of_nat (List.length cands)))%Q).
    { change 0%Q with (inject_Z 0). rewrite <- Zlt_Qlt. lia. }
    split.
    + apply Qle_shift_div_l; [exact Hb |]. rewrite Qmult_0_l.
      change 0%Q with (inject_Z 0). rewrite <- Zle_Qle. lia.
    + apply Qle_shift_div_r; [exact Hb |]. rewrite Qmult_1_l.
      rewrite <- Zle_Qle. lia.
Qed.

(** X8.  A four-field line that the extractor's [_looks_like_kvt_fact]
    accepts is a valid KVT4 line for [_kvt4_is_valid_line]. *)
Theorem looks_like_kvt4_is_valid (allow_kvt3 : bool) (line : string) :
  KvtHelpers._looks_like_kvt_fact allow_kvt3 line = true ->
  count_char "|" (strip line) = 3 ->
  _kvt4_is_valid_line line = true.
Proof.
  unfold KvtHelpers._looks_like_kvt_fact, _kvt4_is_valid_line. cbv zeta.
  intros H Hc.
  destruct (is_empty line); [discriminate |].
  destruct ((String.length (strip line) <? 5)%nat || _) eqn:Elen; [discriminate |].
  apply orb_false_elim in Elen as [Elen _].
  apply Nat.ltb_ge in Elen.
  assert (Hne : is_empty (strip line) = false).
  { destruct (strip line); [simpl in Elen; lia | reflexivity]. }
  rewrite Hne, Hc. cbn [Nat.eqb negb].
  rewrite length_map, split_on_length, Hc. cbn [Nat.eqb andb].
  repeat match type of H with
         | (if ?b then false else _) = true => destruct b; [discriminate H |]
         end.
  exact H.
Qed.

Lemma looks_like_kvt4_is_valid_witness :
  _kvt4_is_valid_line " VITALS | Heart Rate | 88 | Admission " = true.
Proof.
  apply (looks_like_kvt4_is_valid true); reflexivity.
Defined.

End PostFilterProofs.

(* ===================================================================== *)
(** ** The semantic post-processing gate *)
(* ===================================================================== *)

Module GateProofs.
Import PyStr PyStrFacts PyStrMore PostFilter.
Import Stage2 (Rec4, mkRec4, r_cluster, r_keyword, r_value, r_ts).

(** The test the gate applies to a line: four fields, the given cluster
    and the given normalised keyword. *)
Definition has_gate_key (c nk : string) (ln : string) : bool :=
  match map strip (split_on "|" ln) with
  | [c'; k; _; _] => String.eqb (upper c') c && String.eqb (_semantic_key_norm k) nk
  | _ => false
  end.

Definition clean (s : string) : Prop := strip s = s /\ nopipe s.

Definition wf_item (it : Item) : Prop :=
  clean (r_cluster it) /\ clean (r_keyword it) /\ clean (r_value it)
  /\ clean (r_ts it).

Lemma split_strip_clean (ln : string) :
  Forall clean (map strip (split_on "|" ln)).
Proof.
  apply Forall_map. eapply Forall_impl; [| apply nopipe_fields].
  intros p Hp. split; [apply strip_idem | now apply nopipe_strip].
Qed.

Lemma fields_fmt_item (it : Item) :
  wf_item it ->
  map strip (split_on "|" (fmt_item it))
  = [r_cluster it; r_keyword it; r_value it; r_ts it].
Proof.
  intros ([Hc Hnc] & [Hk Hnk] & [Hv Hnv] & [Ht Hnt]).
  unfold fmt_item, fmt4. rewrite fields4 by assumption.
  cbn [map]. now rewrite Hc, Hk, Hv, Ht.
Qed.

Lemma has_gate_key_fmt (c nk : string) (it : Item) :
  wf_item it ->
  has_gate_key c nk (fmt_item it)
  = String.eqb (upper (r_cluster it)) c
    && String.eqb (_semantic_key_norm (r_keyword it)) nk.
Proof. intros H. unfold has_gate_key. now rewrite fields_fmt_item. Qed.

(** *** The dictionaries of the gate *)

Definition entry_ok (P : Item -> Prop) (e : string * list Item) : Prop :=
  Forall (fun it => P it /\ _semantic_key_norm (r_keyword it) = fst e) (snd e).

Definition dict_ok (P : Item -> Prop) (d : list (string * list Item)) : Prop :=
  NoDup (map fst d) /\ Forall (entry_ok P) d.

Lemma setdefault_append_keys (k : string) (it : Item) (d : list (string * list Item))
  (x : string) :
  In x (map fst (setdefault_append k it d)) -> x = k \/ In x (map fst d).
Proof.
  induction d as [| [k' l] r IH]; simpl.
  - intros [<- | []]. now left.
  - destruct (String.eqb k k') eqn:E; simpl.
    + intros [<- | H]; [right; now left | right; now right].
    + intros [<- | H]; [right; now left |].
      destruct (IH H) as [-> | Hr]; [now left | right; now right].
Qed.

Lemma setdefault_append_ok (P : Item -> Prop) (k : string) (it : Item)
  (d : list (string * list Item)) :
  P it -> _semantic_key_norm (r_keyword it) = k ->
  dict_ok P d -> dict_ok P (setdefault_append k it d).
Proof.
  intros HP Hk [Hnd Hall]. induction d as [| [k' l] r IH]; simpl.
  - split; [repeat constructor; intros [] |].
    constructor; [| constructor]. constructor; [now split | constructor].
  - inversion Hnd as [| ? ? Hnotin Hnd']; subst.
    inversion Hall as [| ? ? He Hall']; subst.
    destruct (String.eqb k' (_semantic_key_norm (r_keyword it))) eqn:E.
    + apply String.eqb_eq in E. rewrite String.eqb_sym, (proj2 (String.eqb_eq _ _) E).
      split; [exact Hnd |]. constructor; [| exact Hall'].
      unfold entry_ok in *. cbn [fst snd] in *. apply Forall_app. split; [exact He |].
      constructor; [| constructor]. split; [exact HP | now symmetry].
    + rewrite String.eqb_sym, E. destruct (IH Hnd' Hall') as [Hnd2 Hall2].
      split.
      * simpl. constructor; [| exact Hnd2].
        intros Hin. apply setdefault_append_keys in Hin as [Heq | Hin];
          [| contradiction].
        rewrite Heq, String.eqb_refl in E. discriminate.
      * constructor; assumption.
Qed.

(** *** The loop invariant *)

Definition plain_line (ln : string) : Prop :=
  exists it, ln = fmt_item it /\ wf_item it
             /\ upper (r_cluster it) <> "PROBLEMS"
             /\ upper (r_cluster it) <> "SYMPTOMS".

Definition problem_item (it : Item) : Prop :=
  wf_item it /\ upper (r_cluster it) = "PROBLEMS".

Definition symptom_item (it : Item) : Prop :=
  wf_item it /\ upper (r_cluster it) = "SYMPTOMS"
  /\ _is_fragmented_symptom_keyword (r_keyword it) = false.

Definition gate_inv (st : GateState) : Prop :=
  Forall plain_line (non_semantic st)
  /\ dict_ok problem_item (problems st)
  /\ dict_ok symptom_item (symptoms st)
  /\ Forall plain_line (passthrough_semantic st).

Lemma gate_step_inv (st : GateState) (ln : string) :
  gate_inv st -> gate_inv (gate_step st ln).
Proof.
  intros Hinv. pose proof Hinv as (Hn & Hp & Hs & Hpass). unfold gate_step.
  pose proof (split_strip_clean ln) as Hc.
  destruct (map strip (split_on "|" ln)) as [| c [| k [| v [| t [| x r]]]]];
    try exact Hinv.
  inversion Hc as [| ? ? H0 Hc1]; subst.
  inversion Hc1 as [| ? ? H1 Hc2]; subst.
  inversion Hc2 as [| ? ? H2 Hc3]; subst.
  inversion Hc3 as [| ? ? H3 _]; subst.
  assert (Hwf : wf_item (mkRec4 c k v t)) by (repeat split; assumption || apply H0
                                              || apply H1 || apply H2 || apply H3).
  cbv zeta.
  destruct (String.eqb (upper c) "PROBLEMS") eqn:Ep.
  { apply String.eqb_eq in Ep.
    split; [exact Hn |]. split; [| split; assumption]. cbn [problems].
    apply setdefault_append_ok; [now split | reflexivity | exact Hp]. }
  destruct (String.eqb (upper c) "SYMPTOMS") eqn:Es.
  { apply String.eqb_eq in Es.
    destruct (_is_fragmented_symptom_keyword k) eqn:Ef; [exact Hinv |].
    split; [exact Hn |]. split; [exact Hp |]. split; [| exact Hpass].
    cbn [symptoms].
    apply setdefault_append_ok; [| reflexivity | exact Hs].
    split; [exact Hwf |]. split; assumption. }
  assert (Hplain : plain_line (fmt_item (mkRec4 c k v t))).
  { exists (mkRec4 c k v t). split; [reflexivity |]. split; [exact Hwf |].
    cbn [r_cluster]. split; intros Heq; rewrite Heq in *; discriminate. }
  destruct (str_in (upper c) ["MEDICATIONS"; "PROCEDURES"]).
  - split; [exact Hn |]. split; [exact Hp |]. split; [exact Hs |].
    cbn [passthrough_semantic].
    apply Forall_app. split; [assumption | now constructor].
  - split; [| split; [exact Hp | split; [exact Hs | exact Hpass]]].
    cbn [non_semantic].
    apply Forall_app. split; [assumption | now constructor].
Qed.

Lemma gate_fold_inv (lines : list string) (st : GateState) :
  gate_inv st -> gate_inv (fold_left gate_step lines st).
Proof.
  revert st. induction lines as [| x r IH]; intros st H; simpl; [exact H |].
  apply IH. now apply gate_step_inv.
Qed.

Lemma gate_inv_init : gate_inv (mkGate [] [] [] []).
Proof.
  split; [constructor |]. split; [split; constructor |].
  split; [split; constructor | constructor].
Qed.

(** *** Counting the lines of one key *)

Lemma pick_cases (prefers : Item -> bool) (items : list Item) :
  pick prefers items = [] \/ exists it, In it items /\ pick prefers items = [fmt_item it].
Proof.
  unfold pick. destruct items as [| a [| b r]]; [now left | right | right].
  - exists a. split; [now left | reflexivity].
  - destruct (List.find prefers (a :: b :: r)) as [it |] eqn:E.
    + exists it. split; [| reflexivity]. now apply find_some in E as [Hin _].
    + exists a. split; [now left | reflexivity].
Qed.

Lemma plain_no_key (c nk : string) (l : list string) :
  In c ["PROBLEMS"; "SYMPTOMS"] -> Forall plain_line l ->
  filter (has_gate_key c nk) l = [].
Proof.
  intros Hc Hl. apply Stage2Proofs.filter_none. intros ln Hin.
  rewrite Forall_forall in Hl. destruct (Hl ln Hin) as (it & -> & Hwf & Hp & Hs).
  rewrite has_gate_key_fmt by assumption.
  destruct (String.eqb (upper (r_cluster it)) c) eqn:E; [| reflexivity].
  apply String.eqb_eq in E.
  destruct Hc as [<- | [<- | []]]; contradiction.
Qed.

Lemma dict_other_cluster (P : Item -> Prop) (prefers : Item -> bool)
  (c c0 nk : string) (d : list (string * list Item)) :
  (forall it, P it -> wf_item it /\ upper (r_cluster it) = c0) -> c <> c0 ->
  dict_ok P d ->
  filter (has_gate_key c nk) (flat_map (fun e => pick prefers (snd e)) d) = [].
Proof.
  intros HP Hne [_ Hall]. apply Stage2Proofs.filter_none. intros ln Hin.
  apply in_flat_map in Hin as (e & He & Hin).
  rewrite Forall_forall in Hall. specialize (Hall e He).
  destruct (pick_cases prefers (snd e)) as [E | (it & Hit & E)];
    rewrite E in Hin; [destruct Hin |].
  destruct Hin as [<- | []].
  unfold entry_ok in Hall. rewrite Forall_forall in Hall.
  destruct (Hall it Hit) as [Hp _]. destruct (HP it Hp) as [Hwf Hc].
  rewrite has_gate_key_fmt by assumption. rewrite Hc.
  destruct (String.eqb c0 c) eqn:E'; [| reflexivity].
  apply String.eqb_eq in E'. now subst.
Qed.

Lemma dict_one_per_key (P : Item -> Prop) (prefers : Item -> bool)
  (c nk : string) (d : list (string * list Item)) :
  (forall it, P it -> wf_item it) ->
  dict_ok P d ->
  (List.length (filter (has_gate_key c nk)
                       (flat_map (fun e => pick prefers (snd e)) d)) <= 1)%nat.
Proof.
  intros HP [Hnd Hall].
  rewrite flat_map_concat_map.
  assert (Hkey : forall e ln, In e d -> In ln (pick prefers (snd e)) ->
                              has_gate_key c nk ln = true -> fst e = nk).
  { intros e ln He Hin Hk. rewrite Forall_forall in Hall. specialize (Hall e He).
    destruct (pick_cases prefers (snd e)) as [E | (it & Hit & E)];
      rewrite E in Hin; [destruct Hin |].
    destruct Hin as [<- | []].
    unfold entry_ok in Hall. rewrite Forall_forall in Hall.
    destruct (Hall it Hit) as [Hp Hn].
    rewrite has_gate_key_fmt in Hk by now apply HP.
    apply andb_true_iff in Hk as [_ Hk]. apply String.eqb_eq in Hk. congruence. }
  clear Hall. induction d as [| e r IH]; [simpl; lia |].
  inversion Hnd as [| ? ? Hnotin Hnd']; subst.
  cbn [map List.concat]. rewrite filter_app, length_app.
  assert (IHr : (List.length (filter (has_gate_key c nk)
                    (List.concat (map (fun e => pick prefers (snd e)) r))) <= 1)%nat).
  { apply IH; [exact Hnd' |]. intros e' ln He'. apply Hkey. now right. }
  destruct (filter (has_gate_key c nk) (pick prefers (snd e))) as [| ln0 rest] eqn:Ef;
    [simpl; exact IHr |].
  assert (Hln0 : In ln0 (filter (has_gate_key c nk) (pick prefers (snd e))))
    by (rewrite Ef; now left).
  apply filter_In in Hln0 as [Hin0 Hk0].
  assert (He : fst e = nk) by (apply (Hkey e ln0); [now left | assumption..]).
  assert (Hrest : filter (has_gate_key c nk)
                    (List.concat (map (fun e => pick prefers (snd e)) r)) = []).
  { apply Stage2Proofs.filter_none. intros ln Hln.
    destruct (has_gate_key c nk ln) eqn:Ek; [| reflexivity].
    exfalso. apply in_concat in Hln as (l & Hl & Hln).
    apply in_map_iff in Hl as (e' & <- & He').
    apply Hnotin. rewrite He, <- (Hkey e' ln (or_intror He') Hln Ek).
    now apply in_map. }
  rewrite Hrest, Nat.add_0_r.
  assert (Hlen : (List.length (pick prefers (snd e)) <= 1)%nat).
  { destruct (pick_cases prefers (snd e)) as [E | (it & _ & E)]; rewrite E; simpl; lia. }
  rewrite <- Ef.
  pose proof (filter_length_le (has_gate_key c nk) (pick prefers (snd e))). lia.
Qed.

(** X9.  After [_semantic_postprocess_gate] at most one PROBLEMS line and
    at most one SYMPTOMS line remain for every normalised keyword, and no
    remaining SYMPTOMS line has a fragmented keyword. *)
Theorem semantic_gate_one_line_per_keyword (lines : list string) :
  (forall c nk, In c ["PROBLEMS"; "SYMPTOMS"] ->
     (List.length (filter (has_gate_key c nk) (_semantic_postprocess_gate lines))
      <= 1)%nat)
  /\ (forall ln c k v t,
        In ln (_semantic_postprocess_gate lines) ->
        map strip (split_on "|" ln) = [c; k; v; t] ->
        upper c = "SYMPTOMS" ->
        _is_fragmented_symptom_keyword k = false).
Proof.
  unfold _semantic_postprocess_gate.
  pose proof (gate_fold_inv lines _ gate_inv_init) as (Hn & Hp & Hs & Hpass).
  set (st := fold_left gate_step lines (mkGate [] [] [] [])) in *.
  split.
  - intros c nk Hc.
    rewrite (Stage2Proofs.filter_length_perm _ _ _ (Stage2Proofs.sort_lines_perm _)).
    unfold gate_output. rewrite !filter_app, !length_app.
    rewrite (plain_no_key c nk _ Hc Hn), (plain_no_key c nk _ Hc Hpass).
    cbn [List.length]. rewrite Nat.add_0_r.
    destruct Hc as [<- | [<- | []]].
    + rewrite (dict_other_cluster symptom_item prefers_symptom "PROBLEMS" "SYMPTOMS");
        [| intros it (Hw & Hc & _); now split | discriminate | exact Hs].
      cbn [List.length]. rewrite Nat.add_0_r.
      apply (dict_one_per_key problem_item); [intros it [Hw _]; exact Hw | exact Hp].
    + rewrite (dict_other_cluster problem_item prefers_problem "SYMPTOMS" "PROBLEMS");
        [| intros it (Hw & Hc); now split | discriminate | exact Hp].
      cbn [List.length app].
      apply (dict_one_per_key symptom_item); [intros it [Hw _]; exact Hw | exact Hs].
  - intros ln c k v t Hin Hf Hc.
    apply (Permutation_in _ (Stage2Proofs.sort_lines_perm _)) in Hin.
    unfold gate_output in Hin.
    assert (Hplain : forall l, Forall plain_line l -> In ln l -> False).
    { intros l Hl Hl'. rewrite Forall_forall in Hl.
      destruct (Hl ln Hl') as (it & -> & Hwf & _ & Hns).
      rewrite fields_fmt_item in Hf by assumption.
      injection Hf as <- _ _ _. contradiction. }
    assert (Hdict : forall (P : Item -> Prop) prefers d,
               dict_ok P d ->
               In ln (flat_map (fun e => pick prefers (snd e)) d) ->
               exists it, P it /\ ln = fmt_item it).
    { intros P prefers d [_ Hall] Hl.
      apply in_flat_map in Hl as (e & He & Hl).
      rewrite Forall_forall in Hall. specialize (Hall e He).
      destruct (pick_cases prefers (snd e)) as [E | (it & Hit & E)];
        rewrite E in Hl; [destruct Hl |].
      destruct Hl as [<- | []].
      unfold entry_ok in Hall. rewrite Forall_forall in Hall.
      destruct (Hall it Hit) as [HP _]. now exists it. }
    apply in_app_or in Hin as [Hin | Hin]; [destruct (Hplain _ Hn Hin) |].
    apply in_app_or in Hin as [Hin | Hin].
    { destruct (Hdict _ _ _ Hp Hin) as (it & [Hwf Hpc] & ->).
      rewrite fields_fmt_item in Hf by assumption.
      injection Hf as <- _ _ _. rewrite Hpc in Hc. discriminate. }
    apply in_app_or in Hin as [Hin | Hin]; [| destruct (Hplain _ Hpass Hin)].
    destruct (Hdict _ _ _ Hs Hin) as (it & (Hwf & _ & Hfrag) & ->).
    rewrite fields_fmt_item in Hf by assumption.
    injection Hf as _ <- _ _. exact Hfrag.
Qed.

End GateProofs.

(* ===================================================================== *)
(** ** Risk engine: the parsed fact store, patterns, empty input *)
(* ===================================================================== *)

Module RiskStore.
Import PyStr PyStrFacts PyStrMore Risk RiskSpec RiskProofs RiskParser RiskReport.

(** *** The store as a dictionary *)

Definition total (facts : Facts) : nat :=
  list_sum (map (fun e => List.length (snd e)) facts).

Lemma n_stored_total (facts : Facts) : n_stored facts = total facts.
Proof.
  unfold n_stored, total.
  assert (H : forall acc,
             fold_left (fun n (e : string * list ParsedFact) =>
                          (n + List.length (snd e))%nat) facts acc
             = (acc + list_sum (map (fun e => List.length (snd e)) facts))%nat).
  { induction facts as [| e r IH]; intros acc; simpl; [lia |].
    rewrite IH. lia. }
  now rewrite H.
Qed.

Lemma total_append (c : string) (f : ParsedFact) (facts : Facts) :
  total (facts_append c f facts) = S (total facts).
Proof.
  unfold total. induction facts as [| [k l] r IH]; simpl; [reflexivity |].
  destruct (String.eqb c k); simpl.
  - rewrite length_app. simpl. lia.
  - rewrite IH. lia.
Qed.

Lemma facts_append_keys (c : string) (f : ParsedFact) (facts : Facts) (x : string) :
  In x (map fst (facts_append c f facts)) -> x = c \/ In x (map fst facts).
Proof.
  induction facts as [| [k l] r IH]; simpl.
  - intros [<- | []]. now left.
  - destruct (String.eqb c k) eqn:E; simpl.
    + intros [<- | H]; [right; now left | right; now right].
    + intros [<- | H]; [right; now left |].
      destruct (IH H) as [-> | Hr]; [now left | right; now right].
Qed.

Lemma facts_append_NoDup (c : string) (f : ParsedFact) (facts : Facts) :
  NoDup (map fst facts) -> NoDup (map fst (facts_append c f facts)).
Proof.
  induction facts as [| [k l] r IH]; simpl; intros Hnd.
  - repeat constructor. intros [].
  - inversion Hnd as [| ? ? Hnotin Hnd']; subst.
    destruct (String.eqb c k) eqn:E; simpl; [exact Hnd |].
    constructor; [| now apply IH].
    intros Hin. apply facts_append_keys in Hin as [-> | Hin]; [| contradiction].
    rewrite String.eqb_refl in E. discriminate.
Qed.

Lemma facts_append_entries (c : string) (f : ParsedFact) (facts : Facts)
  (c' : string) (l' : list ParsedFact) (g : ParsedFact) :
  In (c', l') (facts_append c f facts) -> In g l' ->
  (exists l, In (c', l) facts /\ In g l) \/ (c' = c /\ g = f).
Proof.
  induction facts as [| [k l] r IH]; simpl.
  - intros [H | []] Hg. injection H as <- <-. destruct Hg as [<- | []]. now right.
  - destruct (String.eqb c k) eqn:E; simpl.
    + apply String.eqb_eq in E. subst k.
      intros [H | H] Hg.
      * injection H as <- <-. apply in_app_or in Hg as [Hg | [<- | []]].
        -- left. exists l. split; [now left | exact Hg].
        -- now right.
      * left. exists l'. split; [now right | exact Hg].
    + intros [H | H] Hg.
      * injection H as <- <-. left. exists l. split; [now left | exact Hg].
      * destruct (IH H Hg) as [(l0 & Hl0 & Hg0) | Hr]; [| now right].
        left. exists l0. split; [now right | exact Hg0].
Qed.

(** *** What the parser guarantees of a stored fact *)

Definition fact_ok (f : ParsedFact) : Prop :=
  str_in (cluster f) VALID_CLUSTERS = true
  /\ (str_in (cluster f) NUMERIC_CLUSTERS = true ->
      is_numeric f = true /\ exists q, value f = VNum q)
  /\ (is_numeric f = true -> exists q, value f = VNum q)
  /\ (is_numeric f = false -> plausibility_ok f = true).

Definition store_ok (facts : Facts) : Prop :=
  NoDup (map fst facts)
  /\ forall c l f, In (c, l) facts -> In f l -> cluster f = c /\ fact_ok f.

Lemma store_ok_append (f : ParsedFact) (facts : Facts) :
  fact_ok f -> store_ok facts -> store_ok (facts_append (cluster f) f facts).
Proof.
  intros Hf [Hnd Hall]. split; [now apply facts_append_NoDup |].
  intros c l g Hin Hg.
  destruct (facts_append_entries _ _ _ _ _ _ Hin Hg) as [(l0 & Hl0 & Hg0) | [-> ->]].
  - exact (Hall c l0 g Hl0 Hg0).
  - now split.
Qed.

Lemma parse_value_ok (self : ReadmissionRiskEngine) (c kw v : string)
  (pv : Value) (isnum : bool) :
  parse_value self c kw v = Some (pv, isnum) ->
  (str_in c NUMERIC_CLUSTERS = true -> isnum = true)
  /\ (isnum = true -> exists q, pv = VNum q).
Proof.
  unfold parse_value.
  destruct (str_in c NUMERIC_CLUSTERS) eqn:En; cbn [orb].
  - destruct (_try_parse_float self v) as [x |]; [| discriminate].
    intros H. injection H as <- <-. split; [reflexivity | eauto].
  - destruct (String.eqb _ "range").
    + destruct (_try_parse_float self v) as [x |]; [| discriminate].
      intros H. injection H as <- <-. split; [discriminate | eauto].
    + destruct (String.eqb _ "mixed").
      * destruct (_try_parse_float self v) as [x |];
          intros H; injection H as <- <-; split; try discriminate; eauto.
      * intros H. injection H as <- <-. split; discriminate.
Qed.

Lemma classify_candidate_ok (self : ReadmissionRiskEngine) (ln : string)
  (f : ParsedFact) :
  classify self ln = Candidate f -> fact_ok f.
Proof.
  unfold classify.
  destruct (is_empty (strip ln) || startswith (strip ln) "#"); [discriminate |].
  destruct (split_on "|" (strip ln)) as [| p0 [| p1 [| p2 [| p3 [| p4 t]]]]];
    try discriminate.
  cbv zeta.
  destruct (str_in (strip p0) VALID_CLUSTERS) eqn:Ev; [| discriminate].
  cbn [negb].
  match goal with
  | |- (if ?b then _ else _) = _ -> _ => destruct b; [discriminate |]
  end.
  match goal with
  | |- (if ?b then _ else _) = _ -> _ => destruct b; [discriminate |]
  end.
  destruct (parse_value self (strip p0) _ (strip p2)) as [[pv isnum] |] eqn:Ep;
    [| discriminate].
  intros H. injection H as <-.
  destruct (parse_value_ok _ _ _ _ _ _ Ep) as [Hn Hq].
  unfold fact_ok. cbn [cluster is_numeric value plausibility_ok].
  split; [exact Ev |]. split; [intros Hc; split; auto |]. split; [exact Hq |].
  intros ->. reflexivity.
Qed.

Lemma classify_expanded_ok (self : ReadmissionRiskEngine) (ln : string)
  (fs : list ParsedFact) :
  classify self ln = Expanded fs -> Forall fact_ok fs.
Proof.
  unfold classify.
  destruct (is_empty (strip ln) || startswith (strip ln) "#"); [discriminate |].
  destruct (split_on "|" (strip ln)) as [| p0 [| p1 [| p2 [| p3 [| p4 t]]]]];
    try discriminate.
  cbv zeta.
  destruct (negb (str_in (strip p0) VALID_CLUSTERS)); [discriminate |].
  assert (Hok : forall it v ts, fact_ok (mkFact "PROBLEMS" it (VStr v) ts false true)).
  { intros it v ts. unfold fact_ok. cbn [cluster is_numeric value plausibility_ok].
    repeat split; discriminate. }
  match goal with
  | |- (if ?b then _ else _) = _ -> _ => destruct b
  end.
  { intros H. inversion H. apply Forall_forall. intros f Hin.
    apply in_map_iff in Hin as (it & <- & _). apply Hok. }
  match goal with
  | |- (if ?b then _ else _) = _ -> _ => destruct b
  end.
  { intros H. inversion H. apply Forall_forall. intros f Hin.
    apply in_map_iff in Hin as (it & <- & _). apply Hok. }
  destruct (parse_value self (strip p0) _ (strip p2)) as [[pv isnum] |];
    discriminate.
Qed.

(** The number of times a line is counted, as parsed or as dropped. *)
Definition line_weight (self : ReadmissionRiskEngine) (ln : string) : nat :=
  match classify self ln with
  | Skipped => 0
  | Rejected => 1
  | Expanded fs => List.length fs
  | Candidate _ => 1
  end.

Definition state_ok (st : ParseState) : Prop :=
  store_ok (ps_facts st) /\ n_parsed st = total (ps_facts st).

Lemma add_fact_ok (st : ParseState) (f : ParsedFact) :
  fact_ok f -> state_ok st -> state_ok (add_fact st f).
Proof.
  intros Hf [Hs Hn]. split; cbn [add_fact ps_facts n_parsed].
  - now apply store_ok_append.
  - now rewrite total_append, Hn.
Qed.

Lemma fold_add_fact_ok (fs : list ParsedFact) :
  Forall fact_ok fs -> forall st, state_ok st ->
  state_ok (fold_left add_fact fs st)
  /\ (n_parsed (fold_left add_fact fs st) + n_dropped (fold_left add_fact fs st)
      = n_parsed st + n_dropped st + List.length fs)%nat.
Proof.
  induction 1 as [| f r Hf Hr IH]; intros st Hst; simpl; [split; [exact Hst | lia] |].
  destruct (IH (add_fact st f) (add_fact_ok st f Hf Hst)) as [Hok Hcount].
  split; [exact Hok |]. rewrite Hcount. cbn [add_fact n_parsed n_dropped]. lia.
Qed.

Lemma parse_step_ok (self : ReadmissionRiskEngine) (st : ParseState) (ln : string) :
  state_ok st ->
  state_ok (parse_step self st ln)
  /\ (n_parsed (parse_step self st ln) + n_dropped (parse_step self st ln)
      = n_parsed st + n_dropped st + line_weight self ln)%nat.
Proof.
  intros Hst. rewrite parse_step_classify. unfold line_weight.
  destruct (classify self ln) as [| | fs | f] eqn:Ec.
  - split; [exact Hst | lia].
  - split; [exact Hst | cbn [drop_line n_parsed n_dropped]; lia].
  - apply fold_add_fact_ok; [| exact Hst]. now apply (classify_expanded_ok self ln).
  - pose proof (classify_candidate_ok self ln f Ec) as Hf.
    destruct (str_in (cluster f) OBJECTIVE_CLUSTERS).
    + destruct (key_in _ _).
      * split; [exact Hst | cbn [drop_line n_parsed n_dropped]; lia].
      * destruct Hst as [Hs Hn]. split; [split |]; cbn [ps_facts n_parsed n_dropped].
        -- now apply store_ok_append.
        -- now rewrite total_append, Hn.
        -- lia.
    + split; [now apply add_fact_ok |]. cbn [add_fact n_parsed n_dropped]. lia.
Qed.

Lemma parse_fold_ok (self : ReadmissionRiskEngine) (lines : list string) :
  forall st, state_ok st ->
  state_ok (fold_left (parse_step self) lines st)
  /\ (n_parsed (fold_left (parse_step self) lines st)
      + n_dropped (fold_left (parse_step self) lines st)
      = n_parsed st + n_dropped st + list_sum (map (line_weight self) lines))%nat.
Proof.
  induction lines as [| ln r IH]; intros st Hst; simpl; [split; [exact Hst | lia] |].
  destruct (parse_step_ok self st ln Hst) as [Hok Hc].
  destruct (IH _ Hok) as [Hok' Hc']. split; [exact Hok' | lia].
Qed.

Lemma state_ok_init : state_ok (mkPS [] 0 0 []).
Proof. split; [split; [constructor | intros c l f []] | reflexivity]. Qed.

(** X10.  [parse_toon] accounts for every line: [n_parsed] is the number of
    facts in the returned store, and [n_parsed + n_dropped] counts every
    line that is neither blank nor a comment once, an expanded PROBLEMS
    list once per item. *)
Theorem parse_toon_counts (self : ReadmissionRiskEngine) (toon_text : string) :
  let '(facts, parsed, dropped) := parse_toon self toon_text in
  parsed = n_stored facts
  /\ (parsed + dropped
      = list_sum (map (line_weight self) (splitlines (strip toon_text))))%nat.
Proof.
  unfold parse_toon, parse_lines.
  destruct (parse_fold_ok self (splitlines (strip toon_text)) _ state_ok_init)
    as [[_ Hn] Hc].
  split; [now rewrite n_stored_total | exact Hc].
Qed.

(** X11.  In the store that [parse_toon] returns every cluster name occurs
    once, every fact is filed under its own cluster, which is one of the
    nine valid clusters, and every fact of a numeric cluster (VITALS, LABS,
    UTILIZATION) carries a number. *)
Theorem parse_toon_store_well_formed (self : ReadmissionRiskEngine)
  (toon_text : string) :
  let facts := fst (fst (parse_toon self toon_text)) in
  NoDup (map fst facts)
  /\ forall c l f,
       In (c, l) facts -> In f l ->
       cluster f = c
       /\ str_in c VALID_CLUSTERS = true
       /\ (str_in c NUMERIC_CLUSTERS = true ->
           is_numeric f = true /\ exists q, value f = VNum q).
Proof.
  unfold parse_toon, parse_lines. cbn [fst].
  destruct (parse_fold_ok self (splitlines (strip toon_text)) _ state_ok_init)
    as [[[Hnd Hall] _] _].
  split; [exact Hnd |].
  intros c l f Hin Hf. destruct (Hall c l f Hin Hf) as [Hc (Hv & Hnum & _)].
  subst c. repeat split; auto; now apply Hnum.
Qed.

(** *** The pattern detector *)

Definition fires (id : string) (b : Z) (l : list InteractionResult) : Prop :=
  l = [] \/ exists nm, l = [mkInteraction id nm b].

Local Ltac fires_if :=
  cbv zeta;
  match goal with
  | |- fires _ _ (if ?c then _ else _) =>
      destruct c; [right; eexists; reflexivity | now left]
  end.

Lemma sepsis_fires facts : fires "sepsis_pattern" 10 (sepsis_pattern facts).
Proof. unfold sepsis_pattern. fires_if. Qed.
Lemma aki_fires facts : fires "aki_pattern" 8 (aki_pattern facts).
Proof. unfold aki_pattern. fires_if. Qed.
Lemma hf_fires self facts : fires "decompensated_hf" 8 (decompensated_hf self facts).
Proof. unfold decompensated_hf. fires_if. Qed.
Lemma frailty_fires self facts : fires "frailty_syndrome" 6 (frailty_syndrome self facts).
Proof. unfold frailty_syndrome. fires_if. Qed.
Lemma unstable_fires self facts :
  fires "unstable_discharge" 5 (unstable_discharge self facts).
Proof.
  unfold unstable_discharge. cbv zeta.
  destruct (opt_str_in _ ["ama"]); [right; eexists; reflexivity |].
  fires_if.
Qed.
Lemma resp_fires self facts :
  fires "respiratory_failure" 6 (respiratory_failure self facts).
Proof. unfold respiratory_failure. fires_if. Qed.
Lemma metabolic_fires facts : fires "metabolic_crisis" 6 (metabolic_crisis facts).
Proof. unfold metabolic_crisis. fires_if. Qed.
Lemma bleeding_fires self facts : fires "bleeding_risk" 6 (bleeding_risk self facts).
Proof. unfold bleeding_risk. fires_if. Qed.

Lemma fires_bsum (id : string) (b : Z) (l : list InteractionResult) :
  (0 <= b)%Z -> fires id b l -> (0 <= bsum l <= b)%Z.
Proof.
  intros Hb [-> | [nm ->]]; unfold bsum; cbn [map bonus].
  - change (sum_Z []) with 0%Z. lia.
  - rewrite sum_Z_cons. change (sum_Z []) with 0%Z. lia.
Qed.

Lemma fires_ids (id : string) (b : Z) (l : list InteractionResult) :
  fires id b l -> map pattern_id l = [] \/ map pattern_id l = [id].
Proof. intros [-> | [nm ->]]; [now left | now right]. Qed.

Lemma fires_bonus (id : string) (b : Z) (l : list InteractionResult) :
  (5 <= b <= 10)%Z -> fires id b l -> Forall (fun i => (5 <= bonus i <= 10)%Z) l.
Proof. intros Hb [-> | [nm ->]]; repeat constructor; cbn [bonus]; lia. Qed.

(** X12.  Each of the eight patterns of [detect_interactions] fires at most
    once, with its fixed bonus between 5 and 10, so the interaction bonus
    lies between 0 and 55. *)
Theorem interaction_bonus_bounds (self : ReadmissionRiskEngine) (facts : Facts) :
  NoDup (map pattern_id (detect_interactions self facts))
  /\ Forall (fun i => (5 <= bonus i <= 10)%Z) (detect_interactions self facts)
  /\ (0 <= interaction_bonus self facts <= 55)%Z.
Proof.
  split; [| split].
  - unfold detect_interactions. rewrite !map_app.
    destruct (fires_ids _ _ _ (sepsis_fires facts)) as [-> | ->];
    destruct (fires_ids _ _ _ (aki_fires facts)) as [-> | ->];
    destruct (fires_ids _ _ _ (hf_fires self facts)) as [-> | ->];
    destruct (fires_ids _ _ _ (frailty_fires self facts)) as [-> | ->];
    destruct (fires_ids _ _ _ (unstable_fires self facts)) as [-> | ->];
    destruct (fires_ids _ _ _ (resp_fires self facts)) as [-> | ->];
    destruct (fires_ids _ _ _ (metabolic_fires facts)) as [-> | ->];
    destruct (fires_ids _ _ _ (bleeding_fires self facts)) as [-> | ->];
    cbn [app];
    repeat (constructor; [cbn [In]; intuition discriminate |]); constructor.
  - unfold detect_interactions. repeat (apply Forall_app; split).
    + apply (fires_bonus "sepsis_pattern" 10 _ ltac:(lia) (sepsis_fires facts)).
    + apply (fires_bonus "aki_pattern" 8 _ ltac:(lia) (aki_fires facts)).
    + apply (fires_bonus "decompensated_hf" 8 _ ltac:(lia) (hf_fires self facts)).
    + apply (fires_bonus "frailty_syndrome" 6 _ ltac:(lia) (frailty_fires self facts)).
    + apply (fires_bonus "unstable_discharge" 5 _ ltac:(lia) (unstable_fires self facts)).
    + apply (fires_bonus "respiratory_failure" 6 _ ltac:(lia) (resp_fires self facts)).
    + apply (fires_bonus "metabolic_crisis" 6 _ ltac:(lia) (metabolic_fires facts)).
    + apply (fires_bonus "bleeding_risk" 6 _ ltac:(lia) (bleeding_fires self facts)).
  - rewrite interaction_bonus_split.
    pose proof (fires_bsum "sepsis_pattern" 10 _ ltac:(lia) (sepsis_fires facts)).
    pose proof (fires_bsum "aki_pattern" 8 _ ltac:(lia) (aki_fires facts)).
    pose proof (fires_bsum "decompensated_hf" 8 _ ltac:(lia) (hf_fires self facts)).
    pose proof (fires_bsum "frailty_syndrome" 6 _ ltac:(lia) (frailty_fires self facts)).
    pose proof (fires_bsum "unstable_discharge" 5 _ ltac:(lia) (unstable_fires self facts)).
    pose proof (fires_bsum "respiratory_failure" 6 _ ltac:(lia) (resp_fires self facts)).
    pose proof (fires_bsum "metabolic_crisis" 6 _ ltac:(lia) (metabolic_fires facts)).
    pose proof (fires_bsum "bleeding_risk" 6 _ ltac:(lia) (bleeding_fires self facts)).
    lia.
Qed.

End RiskStore.

(* ===================================================================== *)
(** ** Risk engine: concept groups, empty input, confidence, days *)
(* ===================================================================== *)

Module RiskReportProofs.
Import PyStr PyStrFacts PyStrMore Risk RiskProofs RiskReport.
Local Open Scope Z_scope.

(** *** Scoring without facts *)





(** *** Confidence *)

(** X14.  The confidence reported by [score] depends only on the number of
    clusters without facts: [high] for at most two, [medium] for three or
    four, [low] for five or more of the nine. *)
Theorem confidence_by_missing_clusters (facts : Facts) :
  let m := List.length (missing_clusters facts) in
  confidence facts
  = if (m <=? 2)%nat then "high" else if (m <=? 4)%nat then "medium" else "low".
Proof.
  cbv zeta. unfold confidence, completeness.
  assert (Hm : (List.length (missing_clusters facts) <= 9)%nat).
  { unfold missing_clusters.
    etransitivity; [apply filter_length_le | apply Nat.le_refl]. }
  remember (List.length (missing_clusters facts)) as m eqn:Em. clear Em.
  do 10 (destruct m as [| m]; [reflexivity |]).
  lia.
Qed.

(** *** Value normalisers of the DISPOSITION scorer *)

(** X15.  [_normalize_discharge_disposition] and [_normalize_mental_status]
    are idempotent: a normalised value is left as it is. *)
Theorem disposition_normalizers_idempotent (v : string) :
  _normalize_discharge_disposition (_normalize_discharge_disposition v)
  = _normalize_discharge_disposition v
  /\ _normalize_mental_status (_normalize_mental_status v)
     = _normalize_mental_status v.
Proof.
  split.
  - remember (_normalize_discharge_disposition v) as r eqn:Er.
    unfold _normalize_discharge_disposition in Er. cbv zeta in Er.
    destruct (is_empty (strip v)) eqn:Ee.
    { destruct (strip v); [now subst r | discriminate]. }
    destruct (str_in (casefold (strip v)) _) eqn:E1 in Er; [now subst r |].
    destruct (str_in (casefold (strip v)) _) eqn:E2 in Er; [now subst r |].
    destruct (str_in (casefold (strip v)) _) eqn:E3 in Er; [now subst r |].
    subst r. unfold _normalize_discharge_disposition. cbv zeta.
    now rewrite strip_idem, Ee, E1, E2, E3.
  - remember (_normalize_mental_status v) as r eqn:Er.
    unfold _normalize_mental_status in Er. cbv zeta in Er.
    destruct (is_empty (strip v)) eqn:Ee.
    { destruct (strip v); [now subst r | discriminate]. }
    destruct (contains "alert" (casefold (strip v))
              && contains "orient" (casefold (strip v))) eqn:E1; [now subst r |].
    destruct (str_in (casefold (strip v)) _) eqn:E2 in Er; [now subst r |].
    subst r. unfold _normalize_mental_status. cbv zeta.
    now rewrite strip_idem, Ee, E1, E2.
Qed.

(** *** The synonym index *)

Definition lists_key (key : string) (g : GroupDef) : bool :=
  existsb (fun s => String.eqb (lower (strip s)) key) (g_synonyms g).

(** The first group, in file order, with a synonym that normalises to
    [key]. *)
Definition first_group (key : string) (groups : list GroupDef) : option GroupDef :=
  List.find (lists_key key) groups.

Lemma assoc_snoc {A : Type} (k k' : string) (v : A) (l : list (string * A)) :
  assoc k (l ++ [(k', v)])
  = match assoc k l with
    | Some x => Some x
    | None => if String.eqb k k' then Some v else None
    end.
Proof.
  induction l as [| [a b] r IH]; simpl; [reflexivity |].
  destruct (String.eqb k a); [reflexivity | exact IH].
Qed.

Lemma index_add_lookup (id key syn : string) (idx : list (string * string)) :
  assoc key (index_add id idx syn)
  = match assoc key idx with
    | Some x => Some x
    | None => if String.eqb (lower (strip syn)) key then Some id else None
    end.
Proof.
  unfold index_add.
  destruct (assoc (lower (strip syn)) idx) as [x |] eqn:E.
  - destruct (assoc key idx) eqn:Ek; [reflexivity |].
    destruct (String.eqb (lower (strip syn)) key) eqn:Eq; [| reflexivity].
    apply String.eqb_eq in Eq. congruence.
  - rewrite assoc_snoc. destruct (assoc key idx); [reflexivity |].
    now rewrite String.eqb_sym.
Qed.

Lemma index_group_lookup (id key : string) (syns : list string)
  (idx : list (string * string)) :
  assoc key (fold_left (index_add id) syns idx)
  = match assoc key idx with
    | Some x => Some x
    | None =>
        if existsb (fun s => String.eqb (lower (strip s)) key) syns
        then Some id else None
    end.
Proof.
  revert idx. induction syns as [| s r IH]; intros idx; simpl.
  - now destruct (assoc key idx).
  - rewrite IH, index_add_lookup.
    destruct (assoc key idx); [reflexivity |].
    destruct (String.eqb (lower (strip s)) key); reflexivity.
Qed.

Lemma build_index_lookup (key : string) (groups : list GroupDef) :
  assoc key (_build_synonym_index groups)
  = option_map g_id (first_group key groups).
Proof.
  unfold _build_synonym_index, first_group.
  assert (H : forall idx,
             assoc key (fold_left (fun idx g => fold_left (index_add (g_id g))
                                                          (g_synonyms g) idx)
                                  groups idx)
             = match assoc key idx with
               | Some x => Some x
               | None => option_map g_id (List.find (lists_key key) groups)
               end).
  { induction groups as [| g r IH]; intros idx; simpl.
    - now destruct (assoc key idx).
    - rewrite IH, index_group_lookup. unfold lists_key at 2.
      destruct (assoc key idx); [reflexivity |].
      destruct (existsb _ (g_synonyms g)); reflexivity. }
  now rewrite H.
Qed.

Lemma group_by_own_id (groups : list GroupDef) (g : GroupDef) :
  NoDup (map g_id groups) -> In g groups ->
  _group_by_id groups (g_id g) = Some g.
Proof.
  unfold _group_by_id. induction groups as [| x r IH]; intros Hnd Hin;
    [contradiction |].
  simpl in Hnd. inversion Hnd as [| ? ? Hnotin Hnd']; subst.
  cbn [List.find]. destruct Hin as [-> | Hin].
  - now rewrite String.eqb_refl.
  - destruct (String.eqb (g_id x) (g_id g)) eqn:E; [| now apply IH].
    apply String.eqb_eq in E. exfalso. apply Hnotin. rewrite E. now apply in_map.
Qed.

(** X16.  A keyword that equals a synonym up to case and surrounding
    blanks is mapped to the first group of the file that lists this
    synonym, whatever other synonyms occur inside the keyword. *)
Theorem match_to_group_exact (keyword : string) (groups : list GroupDef)
  (g : GroupDef) :
  NoDup (map g_id groups) ->
  first_group (lower (strip keyword)) groups = Some g ->
  g_id g <> EmptyString ->
  _match_to_group keyword (_build_synonym_index groups) groups = Some g.
Proof.
  intros Hnd Hfirst Hid. unfold _match_to_group. cbv zeta.
  rewrite build_index_lookup, Hfirst. cbn [option_map truthy].
  destruct (g_id g) eqn:E; [contradiction |]. cbn [is_empty negb].
  rewrite <- E. apply group_by_own_id; [exact Hnd |].
  unfold first_group in Hfirst. now apply find_some in Hfirst as [Hin _].
Qed.

Lemma match_to_group_exact_witness :
  _match_to_group " CHF "
    (_build_synonym_index
       [mkGroupDef "stroke" ["stroke"; "tia"] 6;
        mkGroupDef "heart_failure" ["heart failure"; "chf"] 8])
    [mkGroupDef "stroke" ["stroke"; "tia"] 6;
     mkGroupDef "heart_failure" ["heart failure"; "chf"] 8]
  = Some (mkGroupDef "heart_failure" ["heart failure"; "chf"] 8).
Proof.
  apply match_to_group_exact.
  - repeat constructor; cbn [In]; intuition discriminate.
  - reflexivity.
  - discriminate.
Defined.

(** *** Soundness of the looser matches *)

Definition justified (kw_lower : string) (kw_words : list string)
  (idx : list (string * string)) (word : bool) (o : option string) : Prop :=
  forall id, o = Some id ->
    exists syn, In (syn, id) idx /\ contains syn kw_lower = true
                /\ is_word_match kw_lower kw_words syn = word
                /\ (word = false -> (4 <= String.length syn)%nat).

Lemma match_fold_justified (kw_lower : string) (kw_words : list string)
  (idx done : list (string * string)) (st : Best) :
  justified kw_lower kw_words done true (best_wb_match st) ->
  justified kw_lower kw_words done false (best_sub_match st) ->
  let st' := fold_left (match_step kw_lower kw_words) idx st in
  justified kw_lower kw_words (done ++ idx) true (best_wb_match st')
  /\ justified kw_lower kw_words (done ++ idx) false (best_sub_match st').
Proof.
  revert done st. induction idx as [| [syn id] r IH]; intros done st Hw Hs.
  - cbn [fold_left]. rewrite app_nil_r. now split.
  - cbn [fold_left].
    replace (done ++ (syn, id) :: r)%list with ((done ++ [(syn, id)]) ++ r)%list
      by (rewrite <- app_assoc; reflexivity).
    assert (Hweak : forall word o,
               justified kw_lower kw_words done word o ->
               justified kw_lower kw_words (done ++ [(syn, id)]) word o).
    { intros word o H i Hi. destruct (H i Hi) as (s & Hin & Hrest).
      exists s. split; [apply in_or_app; now left | exact Hrest]. }
    assert (Hnew : forall word,
               contains syn kw_lower = true ->
               is_word_match kw_lower kw_words syn = word ->
               (word = false -> (4 <= String.length syn)%nat) ->
               justified kw_lower kw_words (done ++ [(syn, id)]) word (Some id)).
    { intros word Hc Hm Hlen i Hi. injection Hi as <-.
      exists syn. split; [apply in_or_app; right; now left |]. now repeat split. }
    assert (Hstep :
              justified kw_lower kw_words (done ++ [(syn, id)]) true
                (best_wb_match (match_step kw_lower kw_words st (syn, id)))
              /\ justified kw_lower kw_words (done ++ [(syn, id)]) false
                   (best_sub_match (match_step kw_lower kw_words st (syn, id)))).
    { unfold match_step.
      destruct (contains syn kw_lower) eqn:Ec; cbn [negb]; [| split; auto].
      destruct (is_word_match kw_lower kw_words syn) eqn:Em; cbn [andb negb].
      - destruct (best_wb_len st <? String.length syn)%nat;
          cbn [best_wb_match best_sub_match]; split; auto.
        apply Hnew; auto. discriminate.
      - destruct (4 <=? String.length syn)%nat eqn:E4; cbn [andb];
          [| split; auto].
        destruct (best_sub_len st <? String.length syn)%nat;
          cbn [best_wb_match best_sub_match]; split; auto.
        apply Hnew; auto. intros _. now apply Nat.leb_le. }
    destruct Hstep as [Hw' Hs']. now apply IH.
Qed.

Lemma assoc_In {A : Type} (k : string) (v : A) (l : list (string * A)) :
  assoc k l = Some v -> In (k, v) l.
Proof.
  induction l as [| [a b] r IH]; simpl; [discriminate |].
  destruct (String.eqb k a) eqn:E.
  - apply String.eqb_eq in E. subst a. intros H. injection H as ->. now left.
  - intros H. right. now apply IH.
Qed.

Lemma prefix_refl (s : string) : prefix s s = true.
Proof.
  induction s as [| c r IH]; simpl; [reflexivity |].
  destruct (ascii_dec c c); [exact IH | contradiction].
Qed.

Lemma contains_refl (s : string) : contains s s = true.
Proof. destruct s; cbn [contains]; now rewrite prefix_refl. Qed.

(** X17.  [_match_to_group] never invents a group: the group it returns is
    in the list, has a non-empty id, and one of the index synonyms filed
    under that id occurs in the keyword, either as the whole keyword, as a
    whole word, or with at least four characters. *)
Theorem match_to_group_sound (keyword : string) (idx : list (string * string))
  (groups : list GroupDef) (g : GroupDef) :
  _match_to_group keyword idx groups = Some g ->
  let kw_lower := lower (strip keyword) in
  In g groups /\ g_id g <> EmptyString
  /\ exists syn,
       In (syn, g_id g) idx /\ contains syn kw_lower = true
       /\ (syn = kw_lower
           \/ is_word_match kw_lower (re_split_runs is_word_separator kw_lower) syn
              = true
           \/ (4 <= String.length syn)%nat).
Proof.
  unfold _match_to_group. cbv zeta.
  set (kw_lower := lower (strip keyword)).
  set (kw_words := re_split_runs is_word_separator kw_lower).
  assert (Hby : forall id, truthy (Some id) = true ->
                           _group_by_id groups id = Some g ->
                           In g groups /\ g_id g <> EmptyString /\ g_id g = id).
  { intros id Ht Hf. unfold _group_by_id in Hf.
    apply find_some in Hf as [Hin Heq]. apply String.eqb_eq in Heq.
    split; [exact Hin |]. split; [| exact Heq].
    rewrite Heq. intros ->. discriminate Ht. }
  destruct (truthy (assoc kw_lower idx)) eqn:Et.
  - destruct (assoc kw_lower idx) as [id |] eqn:Ea; [| discriminate].
    intros Hf. destruct (Hby id Et Hf) as (Hin & Hne & Hid).
    split; [exact Hin |]. split; [exact Hne |].
    exists kw_lower. rewrite Hid.
    split; [now apply assoc_In |]. split; [apply contains_refl | now left].
  - destruct (match_fold_justified kw_lower kw_words idx [] (mkBest None 0 None 0))
      as [Hw Hs]; try (intros id Hid; discriminate Hid).
    cbn [app] in Hw, Hs.
    set (st := fold_left (match_step kw_lower kw_words) idx (mkBest None 0 None 0))
      in *.
    destruct (truthy (best_wb_match st)) eqn:Ew.
    + rewrite Ew. destruct (best_wb_match st) as [id |] eqn:Eb; [| discriminate].
      intros Hf. destruct (Hby id Ew Hf) as (Hin & Hne & Hid).
      destruct (Hw id eq_refl) as (syn & Hsyn & Hc & Hm & _).
      split; [exact Hin |]. split; [exact Hne |].
      exists syn. rewrite Hid. split; [exact Hsyn |]. split; [exact Hc |].
      right. now left.
    + destruct (truthy (best_sub_match st)) eqn:Es; [| discriminate].
      destruct (best_sub_match st) as [id |] eqn:Eb; [| discriminate].
      intros Hf. destruct (Hby id Es Hf) as (Hin & Hne & Hid).
      destruct (Hs id eq_refl) as (syn & Hsyn & Hc & _ & Hlen).
      split; [exact Hin |]. split; [exact Hne |].
      exists syn. rewrite Hid. split; [exact Hsyn |]. split; [exact Hc |].
      right. right. now apply Hlen.
Qed.

Lemma match_to_group_sound_witness :
  exists g, _match_to_group "acute on chronic heart failure"
              [("tia", "stroke"); ("heart failure", "heart_failure")]
              [mkGroupDef "stroke" [] 6; mkGroupDef "heart_failure" [] 8] = Some g
            /\ In g [mkGroupDef "stroke" [] 6; mkGroupDef "heart_failure" [] 8].
Proof.
  exists (mkGroupDef "heart_failure" [] 8). split; [reflexivity |].
  apply (match_to_group_sound "acute on chronic heart failure"
           [("tia", "stroke"); ("heart failure", "heart_failure")]
           [mkGroupDef "stroke" [] 6; mkGroupDef "heart_failure" [] 8]).
  reflexivity.
Defined.

End RiskReportProofs.

(* ===================================================================== *)
(** ** Probability and days as functions of the score *)
(* ===================================================================== *)

Module PredictionProofs.
Import Calibration CalibrationProofs Prediction.
Local Open Scope R_scope.

Lemma logistic_mono (self : Params) (s1 s2 : Z) :
  0 <= _beta self -> (s1 <= s2)%Z -> _logistic self s1 <= _logistic self s2.
Proof.
  intros Hb Hs. unfold _logistic. cbv zeta.
  set (z1 := _alpha self + _beta self * IZR s1).
  set (z2 := _alpha self + _beta self * IZR s2).
  assert (Hz : z1 <= z2).
  { unfold z1, z2. apply IZR_le in Hs. nra. }
  assert (He : exp (- z2) <= exp (- z1)) by (apply exp_le_mono; lra).
  pose proof (exp_pos (- z1)). pose proof (exp_pos (- z2)).
  unfold Rdiv. rewrite !Rmult_1_l.
  apply Rinv_le_contravar; lra.
Qed.

(** X18.  With a non-negative slope [beta], a higher composite score never
    gives a lower reported probability. *)
Theorem probability_monotone_in_score (self : Params) (s1 s2 : Z) :
  0 <= _beta self -> (s1 <= s2)%Z ->
  probability self s1 <= probability self s2.
Proof.
  intros Hb Hs. unfold probability. apply round4_mono. now apply logistic_mono.
Qed.

Lemma probability_monotone_in_score_witness :
  probability (mkParams (-2) (5 / 100) 1) 10
  <= probability (mkParams (-2) (5 / 100) 1) 40.
Proof.
  apply probability_monotone_in_score; [cbn [_beta]; lra | lia].
Defined.

Lemma predict_days_ge_1 (self : DaysParams) (score : Z) : 1 <= _predict_days self score.
Proof. unfold _predict_days. apply Rmax_l. Qed.

Lemma predict_days_antitone (self : DaysParams) (s1 s2 : Z) :
  0 <= _d_max self -> 0 <= _gamma self -> (s1 <= s2)%Z ->
  _predict_days self s2 <= _predict_days self s1.
Proof.
  intros Hd Hg Hs. unfold _predict_days.
  apply Rle_max_compat_l.
  apply Rmult_le_compat_l; [exact Hd |].
  apply exp_le_mono. apply IZR_le in Hs. nra.
Qed.

Lemma bucket_rank_mono (d1 d2 : R) :
  d1 <= d2 -> (bucket_rank (_predict_bucket d1) <= bucket_rank (_predict_bucket d2))%nat.
Proof.
  intros H. unfold _predict_bucket.
  destruct (Rle_dec d1 7), (Rle_dec d2 7), (Rle_dec d1 14), (Rle_dec d2 14);
    cbn; try lia; lra.
Qed.

(** X19.  The estimated days to readmission are never below one day; with
    non-negative [D_max] and [gamma] a higher composite score never gives a
    later estimate, nor a later bucket. *)
Theorem predict_days_decreases_with_score (self : DaysParams) (s1 s2 : Z) :
  0 <= _d_max self -> 0 <= _gamma self -> (s1 <= s2)%Z ->
  1 <= _predict_days self s2
  /\ _predict_days self s2 <= _predict_days self s1
  /\ (bucket_rank (_predict_bucket (_predict_days self s2))
      <= bucket_rank (_predict_bucket (_predict_days self s1)))%nat.
Proof.
  intros Hd Hg Hs. split; [apply predict_days_ge_1 |].
  pose proof (predict_days_antitone self s1 s2 Hd Hg Hs) as H.
  split; [exact H | now apply bucket_rank_mono].
Qed.

Lemma predict_days_decreases_with_score_witness :
  1 <= _predict_days (mkDays 30 (2 / 100)) 50
  /\ _predict_days (mkDays 30 (2 / 100)) 50 <= _predict_days (mkDays 30 (2 / 100)) 10
  /\ (bucket_rank (_predict_bucket (_predict_days (mkDays 30 (2 / 100)) 50))
      <= bucket_rank (_predict_bucket (_predict_days (mkDays 30 (2 / 100)) 10)))%nat.
Proof.
  apply predict_days_decreases_with_score; cbn [_d_max _gamma]; try lra; lia.
Defined.

End PredictionProofs.

(* ===================================================================== *)
(** ** KVT4 normalisation: closed vocabularies, one line per key, order *)
(* ===================================================================== *)

Module KvtClosed.
Import PyStr PyStrFacts PyStrMore Num NumFacts Kvt KvtProofs.

(** *** Records read by [_parse_line] *)

Definition clean4 (x : Fact4) : Prop :=
  nopipe (f_cluster x) /\ nopipe (f_keyword x) /\ nopipe (f_value x)
  /\ nopipe (f_ts x).

Lemma or_unknown_nopipe (t : string) : nopipe t -> nopipe (or_unknown t).
Proof. intros H. unfold or_unknown. destruct (is_empty t); [reflexivity | exact H]. Qed.

Lemma parse_line_clean4 (line : string) (p : Fact4) :
  _parse_line line = Some p -> clean4 p.
Proof.
  unfold _parse_line. cbv zeta.
  set (s := strip (strip_bullet (strip line))).
  pose proof (nopipe_split_strip s) as Hp.
  destruct (is_empty s); [discriminate |].
  destruct (Nat.eqb (count_char "|" s) 3).
  - destruct (map strip (split_on "|" s)) as [| c [| k [| v [| t [| x r]]]]];
      try discriminate.
    inversion Hp as [| ? ? Hc H1]; subst. inversion H1 as [| ? ? Hk H2]; subst.
    inversion H2 as [| ? ? Hv H3]; subst. inversion H3 as [| ? ? Ht _]; subst.
    destruct (_ || _ || _); [discriminate |].
    intros H. injection H as <-. unfold clean4. cbn [f_cluster f_keyword f_value f_ts].
    repeat split; auto using or_unknown_nopipe.
  - destruct (Nat.eqb (count_char "|" s) 2); [| discriminate].
    destruct (map strip (split_on "|" s)) as [| a [| b [| c [| x r]]]];
      try discriminate.
    inversion Hp as [| ? ? Ha H1]; subst. inversion H1 as [| ? ? Hb H2]; subst.
    inversion H2 as [| ? ? Hc _]; subst.
    destruct (_ || _ || _); [discriminate |].
    destruct (str_in (clean_cluster a) READMISSION_CLUSTERS).
    + intros H. injection H as <-. unfold clean4.
      cbn [f_cluster f_keyword f_value f_ts].
      repeat split; auto using kvt_clean_cluster_nopipe.
    + destruct (is_empty (_infer_cluster_from_keyword a)); [discriminate |].
      intros H. injection H as <-. unfold clean4.
      cbn [f_cluster f_keyword f_value f_ts].
      repeat split; auto using infer_cluster_nopipe, or_unknown_nopipe.
Qed.

(** *** The closed sets *)

Definition timestamps : list string := ["Admission"; "Discharge"; "Past"; "Unknown"].

Lemma normalize_timestamp_closed (t : string) : In (_normalize_timestamp t) timestamps.
Proof.
  unfold _normalize_timestamp, timestamps. cbv zeta.
  destruct (is_empty (strip t)); [cbn; tauto |].
  destruct (str_in (strip t) _) eqn:E; [now apply str_in_In in E |].
  destruct (String.eqb _ "adm"); [cbn; tauto |].
  destruct (String.eqb _ "dc"); cbn; tauto.
Qed.

Lemma fill_unknown_closed (c k v : string) :
  In (_fill_unknown_timestamp c k v) ["Admission"; "Discharge"; "Past"].
Proof.
  unfold _fill_unknown_timestamp. cbv zeta.
  repeat match goal with
         | |- In (if ?b then _ else _) _ => destruct b
         end; cbn; tauto.
Qed.

(** Where a candidate comes from: the ordinary path through
    [normalize_kv] and the strict-keyword check, or the blood-pressure
    expansion. *)
Inductive origin (x : Fact4) : Prop :=
| from_kept (k0 v0 : string) :
    nopipe k0 -> nopipe v0 ->
    normalize_kv (f_cluster x) k0 v0 = Kept (f_keyword x) (f_value x) ->
    (forall allowed, lookup (f_cluster x) STRICT_KEYWORDS_READMISSION = Some allowed ->
                     str_in (f_keyword x) allowed = true) ->
    origin x
| from_bp :
    f_cluster x = "VITALS" ->
    In (f_keyword x) ["Systolic BP"; "Diastolic BP"] ->
    unsigned_shape (f_value x) ->
    origin x.

Lemma normalize_line_origin (env : Env) (line : string) (x : Fact4) :
  In x (normalize_line env line) ->
  nopipe (f_cluster x) /\ In (f_ts x) timestamps /\ origin x.
Proof.
  unfold normalize_line.
  destruct (_parse_line line) as [p |] eqn:Ep; [| intros []].
  destruct (parse_line_clean4 _ _ Ep) as (Hc & Hk & Hv & Ht).
  cbv zeta.
  match goal with |- In x (if ?b then _ else _) -> _ => destruct b end;
    [intros [] |].
  destruct (str_in (strip (f_value p)) _); [intros [] |].
  pose proof (kvt_clean_cluster_nopipe _ Hc) as Hcu.
  pose proof (nopipe_strip _ Hk) as Hkn.
  pose proof (nopipe_strip _ Hv) as Hvn.
  pose proof (normalize_timestamp_closed (f_ts p)) as Hts.
  destruct (normalize_kv (clean_cluster (f_cluster p)) (strip (f_keyword p))
              (strip (f_value p))) as [| sbp dbp | k v] eqn:En.
  - intros [].
  - assert (Hbp : unsigned_shape sbp /\ unsigned_shape dbp).
    { revert En. unfold normalize_kv.
      repeat match goal with
             | |- context [if ?b then _ else _] => destruct b
             | |- context [match ?o with Some _ => _ | None => _ end] =>
                 let E := fresh "E" in destruct o as [[? ?] |] eqn:E
             | |- context [match ?o with Some _ => _ | None => _ end] =>
                 destruct o
             end; unfold numeric_only, yes_no;
      repeat match goal with
             | |- context [if ?b then _ else _] => destruct b
             | |- context [match ?o with Some _ => _ | None => _ end] =>
                 destruct o
             end; try discriminate.
      intros H. inversion H; subst.
      eapply search_bp_shape; eassumption. }
    destruct Hbp as [Hs Hd].
    intros [<- | [<- | []]]; (split; [reflexivity |]); (split; [exact Hts |]);
      apply from_bp; cbn [f_cluster f_keyword f_value]; auto; cbn; tauto.
  - destruct (negb _) eqn:Estrict; [intros [] |].
    apply negb_false_iff in Estrict.
    intros [<- | []]. cbn [f_cluster f_keyword f_value f_ts].
    split; [exact Hcu |]. split.
    + destruct (fill_unknown env && String.eqb _ "Unknown"); [| exact Hts].
      pose proof (fill_unknown_closed (clean_cluster (f_cluster p)) k v) as H.
      unfold timestamps. cbn in H |- *. tauto.
    + apply (from_kept _ (strip (f_keyword p)) (strip (f_value p)));
        cbn [f_cluster f_keyword f_value]; auto.
      intros allowed Hl. rewrite Hl in Estrict. exact Estrict.
Qed.

(** *** Values written by [normalize_kv] *)

Local Ltac walk :=
  repeat match goal with
         | |- context [if ?b then _ else _] =>
             let E := fresh "E" in destruct b eqn:E
         | |- context [match ?o with Some _ => _ | None => _ end] =>
             let E := fresh "E" in destruct o eqn:E
         end.

Lemma in_consts_nopipe (v : string) (l : list string) :
  Forall nopipe l -> str_in v l = true -> nopipe v.
Proof.
  intros Hl Hv. apply str_in_In in Hv. rewrite Forall_forall in Hl. now apply Hl.
Qed.

Local Ltac consts := repeat constructor.

Lemma lookup_values_nopipe (d : list (string * string)) (k v : string) :
  Forall (fun kv => nopipe (snd kv)) d -> lookup k d = Some v -> nopipe v.
Proof.
  induction 1 as [| [a b] r Hb Hr IH]; simpl; [discriminate |].
  destruct (String.eqb k a); [| exact IH].
  intros H. injection H as <-. exact Hb.
Qed.

Lemma first_number_nopipe (s m : string) : _first_number s = Some m -> nopipe m.
Proof. intros H. apply number_shape_nopipe. now apply (first_number_shape s). Qed.

Lemma normalize_kv_nopipe (c k v k' v' : string) :
  nopipe k -> nopipe v -> normalize_kv c k v = Kept k' v' ->
  nopipe k' /\ nopipe v'.
Proof.
  intros Hk Hv.
  assert (Hva : nopipe (alias vital_alias k))
    by (apply alias_nopipe; [unfold vital_alias; consts | exact Hk]).
  assert (Hla : nopipe (alias lab_alias k))
    by (apply alias_nopipe; [unfold lab_alias; consts | exact Hk]).
  unfold normalize_kv, numeric_only, yes_no. cbv zeta.
  walk; intros H;
    try match type of H with (let (_, _) := ?p in _) = _ => destruct p end;
    try discriminate H; injection H as <- <-;
    (split; [assumption || reflexivity |]);
    try assumption; try reflexivity;
    try (eapply first_number_nopipe; eassumption);
    try (eapply lookup_values_nopipe; [| eassumption]; unfold sex_alias; consts);
    try (eapply in_consts_nopipe; [| eassumption]; consts).
Qed.

Lemma origin_clean (x : Fact4) :
  nopipe (f_cluster x) -> In (f_ts x) timestamps -> origin x -> clean4 x.
Proof.
  intros Hc Ht Ho.
  assert (Hnt : nopipe (f_ts x)).
  { unfold timestamps in Ht. cbn in Ht.
    destruct Ht as [<- | [<- | [<- | [<- | []]]]]; reflexivity. }
  destruct Ho as [k0 v0 Hk0 Hv0 Hkv _ | Hcl Hkw Hval].
  - destruct (normalize_kv_nopipe _ _ _ _ _ Hk0 Hv0 Hkv) as [Hk Hv].
    now repeat split.
  - repeat split; auto.
    + cbn in Hkw. destruct Hkw as [<- | [<- | []]]; reflexivity.
    + now apply unsigned_nopipe.
Qed.

(** *** Categorical vocabularies *)

Definition binary_medications : list string :=
  ["Polypharmacy"; "Anticoagulation"; "Insulin Therapy"; "Opioid Therapy";
   "Diuretic Therapy"].

Definition vocabulary (c k : string) : option (list string) :=
  if String.eqb c "DEMOGRAPHICS" && String.eqb k "Sex" then Some ["male"; "female"]
  else if String.eqb c "MEDICATIONS" && str_in k binary_medications
  then Some ["yes"; "no"]
  else if String.eqb c "PROCEDURES" && String.eqb k "Dialysis"
  then Some ["decided"; "started"; "done"; "cancelled"; "no"]
  else if String.eqb c "PROCEDURES" && str_in k ["Any Procedure"; "Surgery"]
  then Some ["yes"; "no"]
  else if String.eqb c "DISPOSITION" && String.eqb k "Discharge Disposition"
  then Some ["Home with Services"; "Home"; "SNF"; "Rehab"; "LTAC"; "Hospice"; "AMA"]
  else if String.eqb c "DISPOSITION" && String.eqb k "Mental Status"
  then Some ["confused"; "lethargic"; "alert"; "oriented"]
  else if String.eqb c "PROBLEMS" then Some ["chronic"; "acute"; "exist"; "not exist"]
  else if String.eqb c "SYMPTOMS" then Some ["yes"; "no"; "severe"]
  else None.

Lemma normalize_kv_vocabulary (c k v k' v' : string) (vocab : list string) :
  normalize_kv c k v = Kept k' v' ->
  vocabulary c k' = Some vocab -> In v' vocab.
Proof.
  unfold vocabulary.
  destruct (String.eqb c "DEMOGRAPHICS") eqn:Ec1.
  { apply String.eqb_eq in Ec1. subst c. unfold normalize_kv.
    cbn [String.eqb Ascii.eqb Bool.eqb andb]. unfold numeric_only.
    destruct (String.eqb k "Sex") eqn:Ek.
    - destruct (lookup _ sex_alias) as [vv |] eqn:El; [| discriminate].
      destruct (is_empty vv); [discriminate |].
      intros H. injection H as <- <-. rewrite Ek. intros Hv. injection Hv as <-.
      revert El. unfold sex_alias. cbn [lookup].
      repeat match goal with
             | |- (if ?b then _ else _) = _ -> _ => destruct b
             end; intros H; try discriminate H; injection H as <-; cbn; tauto.
    - destruct (String.eqb k "Age").
      + destruct (_first_number v); [| discriminate].
        intros H. injection H as <- <-. rewrite Ek. discriminate.
      + intros H. injection H as <- <-. rewrite Ek. discriminate. }
  cbn [andb].
  destruct (String.eqb c "MEDICATIONS") eqn:Ec2.
  { apply String.eqb_eq in Ec2. subst c. unfold normalize_kv.
    cbn [String.eqb Ascii.eqb Bool.eqb andb]. unfold numeric_only.
    match goal with |- (if ?b then _ else _) = _ -> _ => destruct b eqn:Ek1 end.
    - destruct (_first_number v); [| discriminate].
      intros H. injection H as <- <-.
      assert (Hb : str_in k binary_medications = false).
      { apply str_in_In in Ek1. cbn in Ek1.
        destruct Ek1 as [<- | [<- | []]]; reflexivity. }
      rewrite Hb. discriminate.
    - match goal with |- (if ?b then _ else _) = _ -> _ => destruct b eqn:Ek2 end.
      + cbv zeta.
        repeat match goal with
               | |- (if ?b then _ else _) = _ -> _ => destruct b
               end; intros H; try discriminate H; injection H as <- <-;
          unfold binary_medications; rewrite Ek2; intros Hv; injection Hv as <-;
          cbn; tauto.
      + intros H. injection H as <- <-. unfold binary_medications. rewrite Ek2.
        discriminate. }
  cbn [andb].
  destruct (String.eqb c "PROCEDURES") eqn:Ec3.
  { apply String.eqb_eq in Ec3. subst c. unfold normalize_kv.
    cbn [String.eqb Ascii.eqb Bool.eqb andb]. unfold yes_no. cbv zeta.
    destruct (String.eqb k "Dialysis") eqn:Ek1.
    - destruct (str_in _ ["decided"; "started"; "done"; "cancelled"; "no"]) eqn:E1.
      + intros H. injection H as <- <-. rewrite Ek1. intros Hv. injection Hv as <-.
        now apply str_in_In in E1.
      + repeat match goal with
               | |- (if ?b then _ else _) = _ -> _ => destruct b
               end; intros H; try discriminate H; injection H as <- <-;
          rewrite Ek1; intros Hv; injection Hv as <-; cbn; tauto.
    - destruct (String.eqb k "Mechanical Ventilation") eqn:Ek2.
      + apply String.eqb_eq in Ek2. subst k.
        repeat match goal with
               | |- (if ?b then _ else _) = _ -> _ => destruct b
               | |- match ?o with Some _ => _ | None => _ end = _ -> _ => destruct o
               end; intros H; injection H as <- <-; discriminate.
      + repeat match goal with
               | |- (if ?b then _ else _) = _ -> _ => destruct b
               end; intros H; try discriminate H; injection H as <- <-;
          rewrite Ek1; cbn [andb];
          destruct (str_in k ["Any Procedure"; "Surgery"]); try discriminate;
          intros Hv; injection Hv as <-; cbn; tauto. }
  cbn [andb].
  destruct (String.eqb c "DISPOSITION") eqn:Ec4.
  { apply String.eqb_eq in Ec4. subst c. unfold normalize_kv.
    cbn [String.eqb Ascii.eqb Bool.eqb andb]. cbv zeta.
    destruct (String.eqb k "Discharge Disposition") eqn:Ek1.
    - repeat match goal with
             | |- (if ?b then _ else _) = _ -> _ => destruct b
             end; intros H; try discriminate H; injection H as <- <-;
        rewrite Ek1; intros Hv; injection Hv as <-; cbn; tauto.
    - destruct (String.eqb k "Mental Status") eqn:Ek2.
      + repeat match goal with
               | |- (if ?b then _ else _) = _ -> _ => destruct b
               end; intros H; try discriminate H; injection H as <- <-;
          rewrite Ek1, Ek2; intros Hv; injection Hv as <-; cbn; tauto.
      + intros H. injection H as <- <-. rewrite Ek1, Ek2. discriminate. }
  cbn [andb].
  destruct (String.eqb c "PROBLEMS") eqn:Ec5.
  { apply String.eqb_eq in Ec5. subst c. unfold normalize_kv.
    cbn [String.eqb Ascii.eqb Bool.eqb andb]. cbv zeta.
    destruct (str_in _ ["chronic"; "acute"; "exist"; "not exist"]) eqn:E1.
    - intros H. injection H as <- <-. intros Hv. injection Hv as <-.
      now apply str_in_In in E1.
    - repeat match goal with
             | |- (if ?b then _ else _) = _ -> _ => destruct b
             end; intros H; try discriminate H; injection H as <- <-;
        intros Hv; injection Hv as <-; cbn; tauto. }
  destruct (String.eqb c "SYMPTOMS") eqn:Ec6; [| discriminate].
  apply String.eqb_eq in Ec6. subst c. unfold normalize_kv.
  cbn [String.eqb Ascii.eqb Bool.eqb andb]. cbv zeta.
  destruct (str_in _ ["yes"; "no"; "severe"]) eqn:E1.
  - intros H. injection H as <- <-. intros Hv. injection Hv as <-.
    now apply str_in_In in E1.
  - repeat match goal with
           | |- (if ?b then _ else _) = _ -> _ => destruct b
           end; intros H; try discriminate H; injection H as <- <-;
      intros Hv; injection Hv as <-; cbn; tauto.
Qed.

(** *** Reading an output line back *)

Lemma output_fact (env : Env) (lines : list string) (ln : string) :
  In ln (normalize_readmission_kvt4_lines env lines) ->
  exists x, ln = fmt_fact x /\ clean4 x /\ In (f_ts x) timestamps /\ origin x
            /\ In x (dedupe env (normalized_candidates env lines)).
Proof.
  unfold normalize_readmission_kvt4_lines. intros Hin.
  apply (Permutation_in _ (kvt_sort_lines_perm _)) in Hin.
  apply in_map_iff in Hin as (x & <- & Hx).
  exists x. split; [reflexivity |].
  pose proof Hx as Hd.
  apply dedupe_In in Hx. unfold normalized_candidates in Hx.
  apply in_flat_map in Hx as (line & _ & Hx).
  destruct (normalize_line_origin env line x Hx) as (Hc & Ht & Ho).
  split; [now apply origin_clean |]. now repeat split.
Qed.

Lemma fields_fmt_fact (x : Fact4) :
  clean4 x ->
  split_on "|" (fmt_fact x) = [f_cluster x; f_keyword x; f_value x; f_ts x].
Proof.
  intros (Hc & Hk & Hv & Ht). unfold fmt_fact.
  rewrite !split_on_pipe_app by assumption.
  now rewrite (split_on_plain "|" (f_ts x)).
Qed.

(** X20.  Every line that [normalize_readmission_kvt4_lines] returns has
    exactly four fields; its timestamp is one of Admission, Discharge, Past
    and Unknown, and when its cluster has a strict keyword list the keyword
    is on that list. *)
Theorem normalize_output_closed_sets (env : Env) (lines : list string)
  (ln : string) :
  In ln (normalize_readmission_kvt4_lines env lines) ->
  exists c k v t,
    split_on "|" ln = [c; k; v; t]
    /\ In t ["Admission"; "Discharge"; "Past"; "Unknown"]
    /\ forall allowed,
         lookup c STRICT_KEYWORDS_READMISSION = Some allowed -> In k allowed.
Proof.
  intros Hin.
  destruct (output_fact env lines ln Hin) as (x & -> & Hclean & Ht & Ho & _).
  exists (f_cluster x), (f_keyword x), (f_value x), (f_ts x).
  split; [now apply fields_fmt_fact |]. split; [exact Ht |].
  intros allowed Hl.
  destruct Ho as [k0 v0 _ _ _ Hstrict | Hc Hk _].
  - apply str_in_In. now apply Hstrict.
  - rewrite Hc in Hl. cbn in Hl. injection Hl as <-.
    cbn in Hk. destruct Hk as [Hk | [Hk | []]]; rewrite <- Hk; cbn; tauto.
Qed.

Lemma normalize_output_closed_sets_witness :
  exists c k v t,
    split_on "|" "LABS|Potassium|4.1|Discharge" = [c; k; v; t]
    /\ In t ["Admission"; "Discharge"; "Past"; "Unknown"]
    /\ forall allowed,
         lookup c STRICT_KEYWORDS_READMISSION = Some allowed -> In k allowed.
Proof.
  apply (normalize_output_closed_sets default_env ["* labs | K | 4.1 mmol/L | dc"]).
  vm_compute. now left.
Defined.

(** X21.  The categorical values of the output are canonical: Sex is male
    or female, a binary medication flag and Any Procedure or Surgery are
    yes or no, Dialysis is one of five states, Discharge Disposition one of
    seven, Mental Status one of four, a PROBLEMS value one of chronic,
    acute, exist, not exist, and a SYMPTOMS value one of yes, no, severe. *)
Theorem normalize_categorical_values (env : Env) (lines : list string)
  (ln c k v t : string) (vocab : list string) :
  In ln (normalize_readmission_kvt4_lines env lines) ->
  split_on "|" ln = [c; k; v; t] ->
  vocabulary c k = Some vocab ->
  In v vocab.
Proof.
  intros Hin Hs Hvocab.
  destruct (output_fact env lines ln Hin) as (x & -> & Hclean & _ & Ho & _).
  rewrite fields_fmt_fact in Hs by assumption.
  injection Hs as <- <- <- <-.
  destruct Ho as [k0 v0 _ _ Hkv _ | Hc Hk _].
  - exact (normalize_kv_vocabulary _ _ _ _ _ _ Hkv Hvocab).
  - rewrite Hc in Hvocab. unfold vocabulary in Hvocab.
    cbn in Hk. destruct Hk as [Hk | [Hk | []]]; rewrite <- Hk in Hvocab;
      discriminate Hvocab.
Qed.

Lemma normalize_categorical_values_witness :
  In "Home with Services"
     ["Home with Services"; "Home"; "SNF"; "Rehab"; "LTAC"; "Hospice"; "AMA"].
Proof.
  apply (normalize_categorical_values default_env
           ["DISPOSITION|Discharge Disposition|home w/ VNA services|Discharge"]
           "DISPOSITION|Discharge Disposition|Home with Services|Discharge"
           "DISPOSITION" "Discharge Disposition" "Home with Services" "Discharge").
  - vm_compute. now left.
  - reflexivity.
  - reflexivity.
Defined.

(** *** One line per key, in key order *)

Definition key (x : Fact4) : string * string := (f_cluster x, f_keyword x).

Lemma same_key_eq (a b : Fact4) : same_key a b = true <-> key a = key b.
Proof.
  unfold same_key, key. rewrite andb_true_iff, !String.eqb_eq.
  split; [intros [-> ->]; reflexivity | intros H; injection H; auto].
Qed.

Lemma best_update_keys (env : Env) (x : Fact4) (best : list Fact4) :
  map key (best_update env x best)
  = if existsb (same_key x) best then map key best
    else (map key best ++ [key x])%list.
Proof.
  induction best as [| cur rest IH]; [reflexivity |].
  cbn [best_update existsb]. destruct (same_key x cur) eqn:E; cbn [orb].
  - apply same_key_eq in E.
    destruct (_ <? _)%nat; cbn [map]; [now rewrite E | reflexivity].
  - cbn [map]. rewrite IH. now destruct (existsb (same_key x) rest).
Qed.

Lemma best_update_NoDup (env : Env) (x : Fact4) (best : list Fact4) :
  NoDup (map key best) -> NoDup (map key (best_update env x best)).
Proof.
  intros Hnd. rewrite best_update_keys.
  destruct (existsb (same_key x) best) eqn:E; [exact Hnd |].
  apply NoDup_app; [exact Hnd | repeat constructor; intros [] |].
  intros k Hk [<- | []].
  apply in_map_iff in Hk as (y & Hy & Hin).
  assert (Hex : existsb (same_key x) best = true).
  { apply existsb_exists. exists y. split; [exact Hin |].
    apply same_key_eq. now symmetry. }
  congruence.
Qed.

Lemma dedupe_NoDup (env : Env) (cands : list Fact4) :
  NoDup (map key (dedupe env cands)).
Proof.
  unfold dedupe.
  assert (H : forall best, NoDup (map key best) ->
              NoDup (map key (fold_left (fun b x => best_update env x b) cands best))).
  { induction cands as [| x r IH]; intros best Hb; simpl; [exact Hb |].
    apply IH. now apply best_update_NoDup. }
  apply H. constructor.
Qed.

(** Lines in non-decreasing order of the sort key. *)
Fixpoint in_key_order (l : list string) : Prop :=
  match l with
  | x :: ((y :: _) as r) => key_leb x y = true /\ in_key_order r
  | _ => True
  end.

Lemma str_leb_total (a b : string) : str_leb a b = false -> str_leb b a = true.
Proof.
  unfold str_leb. rewrite (String.compare_antisym a b).
  destruct (String.compare b a); simpl; congruence.
Qed.

Lemma key_leb_total (a b : string) : key_leb a b = false -> key_leb b a = true.
Proof.
  unfold key_leb. rewrite (String.compare_antisym (field 0 a) (field 0 b)).
  destruct (String.compare (field 0 b) (field 0 a)); simpl;
    [apply str_leb_total | congruence | congruence].
Qed.

Lemma insert_sorted_order (x : string) (l : list string) :
  in_key_order l -> in_key_order (insert_sorted x l).
Proof.
  induction l as [| y r IH]; intros Hl; [exact I |].
  cbn [insert_sorted]. destruct (key_leb x y) eqn:E.
  - split; [exact E | exact Hl].
  - apply key_leb_total in E.
    destruct r as [| z r'].
    + cbn. auto.
    + destruct Hl as [Hyz Hr]. specialize (IH Hr).
      cbn [insert_sorted] in IH |- *.
      destruct (key_leb x z); cbn [in_key_order]; auto.
Qed.

Lemma sort_lines_order (l : list string) : in_key_order (sort_lines l).
Proof.
  induction l as [| x r IH]; [exact I |].
  cbn [sort_lines fold_right]. now apply insert_sorted_order.
Qed.

(** X22.  The output of [normalize_readmission_kvt4_lines] has at most one
    line for every pair of cluster and keyword, and its lines are in
    non-decreasing order of that pair. *)
Theorem normalize_one_line_per_key (env : Env) (lines : list string) :
  (forall c k,
     (List.length
        (filter (fun ln => String.eqb (field 0 ln) c && String.eqb (field 1 ln) k)
                (normalize_readmission_kvt4_lines env lines)) <= 1)%nat)
  /\ in_key_order (normalize_readmission_kvt4_lines env lines).
Proof.
  split; [| apply sort_lines_order].
  intros c k. unfold normalize_readmission_kvt4_lines.
  rewrite (Stage2Proofs.filter_length_perm _ _ _ (kvt_sort_lines_perm _)).
  rewrite Stage2Proofs.filter_length_map.
  set (best := dedupe env (normalized_candidates env lines)).
  assert (Hclean : forall x, In x best -> clean4 x).
  { intros x Hx. apply dedupe_In in Hx. unfold normalized_candidates in Hx.
    apply in_flat_map in Hx as (line & _ & Hx).
    destruct (normalize_line_origin env line x Hx) as (Hc & Ht & Ho).
    now apply origin_clean. }
  apply (Stage2Proofs.filter_key_le1 key _ (c, k)); [apply dedupe_NoDup |].
  intros x Hx Hp. unfold field in Hp.
  rewrite fields_fmt_fact in Hp by now apply Hclean.
  cbn [nth] in Hp. apply andb_true_iff in Hp as [H0 H1].
  apply String.eqb_eq in H0, H1. unfold key. congruence.
Qed.

(** *** The keyword tables of the two files *)

(** X23.  The three keyword tables agree: [_infer_cluster_from_keyword]
    returns a cluster exactly for the keywords of
    [STRICT_KEYWORDS_READMISSION], namely the cluster that lists the
    keyword, and the pipeline's [_KW_TO_CLUSTER] maps every keyword to the
    same cluster. *)
Theorem keyword_tables_agree (k : string) :
  strip k = k ->
  Stage2.kw_to_cluster k = _infer_cluster_from_keyword k
  /\ forall c, c <> EmptyString ->
       (_infer_cluster_from_keyword k = c
        <-> exists allowed, lookup c STRICT_KEYWORDS_READMISSION = Some allowed
                            /\ In k allowed).
Proof.
  intros Hk.
  assert (Hcases : In k (flat_map snd STRICT_KEYWORDS_READMISSION)
                   \/ (_infer_cluster_from_keyword k = EmptyString
                       /\ Stage2.kw_to_cluster k = EmptyString
                       /\ ~ In k (flat_map snd STRICT_KEYWORDS_READMISSION))).
  { destruct (str_in k (flat_map snd STRICT_KEYWORDS_READMISSION)) eqn:E.
    - left. now apply str_in_In.
    - right.
      assert (Hn : ~ In k (flat_map snd STRICT_KEYWORDS_READMISSION)).
      { intros Hin. apply str_in_In in Hin. congruence. }
      split; [| split; [| exact Hn]].
      + unfold _infer_cluster_from_keyword. rewrite Hk. cbv zeta.
        destruct (is_empty k); [reflexivity |].
        revert E. cbn [flat_map STRICT_KEYWORDS_READMISSION snd app].
        unfold str_in. cbn [existsb CANONICAL_DEMOGRAPHICS CANONICAL_VITALS
                              CANONICAL_LABS app].
        intros E. repeat (apply orb_false_elim in E as [? E]).
        repeat match goal with H : String.eqb k _ = false |- _ => rewrite H; clear H end.
        reflexivity.
      + revert E. cbn [flat_map STRICT_KEYWORDS_READMISSION snd app].
        unfold str_in, Stage2.kw_to_cluster, Stage2._KW_TO_CLUSTER.
        cbn [existsb CANONICAL_DEMOGRAPHICS CANONICAL_VITALS CANONICAL_LABS app map
             Stage2.kw_to_cluster_in].
        intros E. repeat (apply orb_false_elim in E as [? E]).
        repeat match goal with H : String.eqb k _ = false |- _ => rewrite H; clear H end.
        reflexivity. }
  split; [| intros c Hc; split].
  - destruct Hcases as [Hin | (Hi & Hkw & _)]; [| congruence].
    cbn in Hin.
    repeat (destruct Hin as [<- | Hin]; [reflexivity |]). destruct Hin.
  - destruct Hcases as [Hin | (Hi & _ & _)]; [| congruence].
    cbn in Hin.
    repeat (destruct Hin as [<- | Hin];
            [intros <-; eexists; split; [reflexivity | cbn; tauto] |]).
    destruct Hin.
  - intros (allowed & Hl & Ha). revert Hl Ha.
    cbn [lookup STRICT_KEYWORDS_READMISSION].
    repeat match goal with
           | |- (if String.eqb c ?s then _ else _) = _ -> _ =>
               let E := fresh "E" in
               destruct (String.eqb c s) eqn:E;
               [apply String.eqb_eq in E; subst c; intros Hl; injection Hl as <-;
                cbn; intros Ha;
                repeat (destruct Ha as [<- | Ha]; [reflexivity |]); destruct Ha
               |]
           end.
    discriminate.
Qed.

Lemma keyword_tables_agree_witness :
  Stage2.kw_to_cluster "Mental Status" = _infer_cluster_from_keyword "Mental Status".
Proof.
  apply (proj1 (keyword_tables_agree "Mental Status" eq_refl)).
Defined.

(** X24.  [_map_category_to_cluster] and [_normalize_mode] are idempotent,
    and [_normalize_mode] always returns one of its four canonical modes. *)
Theorem category_and_mode_normalizers (category : string) (mode : option string) :
  KvtHelpers._map_category_to_cluster (KvtHelpers._map_category_to_cluster category)
  = KvtHelpers._map_category_to_cluster category
  /\ KvtHelpers._normalize_mode (Some (KvtHelpers._normalize_mode mode))
     = KvtHelpers._normalize_mode mode
  /\ In (KvtHelpers._normalize_mode mode)
        ["READMISSION_DISCHARGE"; "CCDE_ADMISSION"; "READMISSION_TABULAR";
         "READMISSION_STRUCTURED"].
Proof.
  split; [| split].
  - remember (KvtHelpers._map_category_to_cluster category) as r eqn:Er.
    unfold KvtHelpers._map_category_to_cluster in Er. cbv zeta in Er.
    destruct (is_empty (lower (strip category))) eqn:Ee; [now subst r |].
    destruct (lookup (lower (strip category)) KvtHelpers.category_mapping)
      as [v |] eqn:El.
    + subst r. revert El. unfold KvtHelpers.category_mapping. cbn [lookup].
      repeat match goal with
             | |- (if ?b then _ else _) = _ -> _ => destruct b
             end; intros H; try discriminate H; injection H as <-; reflexivity.
    + subst r. unfold KvtHelpers._map_category_to_cluster. cbv zeta.
      now rewrite !strip_idem, Ee, El.
  - assert (Hin : In (KvtHelpers._normalize_mode mode)
                     ["READMISSION_DISCHARGE"; "CCDE_ADMISSION"; "READMISSION_TABULAR";
                      "READMISSION_STRUCTURED"]).
    { unfold KvtHelpers._normalize_mode.
      destruct mode as [m |]; [| cbn; tauto].
      destruct (is_empty m); [cbn; tauto |]. cbv zeta.
      repeat match goal with
             | |- context [if ?b then _ else _] => destruct b
             end; cbn; tauto. }
    cbn in Hin. destruct Hin as [<- | [<- | [<- | [<- | []]]]]; reflexivity.
  - unfold KvtHelpers._normalize_mode.
    destruct mode as [m |]; [| cbn; tauto].
    destruct (is_empty m); [cbn; tauto |]. cbv zeta.
    repeat match goal with
           | |- context [if ?b then _ else _] => destruct b
           end; cbn; tauto.
Qed.

End KvtClosed.

(* ===================================================================== *)
(** ** Stage-2 sanitation: shape and order of the output *)
(* ===================================================================== *)

Module Stage2Shape.
Import PyStr PyStrFacts PyStrMore Num NumFacts Stage2 Stage2Proofs.

(** *** The two scopes *)

Lemma sanitize_parts (flags : Flags) (scope : Scope) (lines : list string) :
  exists others extra,
    Forall (fun ln => In ln others) extra
    /\ others = snd (fold_left (sanitize_step flags scope) lines ([], []))
    /\ sanitize flags scope lines
       = sort_lines
           (map (fmt_best flags scope) (best_of (objective_records flags lines))
            ++ match scope with ScopeObjective => [] | ScopeAll => extra end).
Proof.
  unfold sanitize.
  destruct (fold_left (sanitize_step flags scope) lines ([], []))
    as [best others] eqn:Ef.
  assert (Hb : fst (best, others) = best_of (objective_records flags lines)).
  { rewrite <- Ef. apply (proj1 (sanitize_fold flags scope lines [] [])). }
  cbn [fst snd] in Hb |- *. rewrite Hb.
  pose proof (out_objective_NoDup flags scope lines) as Hnd.
  set (out := map (fmt_best flags scope) (best_of (objective_records flags lines))) in *.
  destruct scope.
  - exists others, []. rewrite app_nil_r. repeat split. constructor.
  - destruct (append_unseen_fold others out out (fun x => iff_refl _) Hnd)
      as (extra & H1 & H2 & _).
    exists others, extra. rewrite H1. repeat split.
    apply Forall_forall. intros x Hx. now apply H2.
Qed.

Lemma default_ts_objective (c : string) :
  In (default_ts c) ["Admission"; "Discharge"; "Past"].
Proof.
  unfold default_ts.
  destruct (String.eqb c "DISPOSITION"); [cbn; tauto |].
  destruct (String.eqb c "UTILIZATION"); cbn; tauto.
Qed.

(** X25.  With [scope=objective] every line of the output is a four-field
    record of one of the five objective clusters, and its timestamp is the
    canonical one of its cluster: Discharge for DISPOSITION, Past for
    UTILIZATION, Admission otherwise. *)
Theorem sanitize_objective_scope (flags : Flags) (lines : list string)
  (out : list string) (ln : string) :
  _sanitize_stage2_lines flags lines "objective" = Some out ->
  In ln out ->
  exists c k v,
    split_on "|" ln = [c; k; v; default_ts c]
    /\ In c objective_clusters.
Proof.
  intros Hout Hin. cbn in Hout. injection Hout as <-.
  destruct (sanitize_parts flags ScopeObjective lines) as (others & extra & _ & _ & Heq).
  rewrite Heq, app_nil_r in Hin.
  apply (Permutation_in _ (sort_lines_perm _)) in Hin.
  apply in_map_iff in Hin as (e & <- & He).
  destruct (best_entry_wf _ _ _ He) as ((Hc & Hk & Hv & _) & Ho & _).
  exists (r_cluster (fst e)), (r_keyword (fst e)), (r_value (fst e)).
  split.
  - unfold fmt_best. cbv zeta. cbn [out_ts].
    apply fields4; try assumption. apply default_ts_nopipe.
  - now apply str_in_In.
Qed.

Lemma sanitize_objective_scope_witness :
  exists c k v,
    split_on "|" "VITALS|Heart Rate|72|Admission" = [c; k; v; default_ts c]
    /\ In c objective_clusters.
Proof.
  apply (sanitize_objective_scope validated
           ["VITALS|Heart Rate|88|Admission"; "PROBLEMS|CHF|chronic|Past";
            "VITALS|Heart Rate|72|Discharge"]
           ["VITALS|Heart Rate|72|Admission"]).
  - reflexivity.
  - now left.
Defined.

(** *** Order *)

Fixpoint in_sort_order (l : list string) : Prop :=
  match l with
  | x :: ((y :: _) as r) => key_leb x y = true /\ in_sort_order r
  | _ => True
  end.

Lemma stage2_key_leb_total (a b : string) : key_leb a b = false -> key_leb b a = true.
Proof.
  unfold key_leb. rewrite (String.compare_antisym (field 0 a) (field 0 b)).
  destruct (String.compare (field 0 b) (field 0 a)); simpl;
    [| congruence | congruence].
  unfold str_leb. rewrite (String.compare_antisym (field 1 a) (field 1 b)).
  destruct (String.compare (field 1 b) (field 1 a)); simpl; congruence.
Qed.

Lemma stage2_insert_sorted_order (x : string) (l : list string) :
  in_sort_order l -> in_sort_order (insert_sorted x l).
Proof.
  induction l as [| y r IH]; intros Hl; [exact I |].
  cbn [insert_sorted]. destruct (key_leb x y) eqn:E.
  - split; [exact E | exact Hl].
  - apply stage2_key_leb_total in E.
    destruct r as [| z r'].
    + cbn. auto.
    + destruct Hl as [Hyz Hr]. specialize (IH Hr).
      cbn [insert_sorted] in IH |- *.
      destruct (key_leb x z); cbn [in_sort_order]; auto.
Qed.

Lemma stage2_sort_lines_order (l : list string) : in_sort_order (sort_lines l).
Proof.
  induction l as [| x r IH]; [exact I |].
  cbn [sort_lines fold_right]. now apply stage2_insert_sorted_order.
Qed.

(** *** Every line is a record *)

Definition record_line (ln : string) : Prop :=
  exists c k v t,
    ln = fmt4 c k v t /\ nopipe c /\ nopipe k /\ nopipe v /\ nopipe t
    /\ String.eqb (casefold v) "not stated" = false.

Lemma clean_line_value (flags : Flags) (ln : string) (r : Rec4) :
  clean_line flags ln = Some r ->
  String.eqb (casefold (r_value r)) "not stated" = false.
Proof.
  unfold clean_line.
  destruct (recover_parts flags (map strip (split_on "|" ln)))
    as [| c [| k [| v0 [| t [| x rest]]]]]; try discriminate.
  destruct (_ || _ || _ || _); [discriminate |].
  cbv zeta.
  destruct (String.eqb (casefold _) "not stated") eqn:E; [discriminate |].
  destruct (_ && _); [discriminate |].
  intros H. injection H as <-. exact E.
Qed.

Lemma rec_record_line (r : Rec4) (t : string) :
  wf_rec r -> String.eqb (casefold (r_value r)) "not stated" = false -> nopipe t ->
  record_line (fmt4 (r_cluster r) (r_keyword r) (r_value r) t).
Proof.
  intros (Hc & Hk & Hv & _) Hns Ht.
  exists (r_cluster r), (r_keyword r), (r_value r), t. now repeat split.
Qed.

Lemma cons_nopipe (c : ascii) (s : string) :
  Ascii.eqb "|" c = false -> nopipe s -> nopipe (String c s).
Proof. unfold nopipe. cbn [mem_char]. now intros -> ->. Qed.

Lemma split_on_keeps_nopipe (sep : ascii) (s : string) :
  nopipe s -> Forall nopipe (split_on sep s).
Proof.
  unfold nopipe at 1. induction s as [| c r IH]; intros H; cbn [split_on].
  - constructor; [reflexivity | constructor].
  - cbn [mem_char] in H. apply orb_false_elim in H as [Hc Hr].
    specialize (IH Hr).
    destruct (Ascii.eqb c sep).
    + constructor; [reflexivity | exact IH].
    + destruct (split_on sep r) as [| h t].
      * constructor; [now apply cons_nopipe | constructor].
      * inversion IH as [| ? ? Hh Ht]; subst.
        constructor; [now apply cons_nopipe | exact Ht].
Qed.

Lemma words_keep_nopipe (s : string) : nopipe s -> Forall nopipe (words s).
Proof.
  unfold words. unfold nopipe at 1.
  induction s as [| c r IH]; intros H; [constructor |].
  cbn [mem_char] in H. apply orb_false_elim in H as [Hc Hr]. specialize (IH Hr).
  cbn [words_aux]. destruct (words_aux r) as [ws open] eqn:E. cbn [fst] in IH.
  destruct (is_space c); [exact IH |].
  destruct ws as [| h t].
  - destruct open; cbn [fst]; (constructor; [now apply cons_nopipe | constructor]).
  - inversion IH as [| ? ? Hh Ht]; subst.
    destruct open; cbn [fst].
    + constructor; [now apply cons_nopipe | exact Ht].
    + constructor; [now apply cons_nopipe | exact IH].
Qed.

Lemma join_keeps_nopipe (sep : string) (l : list string) :
  nopipe sep -> Forall nopipe l -> nopipe (join sep l).
Proof.
  intros Hs. induction 1 as [| x r Hx Hr IH]; [reflexivity |].
  cbn [join]. destruct r as [| y r']; [exact Hx |].
  unfold nopipe in *. now rewrite !mem_char_app, Hx, Hs, IH.
Qed.

Lemma dedup_exact_incl (seen l : list string) (x : string) :
  In x (dedup_exact seen l) -> In x l.
Proof.
  revert seen. induction l as [| v r IH]; intros seen; cbn [dedup_exact];
    [intros [] |].
  destruct (str_in v seen).
  - intros H. right. now apply (IH seen).
  - intros [<- | H]; [now left | right; now apply (IH (v :: seen))].
Qed.

Lemma split_items_nopipe (value : string) :
  nopipe value -> Forall nopipe (_split_semantic_items value).
Proof.
  intros Hv. unfold _split_semantic_items. cbv zeta.
  destruct (is_empty (strip value)); [constructor |].
  apply Forall_forall. intros x Hx.
  apply dedup_exact_incl in Hx. apply filter_In in Hx as [Hx _].
  apply in_map_iff in Hx as (item & <- & Hitem).
  apply nopipe_strip_chars, join_keeps_nopipe; [reflexivity |].
  apply words_keep_nopipe.
  apply in_concat in Hitem as (l & Hl & Hitem).
  apply in_map_iff in Hl as (seg & <- & Hseg).
  apply filter_In in Hitem as [Hitem _].
  apply in_map_iff in Hitem as (piece & <- & Hpiece).
  apply nopipe_strip.
  assert (Hsegn : nopipe seg).
  { apply filter_In in Hseg as [Hseg _].
    apply in_map_iff in Hseg as (s1 & <- & Hs1). apply nopipe_strip.
    apply in_concat in Hs1 as (l1 & Hl1 & Hs1).
    apply in_map_iff in Hl1 as (s0 & <- & Hs0).
    pose proof (split_on_keeps_nopipe ";" (strip value) (nopipe_strip _ Hv)) as H0.
    rewrite Forall_forall in H0. specialize (H0 s0 Hs0).
    pose proof (split_on_keeps_nopipe "010" s0 H0) as H1.
    rewrite Forall_forall in H1. now apply H1. }
  pose proof (split_on_keeps_nopipe "," seg Hsegn) as H2.
  rewrite Forall_forall in H2. now apply H2.
Qed.

Lemma semantic_keyword_nopipe (k : string) :
  nopipe k -> nopipe (_normalize_semantic_keyword k).
Proof.
  intros Hk. unfold _normalize_semantic_keyword, rstrip_chars.
  apply mem_char_rstrip_by. apply join_keeps_nopipe; [reflexivity |].
  apply words_keep_nopipe. now apply nopipe_strip.
Qed.

Lemma problem_value_ok (value ts norm_v : string) :
  _normalize_problem_value value ts = Some norm_v ->
  In norm_v ["chronic"; "acute"; "exist"; "not exist"].
Proof.
  unfold _normalize_problem_value. cbv zeta.
  destruct (_ || _); [discriminate |].
  destruct (str_in _ ["chronic"; "acute"; "exist"; "not exist"]) eqn:E.
  { intros H. injection H as <-. now apply str_in_In in E. }
  repeat match goal with
         | |- (if ?b then _ else _) = _ -> _ => destruct b
         end; intros H; try discriminate H; injection H as <-; cbn; tauto.
Qed.

Lemma symptom_value_ok (value norm_v : string) :
  _normalize_symptom_value value = Some norm_v -> In norm_v ["yes"; "no"; "severe"].
Proof.
  unfold _normalize_symptom_value. cbv zeta.
  destruct (_ || _); [discriminate |].
  destruct (str_in _ ["yes"; "no"; "severe"]) eqn:E.
  { intros H. injection H as <-. now apply str_in_In in E. }
  repeat match goal with
         | |- (if ?b then _ else _) = _ -> _ => destruct b
         end; intros H; try discriminate H; injection H as <-; cbn; tauto.
Qed.

Lemma items_record_lines (c v t : string) (items : list string) :
  nopipe c -> nopipe v -> nopipe t ->
  String.eqb (casefold v) "not stated" = false ->
  Forall nopipe items ->
  Forall record_line (map (fun it => fmt4 c it v t) items).
Proof.
  intros Hc Hv Ht Hns Hit. apply Forall_map. eapply Forall_impl; [| exact Hit].
  intros it Hi. exists c, it, v, t. now repeat split.
Qed.

Lemma expand_record_lines (r : Rec4) :
  wf_rec r -> String.eqb (casefold (r_value r)) "not stated" = false ->
  Forall record_line
    (_expand_semantic_line (r_cluster r) (r_keyword r) (r_value r) (r_ts r)).
Proof.
  intros Hwf Hns. pose proof Hwf as (Hc & Hk & Hv & Ht & _).
  pose proof (split_items_nopipe _ Hv) as Hitems.
  pose proof (semantic_keyword_nopipe _ Hk) as Hkw.
  unfold _expand_semantic_line.
  destruct (negb (str_in (r_cluster r) ["PROBLEMS"; "SYMPTOMS"])).
  { constructor; [now apply rec_record_line | constructor]. }
  cbv zeta.
  destruct (String.eqb (r_cluster r) "PROBLEMS").
  - destruct (_ && _); [now apply items_record_lines |].
    destruct (_ && _); [now apply items_record_lines |].
    destruct (_normalize_problem_value (r_value r) (r_ts r)) as [nv |] eqn:En;
      [| constructor].
    apply problem_value_ok in En.
    constructor; [| constructor].
    eexists "PROBLEMS", _, nv, _. split; [reflexivity |].
    split; [reflexivity |]. split; [exact Hkw |].
    cbn in En.
    split; [destruct En as [<- | [<- | [<- | [<- | []]]]]; reflexivity |].
    split.
    + destruct (String.eqb _ "unknown"); [| exact Ht].
      destruct (String.eqb nv "acute"); [reflexivity |].
      destruct (String.eqb nv "chronic"); reflexivity.
    + destruct En as [<- | [<- | [<- | [<- | []]]]]; reflexivity.
  - destruct (_ && _); [now apply items_record_lines |].
    destruct (_ && _); [now apply items_record_lines |].
    destruct (_normalize_symptom_value (r_value r)) as [nv |] eqn:En; [| constructor].
    apply symptom_value_ok in En.
    constructor; [| constructor].
    eexists "SYMPTOMS", _, nv, _. split; [reflexivity |].
    split; [reflexivity |]. split; [exact Hkw |].
    cbn in En.
    split; [destruct En as [<- | [<- | [<- | []]]]; reflexivity |].
    split; [exact Ht |].
    destruct En as [<- | [<- | [<- | []]]]; reflexivity.
Qed.

Lemma sanitize_others_records (flags : Flags) (scope : Scope) (lines : list string) :
  forall st, Forall record_line (snd st) ->
  Forall record_line (snd (fold_left (sanitize_step flags scope) lines st)).
Proof.
  induction lines as [| ln rest IH]; intros [b o] Ho; cbn [fold_left]; [exact Ho |].
  apply IH. unfold sanitize_step.
  destruct (clean_line flags ln) as [r |] eqn:Ec; [| exact Ho].
  pose proof (clean_line_wf _ _ _ Ec) as Hwf.
  pose proof (clean_line_value _ _ _ Ec) as Hns.
  pose proof Hwf as (_ & _ & _ & Ht & _).
  assert (Hline : record_line (fmt4 (r_cluster r) (r_keyword r) (r_value r) (r_ts r)))
    by now apply rec_record_line.
  destruct (str_in (r_cluster r) objective_clusters); [exact Ho |].
  destruct (str_in (r_cluster r) semantic_clusters); destruct scope;
    try exact Ho; cbn [snd] in *.
  - destruct (expand_semantic_lines flags); cbn [snd].
    + apply Forall_app. split; [exact Ho | now apply expand_record_lines].
    + apply Forall_app. split; [exact Ho | now constructor].
  - apply Forall_app. split; [exact Ho | now constructor].
Qed.

Lemma objective_record_value (flags : Flags) (lines : list string) (r : Rec4) :
  In r (objective_records flags lines) ->
  String.eqb (casefold (r_value r)) "not stated" = false.
Proof.
  unfold objective_records. rewrite in_flat_map. intros (ln & _ & Hin).
  destruct (clean_line flags ln) as [r' |] eqn:Ec; [| contradiction].
  destruct (str_in (r_cluster r') objective_clusters); [| contradiction].
  destruct Hin as [<- | []]. now apply (clean_line_value flags ln).
Qed.

(** X26.  Whatever the scope and the flags, every line that
    [_sanitize_stage2_lines] returns has exactly four fields, its value is
    never the placeholder [not stated], and the lines are in non-decreasing
    order of cluster and keyword. *)
Theorem sanitize_output_records (flags : Flags) (lines : list string)
  (scope : string) (out : list string) :
  _sanitize_stage2_lines flags lines scope = Some out ->
  in_sort_order out
  /\ forall ln, In ln out ->
       exists c k v t,
         split_on "|" ln = [c; k; v; t]
         /\ String.eqb (casefold v) "not stated" = false.
Proof.
  unfold _sanitize_stage2_lines.
  destruct (parse_scope scope) as [sc |]; [| discriminate].
  intros H. injection H as <-.
  split; [unfold sanitize; destruct (fold_left _ _ _); apply stage2_sort_lines_order |].
  intros ln Hin.
  assert (Hrec : record_line ln).
  { destruct (sanitize_parts flags sc lines) as (others & extra & Hex & Hoth & Heq).
    rewrite Heq in Hin.
    apply (Permutation_in _ (sort_lines_perm _)) in Hin.
    apply in_app_or in Hin as [Hin | Hin].
    - apply in_map_iff in Hin as (e & <- & He).
      destruct (best_entry_wf _ _ _ He) as (Hwf & _ & Hfirst).
      unfold fmt_best. cbv zeta. apply rec_record_line; [exact Hwf | |].
      + apply (objective_record_value flags lines).
        now apply first_of_highest_rank_In.
      + unfold out_ts. destruct Hwf as (_ & _ & _ & Ht & _).
        destruct sc; [apply default_ts_nopipe |].
        destruct (force_objective_ts_canonical_in_all flags);
          [apply default_ts_nopipe | exact Ht].
    - destruct sc; [destruct Hin |].
      rewrite Forall_forall in Hex. specialize (Hex ln Hin). subst others.
      pose proof (sanitize_others_records flags ScopeAll lines ([], [])
                    (Forall_nil _)) as Hall.
      rewrite Forall_forall in Hall. now apply Hall. }
  destruct Hrec as (c & k & v & t & -> & Hc & Hk & Hv & Ht & Hns).
  exists c, k, v, t. split; [now apply fields4 | exact Hns].
Qed.

Lemma sanitize_output_records_witness :
  in_sort_order ["PROBLEMS|CHF|chronic|Past"; "VITALS|Heart Rate|88|Admission"]
  /\ forall ln,
       In ln ["PROBLEMS|CHF|chronic|Past"; "VITALS|Heart Rate|88|Admission"] ->
       exists c k v t,
         split_on "|" ln = [c; k; v; t]
         /\ String.eqb (casefold v) "not stated" = false.
Proof.
  apply (sanitize_output_records validated
           ["VITALS|Heart Rate|88|Admission"; "LABS|WBC|not stated|Admission";
            "PROBLEMS|CHF|chronic|Past"; "junk"] "all").
  reflexivity.
Defined.

End Stage2Shape.

(* ===================================================================== *)
(** ** Value clean-up helpers and the repetition-loop filter *)
(* ===================================================================== *)

Module ValueHelpers.
Import PyStr PyStrFacts PyStrMore PostFilter.

Definition mental_status_values : list string :=
  ["alert"; "oriented"; "lethargic"; "confused"; "not stated"].

Lemma mental_status_closed (v : string) :
  In (_sanitize_mental_status_value v) mental_status_values.
Proof.
  unfold _sanitize_mental_status_value. cbv zeta.
  destruct (_ || _); [cbn; tauto |].
  destruct (_ || _); [cbn; tauto |].
  destruct (_ || _); [cbn; tauto |].
  destruct (contains "letharg" _); [cbn; tauto |].
  destruct (contains "confus" _); [cbn; tauto |].
  destruct (str_in _ _) eqn:E; [| cbn; tauto].
  apply str_in_In in E. cbn in E |- *. tauto.
Qed.

(** X27.  [_sanitize_mental_status_value] returns one of [alert],
    [oriented], [lethargic], [confused], [not stated], and leaves each of
    these five values as it is; [_normalize_binary_text_value] applied to
    its own result changes nothing. *)
Theorem value_sanitizers_stable (v : string) :
  In (_sanitize_mental_status_value v) mental_status_values
  /\ _sanitize_mental_status_value (_sanitize_mental_status_value v)
     = _sanitize_mental_status_value v
  /\ _normalize_binary_text_value (_normalize_binary_text_value v)
     = _normalize_binary_text_value v.
Proof.
  split; [apply mental_status_closed |]. split.
  - pose proof (mental_status_closed v) as H.
    cbn in H. destruct H as [<- | [<- | [<- | [<- | [<- | []]]]]]; reflexivity.
  - remember (_normalize_binary_text_value v) as r eqn:Er.
    unfold _normalize_binary_text_value in Er. cbv zeta in Er.
    destruct (str_in (casefold (strip v)) Stage2._TEXT_PLACEHOLDERS) eqn:E1;
      [subst r; reflexivity |].
    destruct (str_in (casefold (strip v)) ["1"; "1.0"; "true"; "yes"; "y"]) eqn:E2;
      [subst r; reflexivity |].
    destruct (str_in (casefold (strip v)) ["0"; "0.0"; "false"; "no"; "n"]) eqn:E3;
      [subst r; reflexivity |].
    subst r. unfold _normalize_binary_text_value. cbv zeta.
    now rewrite strip_idem, E1, E2, E3.
Qed.

(** *** Consecutive duplicates *)

Fixpoint no_repeat (l : list string) : Prop :=
  match l with
  | x :: ((y :: _) as r) => x <> y /\ no_repeat r
  | _ => True
  end.

(** The loop of [run_stage2] as a recursion on the rest of the lines. *)
Fixpoint skip_repeats (prev : string) (rest : list string) : list string :=
  match rest with
  | [] => []
  | x :: r => if String.eqb x prev then skip_repeats prev r
              else x :: skip_repeats x r
  end.

Lemma last_snoc (acc : list string) (p : string) : last (acc ++ [p]) EmptyString = p.
Proof. apply last_last. Qed.

Lemma dedup_fold (rest acc : list string) (p : string) :
  fold_left
    (fun deduped ln =>
       if String.eqb ln (last deduped EmptyString) then deduped
       else (deduped ++ [ln])%list)
    rest (acc ++ [p])%list
  = (acc ++ p :: skip_repeats p rest)%list.
Proof.
  revert acc p. induction rest as [| x r IH]; intros acc p; cbn [fold_left skip_repeats].
  - reflexivity.
  - rewrite last_snoc. destruct (String.eqb x p).
    + apply IH.
    + rewrite (IH (acc ++ [p])%list x). now rewrite <- app_assoc.
Qed.

Lemma consecutive_dedup_skip (first : string) (rest : list string) :
  consecutive_dedup (first :: rest) = first :: skip_repeats first rest.
Proof.
  destruct rest as [| y r]; [reflexivity |].
  unfold consecutive_dedup. apply (dedup_fold (y :: r) [] first).
Qed.

Lemma skip_repeats_no_repeat (p : string) (rest : list string) :
  no_repeat (p :: skip_repeats p rest).
Proof.
  revert p. induction rest as [| x r IH]; intros p; cbn [skip_repeats]; [exact I |].
  destruct (String.eqb x p) eqn:E; [apply IH |].
  split; [| apply IH].
  intros ->. now rewrite String.eqb_refl in E.
Qed.

Lemma skip_repeats_fixed (p : string) (l : list string) :
  no_repeat (p :: l) -> skip_repeats p l = l.
Proof.
  revert p. induction l as [| x r IH]; intros p H; [reflexivity |].
  destruct H as [Hne Hr]. cbn [skip_repeats].
  destruct (String.eqb x p) eqn:E.
  - apply String.eqb_eq in E. now subst.
  - f_equal. now apply IH.
Qed.

Lemma skip_repeats_sublist (p : string) (rest : list string) (x : string) :
  In x (skip_repeats p rest) -> In x rest.
Proof.
  revert p. induction rest as [| y r IH]; intros p; cbn [skip_repeats]; [tauto |].
  destruct (String.eqb y p).
  - intros H. right. now apply (IH p).
  - intros [<- | H]; [now left | right; now apply (IH y)].
Qed.

(** X28.  The repetition-loop filter of [run_stage2] leaves no two equal
    neighbours; the lines that occur in its output are exactly the lines
    that occur in its input, the first line stays first, and running it a
    second time changes nothing. *)
Theorem consecutive_dedup_no_repeats (lines : list string) :
  no_repeat (consecutive_dedup lines)
  /\ (forall ln, In ln (consecutive_dedup lines) <-> In ln lines)
  /\ hd_error (consecutive_dedup lines) = hd_error lines
  /\ consecutive_dedup (consecutive_dedup lines) = consecutive_dedup lines.
Proof.
  destruct lines as [| first rest].
  { cbn. repeat split; tauto. }
  rewrite !consecutive_dedup_skip.
  pose proof (skip_repeats_no_repeat first rest) as Hn.
  repeat split.
  - exact Hn.
  - intros [<- | H]; [now left | right; now apply (skip_repeats_sublist first)].
  - intros [<- | H]; [now left |].
    clear Hn. revert first H. induction rest as [| y r IH]; intros first H;
      [destruct H |].
    cbn [skip_repeats]. destruct (String.eqb y first) eqn:E.
    + apply String.eqb_eq in E. subst y.
      destruct H as [<- | H]; [now left | now apply IH].
    + destruct H as [<- | H]; [right; now left |].
      right. apply (IH y H).
  - f_equal. now apply skip_repeats_fixed.
Qed.

End ValueHelpers.
